(** * ThinkThrift: the account vault console

    A shallow embedding of the view model of [src/components/AccountTable.tsx]
    and of its detail panel, of the store handlers and the routing of the
    application shell ([App]), of the sign-in form, of the charts of the
    dashboard and of the two calls of [src/services/geminiService.ts],
    followed by the properties of the console's specification that concern
    them and by further properties of the code.

    Conventions of the embedding.
    - A JavaScript [number] is an exact rational [Q]; [NaN] and the
      infinities are not represented.
    - A JavaScript string is the [string] of the bytes of its text in
      UTF-8.  [startsWith], [includes], [split], [replace], [join] and
      [trim] are the functions of the platform on every text; [trim] strips
      all the white space of ECMAScript, the no-break space and the other
      spaces outside ASCII included.  [toLowerCase] is the function of the
      platform on ASCII text: the platform also folds the letters that lie
      outside ASCII, which are not modelled, so a property whose truth
      depends on the folding is stated for ASCII text, with [isAscii] as a
      hypothesis.
    - A [Set<string>] is a [gset string]; an array is a [list].
    - A React state cell is a field of a state record, an event handler is a
      function from the state before the event to the state after it, and
      what the handler asks of its props is returned beside the new state.
    - What the host platform computes (number printing, the parsing of JSON
      and of numeric strings, the check of an e-mail input) is a variable of
      the section [Console]. *)

From Stdlib Require Import ZArith QArith Qround String Ascii List Lia.
From Stdlib Require Import Sorting.Sorted Permutation DecimalString.
From stdpp Require Import base gmap sets list strings.

Local Open Scope string_scope.
Local Open Scope list_scope.

(** ** The entity model ([src/types.ts]) *)

Definition number : Type := Q.

Record ActivityLog : Type := {
  date : string;
  action : string;
  details : option string
}.

Inductive Platform : Type := Twitter | Instagram | LinkedIn | TikTok.

Inductive Status : Type := Active | Shadowbanned | Suspended | Verified.

(** An optional property [f?: T] is an [option T]: [None] is [undefined]. *)
Record UserAccount : Type := {
  id : string;
  username : string;
  platform : Platform;
  followers : number;
  engagementRate : number;
  status : Status;
  lastActive : string;
  bio : string;
  category : string;
  avatar : string;
  realName : option string;
  email : option string;
  password : option string;
  twoFactorSecret : option string;
  phone : option string;
  website : option string;
  country : option string;
  tags : option (list string);
  isFavorite : option bool;
  isArchived : option bool;
  accountManager : option string;
  targetAudience : option string;
  lastPostedDate : option string;
  creationDate : option string;
  notes : option string;
  history : option (list ActivityLog)
}.

Record AIAnalysisResult : Type := {
  sentiment : string;
  strengths : list string;
  weaknesses : list string;
  growthStrategy : string
}.

(** The names of the two string enumerations, as JavaScript sees them. *)
Definition Platform_name (p : Platform) : string :=
  match p with
  | Twitter => "Twitter"
  | Instagram => "Instagram"
  | LinkedIn => "LinkedIn"
  | TikTok => "TikTok"
  end.

Definition Status_name (s : Status) : string :=
  match s with
  | Active => "Active"
  | Shadowbanned => "Shadowbanned"
  | Suspended => "Suspended"
  | Verified => "Verified"
  end.

(** ** The object held by the entry form

    [formState] has the twenty properties of [initialFormState]; after
    [openEditModal] spreads an account over them it also carries the
    account's remaining properties ([id], [lastActive], [avatar],
    [isFavorite], [isArchived], [history]), which are absent in add mode.
    The objects handed to [onAddAccount] and [onUpdateAccount] are spreads of
    [formState] and have the same shape. *)
Module Form.

Record FormState : Type := {
  username : string;
  platform : Platform;
  followers : number;
  engagementRate : number;
  status : Status;
  bio : string;
  category : string;
  realName : string;
  email : string;
  password : string;
  twoFactorSecret : string;
  phone : string;
  website : string;
  country : string;
  tags : list string;
  accountManager : string;
  targetAudience : string;
  lastPostedDate : string;
  creationDate : string;
  notes : string;
  id : option string;
  lastActive : option string;
  avatar : option string;
  isFavorite : option bool;
  isArchived : option bool;
  history : option (list ActivityLog)
}.

End Form.

(** ** JavaScript strings *)

(** [s.startsWith(p)] *)
Fixpoint startsWith (s p : string) {struct p} : bool :=
  match p with
  | EmptyString => true
  | String c p' =>
      match s with
      | EmptyString => false
      | String d s' => if Ascii.eqb c d then startsWith s' p' else false
      end
  end.

(** [s.includes(p)] *)
Fixpoint includes (s p : string) : bool :=
  startsWith s p ||
  match s with
  | EmptyString => false
  | String _ s' => includes s' p
  end.

Definition lower_ascii (c : ascii) : ascii :=
  let n := nat_of_ascii c in
  if (65 <=? n)%nat && (n <=? 90)%nat then ascii_of_nat (n + 32) else c.

(** [s.toLowerCase()] on ASCII text: the letters A to Z are folded, one by
    one, and every other character is kept. *)
Fixpoint toLowerCase (s : string) : string :=
  match s with
  | EmptyString => EmptyString
  | String c s' => String (lower_ascii c) (toLowerCase s')
  end.

(** [s.split(sep)] for a separator of one character; the result is never
    empty: [''.split(',')] is [['']]. *)
Fixpoint split (sep : ascii) (s : string) : list string :=
  match s with
  | EmptyString => [EmptyString]
  | String c s' =>
      if Ascii.eqb c sep then EmptyString :: split sep s'
      else match split sep s' with
           | [] => [String c EmptyString]
           | h :: t => String c h :: t
           end
  end.

(** [Boolean(s)] on a string: only the empty string is falsy. *)
Definition truthy_string (s : string) : bool :=
  match s with
  | EmptyString => false
  | String _ _ => true
  end.

(** The white space [trim] strips is the white space and the line
    terminators of ECMAScript.  Those of one byte: the characters 9 to 13
    and the space. *)
Definition is_space (c : ascii) : bool :=
  let n := nat_of_ascii c in
  ((9 <=? n)%nat && (n <=? 13)%nat) || (n =? 32)%nat.

(** Of two bytes: the no-break space U+00A0. *)
Definition is_space2 (c d : ascii) : bool :=
  (nat_of_ascii c =? 194)%nat && (nat_of_ascii d =? 160)%nat.

(** Of three bytes: U+1680, U+2000 to U+200A, U+2028, U+2029, U+202F,
    U+205F, U+3000 and U+FEFF. *)
Definition is_space3 (c d e : ascii) : bool :=
  let a := nat_of_ascii c in
  let b := nat_of_ascii d in
  let k := nat_of_ascii e in
  ((a =? 225) && (b =? 154) && (k =? 128))%nat
  || ((a =? 226) && (b =? 128)
      && (((128 <=? k) && (k <=? 138)) || (k =? 168) || (k =? 169)
          || (k =? 175)))%nat
  || ((a =? 226) && (b =? 129) && (k =? 159))%nat
  || ((a =? 227) && (b =? 128) && (k =? 128))%nat
  || ((a =? 239) && (b =? 187) && (k =? 191))%nat.

(** [s.trimStart()] *)
Fixpoint trimStart (s : string) : string :=
  match s with
  | EmptyString => EmptyString
  | String c s1 =>
      if is_space c then trimStart s1
      else match s1 with
           | EmptyString => s
           | String d s2 =>
               if is_space2 c d then trimStart s2
               else match s2 with
                    | EmptyString => s
                    | String e s3 =>
                        if is_space3 c d e then trimStart s3 else s
                    end
           end
  end.

(** [s.trimEnd()]: the text is cut where what follows is white space to
    the end. *)
Fixpoint trimEnd (s : string) : string :=
  match s with
  | EmptyString => EmptyString
  | String c s' =>
      if truthy_string (trimStart s) then String c (trimEnd s')
      else EmptyString
  end.

(** [s.trim()] *)
Definition trim (s : string) : string := trimEnd (trimStart s).

(** [s.replace(c, r)] for a pattern of one character: only the first
    occurrence is replaced. *)
Fixpoint replace (c : ascii) (r : string) (s : string) : string :=
  match s with
  | EmptyString => EmptyString
  | String d s' => if Ascii.eqb d c then r ++ s' else String d (replace c r s')
  end.

(** [xs.join(sep)] on an array of strings. *)
Fixpoint join (sep : string) (xs : list string) : string :=
  match xs with
  | [] => EmptyString
  | [x] => x
  | x :: rest => x ++ sep ++ join sep rest
  end.

(** Truthiness of an optional boolean property: [undefined] is falsy. *)
Definition truthy_flag (b : option bool) : bool :=
  match b with
  | Some true => true
  | _ => false
  end.

(** ** JavaScript arrays *)

(** [xs.slice(start, stop)]: a negative index counts from the end, and both
    indexes are clamped to the array. *)
Definition slice {A : Type} (start stop : Z) (xs : list A) : list A :=
  let n := Z.of_nat (length xs) in
  let from := if (start <? 0)%Z then Z.max (n + start) 0 else Z.min start n in
  let to := if (stop <? 0)%Z then Z.max (n + stop) 0 else Z.min stop n in
  take (Z.to_nat (to - from)) (drop (Z.to_nat from) xs).

(** [xs.find(p)] *)
Fixpoint find {A : Type} (p : A -> bool) (xs : list A) : option A :=
  match xs with
  | [] => None
  | x :: rest => if p x then Some x else find p rest
  end.

(** [xs.sort(cmp)].  ECMAScript requires the sort to be stable and, for a
    consistent comparator, to return the elements in the comparator's order;
    every conforming engine then returns the same array, which is the one
    computed here by insertion: each element, taken from the right, is put
    before the first element that does not have to precede it. *)
Fixpoint sort_insert {A : Type} (cmp : A -> A -> Z) (x : A) (sorted : list A)
  : list A :=
  match sorted with
  | [] => [x]
  | y :: rest =>
      if (0 <? cmp x y)%Z then y :: sort_insert cmp x rest
      else x :: y :: rest
  end.

Definition Array_sort {A : Type} (cmp : A -> A -> Z) (xs : list A) : list A :=
  foldr (sort_insert cmp) [] xs.

(** ** JSON values, and what React makes of them *)

(** The values [JSON.parse] returns.  The members of an object are listed
    in the order of the text. *)
#[warnings="-register-all"] Inductive JsonValue : Type :=
  | JsonNull
  | JsonBool (b : bool)
  | JsonNumber (n : number)
  | JsonString (s : string)
  | JsonArray (items : list JsonValue)
  | JsonObject (members : list (string * JsonValue)).

(** [Boolean(v)] *)
Definition truthy_json (v : JsonValue) : bool :=
  match v with
  | JsonNull => false
  | JsonBool b => b
  | JsonNumber n => negb (Qeq_bool n 0)
  | JsonString s => truthy_string s
  | JsonArray _ => true
  | JsonObject _ => true
  end.

(** The member of a name among the members of an object: the last one,
    were the text to give the name twice. *)
Fixpoint lookupMember (k : string) (members : list (string * JsonValue))
  : option JsonValue :=
  match members with
  | [] => None
  | (k', v) :: rest =>
      match lookupMember k rest with
      | Some w => Some w
      | None => if String.eqb k k' then Some v else None
      end
  end.

(** [v.k] for a value other than [null] and a name that no prototype
    defines: [None] is [undefined]. *)
Definition member (k : string) (v : JsonValue) : option JsonValue :=
  match v with
  | JsonObject members => lookupMember k members
  | _ => None
  end.

(** Whether React accepts a value as a child, [{v}] between two tags: a
    text and a number are shown, a boolean and [null] show nothing, an
    array is the list of its children, and an object throws. *)
Fixpoint validChild (v : JsonValue) : bool :=
  match v with
  | JsonObject _ => false
  | JsonArray items => forallb validChild items
  | _ => true
  end.

(** [{o}] where [o] may be [undefined], which shows nothing. *)
Definition childRenders (o : option JsonValue) : bool :=
  match o with
  | Some v => validChild v
  | None => true
  end.

(** [{o.map((x, i) => <li key={i}>{x}</li>)}]: the call throws unless [o]
    is an array. *)
Definition mappedRenders (o : option JsonValue) : bool :=
  match o with
  | Some (JsonArray items) => forallb validChild items
  | _ => false
  end.

(** The analysis block of the detail panel ([AccountTable.tsx], lines 351
    to 381) for [analysis = v]: nothing is read of a falsy value; of a
    truthy one the block shows [sentiment] and [growthStrategy] and maps
    [strengths] and [weaknesses]. *)
Definition rendersAsAnalysis (v : JsonValue) : bool :=
  if truthy_json v
  then childRenders (member "sentiment" v)
       && mappedRenders (member "strengths" v)
       && mappedRenders (member "weaknesses" v)
       && childRenders (member "growthStrategy" v)
  else true.

(** ** The state of the table component *)

Inductive ViewMode : Type := view_active | view_archived.

Inductive Direction : Type := asc | desc.

(** The keys of [UserAccount] whose property is a string or a number.  The
    table's column headers sort by [username] and [accountManager]. *)
Inductive SortKey : Type :=
  | by_id | by_username | by_platform | by_followers | by_engagementRate
  | by_status | by_lastActive | by_bio | by_category | by_avatar
  | by_realName | by_email | by_password | by_twoFactorSecret | by_phone
  | by_website | by_country | by_accountManager | by_targetAudience
  | by_lastPostedDate | by_creationDate | by_notes.

Record SortConfig : Type := {
  key : SortKey;
  direction : Direction
}.

Inductive ModalMode : Type := mode_add | mode_edit.

(** The state cells read or written by the handlers below; the cells of the
    detail panel are left out. *)
Record TableState : Type := {
  searchTerm : string;
  selectedIds : gset string;
  currentPage : Z;
  viewMode : ViewMode;
  sortConfig : option SortConfig;
  showFavoritesOnly : bool;
  isModalOpen : bool;
  modalMode : ModalMode;
  isSubmitting : bool;
  formState : Form.FormState;
  tagsInput : string
}.

Definition setSearchTerm (v : string) (st : TableState) : TableState :=
  {| searchTerm := v; selectedIds := selectedIds st;
     currentPage := currentPage st; viewMode := viewMode st;
     sortConfig := sortConfig st; showFavoritesOnly := showFavoritesOnly st;
     isModalOpen := isModalOpen st; modalMode := modalMode st;
     isSubmitting := isSubmitting st; formState := formState st;
     tagsInput := tagsInput st |}.

Definition setSelectedIds (v : gset string) (st : TableState) : TableState :=
  {| searchTerm := searchTerm st; selectedIds := v;
     currentPage := currentPage st; viewMode := viewMode st;
     sortConfig := sortConfig st; showFavoritesOnly := showFavoritesOnly st;
     isModalOpen := isModalOpen st; modalMode := modalMode st;
     isSubmitting := isSubmitting st; formState := formState st;
     tagsInput := tagsInput st |}.

Definition setCurrentPage (v : Z) (st : TableState) : TableState :=
  {| searchTerm := searchTerm st; selectedIds := selectedIds st;
     currentPage := v; viewMode := viewMode st;
     sortConfig := sortConfig st; showFavoritesOnly := showFavoritesOnly st;
     isModalOpen := isModalOpen st; modalMode := modalMode st;
     isSubmitting := isSubmitting st; formState := formState st;
     tagsInput := tagsInput st |}.

Definition setViewMode (v : ViewMode) (st : TableState) : TableState :=
  {| searchTerm := searchTerm st; selectedIds := selectedIds st;
     currentPage := currentPage st; viewMode := v;
     sortConfig := sortConfig st; showFavoritesOnly := showFavoritesOnly st;
     isModalOpen := isModalOpen st; modalMode := modalMode st;
     isSubmitting := isSubmitting st; formState := formState st;
     tagsInput := tagsInput st |}.

Definition setSortConfig (v : option SortConfig) (st : TableState)
  : TableState :=
  {| searchTerm := searchTerm st; selectedIds := selectedIds st;
     currentPage := currentPage st; viewMode := viewMode st;
     sortConfig := v; showFavoritesOnly := showFavoritesOnly st;
     isModalOpen := isModalOpen st; modalMode := modalMode st;
     isSubmitting := isSubmitting st; formState := formState st;
     tagsInput := tagsInput st |}.

Definition setShowFavoritesOnly (v : bool) (st : TableState) : TableState :=
  {| searchTerm := searchTerm st; selectedIds := selectedIds st;
     currentPage := currentPage st; viewMode := viewMode st;
     sortConfig := sortConfig st; showFavoritesOnly := v;
     isModalOpen := isModalOpen st; modalMode := modalMode st;
     isSubmitting := isSubmitting st; formState := formState st;
     tagsInput := tagsInput st |}.

(** The four cells of the entry modal, written together. *)
Definition setModal (open : bool) (mode : ModalMode) (submitting : bool)
    (form : Form.FormState) (tagsIn : string) (st : TableState) : TableState :=
  {| searchTerm := searchTerm st; selectedIds := selectedIds st;
     currentPage := currentPage st; viewMode := viewMode st;
     sortConfig := sortConfig st; showFavoritesOnly := showFavoritesOnly st;
     isModalOpen := open; modalMode := mode;
     isSubmitting := submitting; formState := form;
     tagsInput := tagsIn |}.

Definition initialFormState : Form.FormState :=
  {| Form.username := ""; Form.platform := Twitter; Form.followers := 0%Q;
     Form.engagementRate := 0%Q; Form.status := Active; Form.bio := "";
     Form.category := ""; Form.realName := ""; Form.email := "";
     Form.password := ""; Form.twoFactorSecret := ""; Form.phone := "";
     Form.website := ""; Form.country := ""; Form.tags := [];
     Form.accountManager := ""; Form.targetAudience := "";
     Form.lastPostedDate := ""; Form.creationDate := ""; Form.notes := "";
     Form.id := None; Form.lastActive := None; Form.avatar := None;
     Form.isFavorite := None; Form.isArchived := None;
     Form.history := None |}.

Definition initialTableState : TableState :=
  {| searchTerm := ""; selectedIds := ∅; currentPage := 1;
     viewMode := view_active; sortConfig := None;
     showFavoritesOnly := false; isModalOpen := false;
     modalMode := mode_add; isSubmitting := false;
     formState := initialFormState; tagsInput := "" |}.

Definition ITEMS_PER_PAGE : Z := 10.

(** What a handler asks of the props of the component. *)
Inductive BulkAction : Type := archive | restore | delete.

Inductive Intent : Type :=
  | onAddAccount (account : Form.FormState)
  | onUpdateAccount (target : option string) (updates : Form.FormState)
  | onDeleteAccount (target : string)
  | onBulkAction (ids : list string) (action : BulkAction).

(** A value read for sorting: [undefined] is the [None] of [option JsVal]. *)
Inductive JsVal : Type :=
  | JsStr (s : string)
  | JsNum (q : number).

(** [a[key]] *)
Definition prop (k : SortKey) (a : UserAccount) : option JsVal :=
  match k with
  | by_id => Some (JsStr (id a))
  | by_username => Some (JsStr (username a))
  | by_platform => Some (JsStr (Platform_name (platform a)))
  | by_followers => Some (JsNum (followers a))
  | by_engagementRate => Some (JsNum (engagementRate a))
  | by_status => Some (JsStr (Status_name (status a)))
  | by_lastActive => Some (JsStr (lastActive a))
  | by_bio => Some (JsStr (bio a))
  | by_category => Some (JsStr (category a))
  | by_avatar => Some (JsStr (avatar a))
  | by_realName => JsStr <$> realName a
  | by_email => JsStr <$> email a
  | by_password => JsStr <$> password a
  | by_twoFactorSecret => JsStr <$> twoFactorSecret a
  | by_phone => JsStr <$> phone a
  | by_website => JsStr <$> website a
  | by_country => JsStr <$> country a
  | by_accountManager => JsStr <$> accountManager a
  | by_targetAudience => JsStr <$> targetAudience a
  | by_lastPostedDate => JsStr <$> lastPostedDate a
  | by_creationDate => JsStr <$> creationDate a
  | by_notes => JsStr <$> notes a
  end.

Definition Qlt_bool (p q : Q) : bool := negb (Qle_bool q p).

(** ** The generative-model endpoint

    The part of a response of [ai.models.generateContent] that the service
    reads, and the two ways its promise settles.  [Chunk] is the type of a
    grounding chunk, which the caller types [any]. *)
Module Gemini.

Record GroundingMetadata (Chunk : Type) : Type := {
  groundingChunks : option (list Chunk)
}.

Record Candidate (Chunk : Type) : Type := {
  groundingMetadata : option (GroundingMetadata Chunk)
}.

Record GenerateContentResponse (Chunk : Type) : Type := {
  text : option string;
  candidates : option (list (Candidate Chunk))
}.

Arguments groundingChunks {Chunk} _.
Arguments groundingMetadata {Chunk} _.
Arguments text {Chunk} _.
Arguments candidates {Chunk} _.

End Gemini.

Inductive Settled (A : Type) : Type :=
  | Fulfilled (value : A)
  | Rejected.

Arguments Fulfilled {A} value.
Arguments Rejected {A}.

(** The object [getPlatformTrends] resolves to. *)
Record PlatformTrends (Chunk : Type) : Type := {
  text : string;
  sources : list Chunk
}.

Arguments text {Chunk} _.
Arguments sources {Chunk} _.

(** ** The detail panel

    The state cells of the slide-over panel of the table. *)
Record PanelState (Json Chunk : Type) : Type := {
  selectedAccount : option UserAccount;
  isAnalyzing : bool;
  analysis : option Json;
  platformTrends : option (PlatformTrends Chunk)
}.

Arguments selectedAccount {Json Chunk} _.
Arguments isAnalyzing {Json Chunk} _.
Arguments analysis {Json Chunk} _.
Arguments platformTrends {Json Chunk} _.

(** ** The sign-in form (the [Login] component) *)
Module Login.

Record LoginState : Type := {
  isLogin : bool;
  email : string;
  password : string;
  name : string;
  loading : bool;
  error : option string
}.

(** How a call to the identity provider settles; [code] is [err.code]. *)
Inductive AuthResult : Type :=
  | AuthOk
  | AuthError (code : option string).

(** [err.code === c] *)
Definition codeIs (code : option string) (c : string) : bool :=
  match code with
  | Some k => String.eqb k c
  | None => false
  end.

(** The message of the [catch] block: three tests, one after the other. *)
Definition errorMessage (code : option string) : string :=
  let msg := "Authentication failed." in
  let msg :=
    if codeIs code "auth/invalid-credential"
    then "Invalid email or password." else msg in
  let msg :=
    if codeIs code "auth/email-already-in-use"
    then "Email already in use." else msg in
  let msg :=
    if codeIs code "auth/weak-password"
    then "Password should be at least 6 characters." else msg in
  msg.

Definition settle (err : option string) (st : LoginState) : LoginState :=
  {| isLogin := isLogin st; email := email st; password := password st;
     name := name st; loading := false; error := err |}.

(** [handleSubmit]: the state once the handler has returned, and whether
    [onLoginSuccess] was called.  [authConfigured] is the truthiness of
    [auth]; the three results are those of [signInWithEmailAndPassword],
    [createUserWithEmailAndPassword] and [updateProfile], the last asked
    only for a sign-up with a name. *)
Definition handleSubmit (authConfigured : bool)
    (signIn createUser updateProfile : AuthResult) (st : LoginState)
  : LoginState * bool :=
  if negb authConfigured
  then (settle (Some "Firebase is not configured. Please check services/firebase.ts") st,
        false)
  else
    let attempt :=
      if isLogin st then signIn
      else match createUser with
           | AuthOk => if truthy_string (name st) then updateProfile else AuthOk
           | AuthError code => AuthError code
           end in
    match attempt with
    | AuthOk => (settle None st, true)
    | AuthError code => (settle (Some (errorMessage code)) st, false)
    end.

(** The link under the form, which switches between sign-in and sign-up. *)
Definition toggleMode (st : LoginState) : LoginState :=
  {| isLogin := negb (isLogin st); email := ""; password := ""; name := "";
     loading := loading st; error := None |}.

End Login.

(** ** The dashboard and the application shell: what is rendered *)
Module Dashboard.

(** A point of the engagement chart. *)
Record TrendPoint : Type := {
  name : string;
  engagement : number;
  followers : number
}.

End Dashboard.

Inductive AppView : Type := DASHBOARD | ACCOUNTS | SETTINGS.

(** What [renderContent] returns: which component, and with which data. *)
Inductive Content : Type :=
  | LoadingDatabase
  | AccountTableOf (records : list UserAccount)
  | DatabaseEmpty
  | DashboardOf (records : list UserAccount)
  | SettingsOf (totalEntries archivedEntries : nat).

Section Console.

(** What the host platform computes. *)

(** The numeric value of a string ([None] is [NaN]). *)
Variable StringToNumber : string -> option number.
(** [String(n)] for a number. *)
Variable NumberToString : number -> string.
(** The check a browser applies to the value of an [<input type="email">]. *)
Variable email_input_valid : string -> bool.
(** [JSON.parse] ([None] when it throws a [SyntaxError]). *)
Variable JSON_parse : string -> option JsonValue.
(** A grounding chunk of a model response (typed [any] by the caller). *)
Variable GroundingChunk : Type.
(** Whether the panel can render a grounding chunk as a source link: it
    reads [src.maps] of the chunk, which throws on [null]. *)
Variable rendersAsSource : GroundingChunk -> bool.

(** ** The derived view ([filteredData], [paginatedData], [totalPages]) *)

Definition ToNumber (v : JsVal) : option number :=
  match v with
  | JsNum q => Some q
  | JsStr s => StringToNumber s
  end.

(** [x < y]: two strings are compared by their code units, anything else by
    numeric value, and a comparison with [NaN] is false. *)
Definition js_lt (x y : JsVal) : bool :=
  match x, y with
  | JsStr s, JsStr t => String.ltb s t
  | _, _ =>
      match ToNumber x, ToNumber y with
      | Some p, Some q => Qlt_bool p q
      | _, _ => false
      end
  end.

(** The comparator handed to [sort]. *)
Definition compareFn (cfg : SortConfig) (a b : UserAccount) : Z :=
  let aVal := default (JsStr "") (prop (key cfg) a) in
  let bVal := default (JsStr "") (prop (key cfg) b) in
  if js_lt aVal bVal then
    match direction cfg with asc => (-1)%Z | desc => 1%Z end
  else if js_lt bVal aVal then
    match direction cfg with asc => 1%Z | desc => (-1)%Z end
  else 0%Z.

(** [o && o.toLowerCase().includes(lower)] on an optional string. *)
Definition includes_opt (o : option string) (lower : string) : bool :=
  match o with
  | Some s => truthy_string s && includes (toLowerCase s) lower
  | None => false
  end.

Definition matchesSearch (lower : string) (item : UserAccount) : bool :=
  includes (toLowerCase (username item)) lower
  || includes (toLowerCase (Platform_name (platform item))) lower
  || includes_opt (realName item) lower
  || includes_opt (email item) lower
  || includes_opt (accountManager item) lower.

Definition inViewMode (mode : ViewMode) (item : UserAccount) : bool :=
  match mode with
  | view_active => negb (truthy_flag (isArchived item))
  | view_archived => truthy_flag (isArchived item)
  end.

Definition filteredData (data : list UserAccount) (st : TableState)
  : list UserAccount :=
  let result := List.filter (inViewMode (viewMode st)) data in
  let result :=
    if truthy_string (searchTerm st)
    then List.filter (matchesSearch (toLowerCase (searchTerm st))) result
    else result in
  let result :=
    if showFavoritesOnly st
    then List.filter (fun item => truthy_flag (isFavorite item)) result
    else result in
  match sortConfig st with
  | Some cfg => Array_sort (compareFn cfg) result
  | None => result
  end.

Definition paginatedData (data : list UserAccount) (st : TableState)
  : list UserAccount :=
  slice ((currentPage st - 1) * ITEMS_PER_PAGE)%Z
        (currentPage st * ITEMS_PER_PAGE)%Z
        (filteredData data st).

(** [Math.ceil(filteredData.length / ITEMS_PER_PAGE)] *)
Definition totalPages (data : list UserAccount) (st : TableState) : Z :=
  Qceiling (inject_Z (Z.of_nat (length (filteredData data st)))
            / inject_Z ITEMS_PER_PAGE).

(** [totalPages || 1], as the pagination footer prints it and as the
    next-page button bounds the page with it. *)
Definition totalPagesOr1 (data : list UserAccount) (st : TableState) : Z :=
  if (totalPages data st =? 0)%Z then 1%Z else totalPages data st.

Definition previousPage (st : TableState) : TableState :=
  setCurrentPage (Z.max 1 (currentPage st - 1)) st.

Definition nextPage (data : list UserAccount) (st : TableState) : TableState :=
  setCurrentPage (Z.min (totalPagesOr1 data st) (currentPage st + 1)) st.

(** ** Selection and sorting handlers *)

Definition toggleSelectAll (data : list UserAccount) (st : TableState)
  : TableState :=
  if (size (selectedIds st) =? length (paginatedData data st))%nat
  then setSelectedIds ∅ st
  else setSelectedIds (list_to_set (map id (paginatedData data st))) st.

Definition toggleSelectOne (i : string) (st : TableState) : TableState :=
  if bool_decide (i ∈ selectedIds st)
  then setSelectedIds (selectedIds st ∖ {[i]}) st
  else setSelectedIds (selectedIds st ∪ {[i]}) st.

Definition SortKey_eqb (j k : SortKey) : bool :=
  match j, k with
  | by_id, by_id | by_username, by_username | by_platform, by_platform
  | by_followers, by_followers | by_engagementRate, by_engagementRate
  | by_status, by_status | by_lastActive, by_lastActive | by_bio, by_bio
  | by_category, by_category | by_avatar, by_avatar
  | by_realName, by_realName | by_email, by_email
  | by_password, by_password | by_twoFactorSecret, by_twoFactorSecret
  | by_phone, by_phone | by_website, by_website | by_country, by_country
  | by_accountManager, by_accountManager
  | by_targetAudience, by_targetAudience
  | by_lastPostedDate, by_lastPostedDate
  | by_creationDate, by_creationDate | by_notes, by_notes => true
  | _, _ => false
  end.

Definition handleSort (k : SortKey) (st : TableState) : TableState :=
  let dir :=
    match sortConfig st with
    | Some cfg =>
        if SortKey_eqb (key cfg) k
        then match direction cfg with asc => desc | desc => asc end
        else asc
    | None => asc
    end in
  setSortConfig (Some {| key := k; direction := dir |}) st.

(** ** The entry modal *)

Definition openAddModal (st : TableState) : TableState :=
  setModal true mode_add (isSubmitting st) initialFormState "" st.

(** [{ ...initialFormState, ...account }]: a property the account has
    replaces the initial one. *)
Definition spreadAccount (account : UserAccount) : Form.FormState :=
  {| Form.username := username account;
     Form.platform := platform account;
     Form.followers := followers account;
     Form.engagementRate := engagementRate account;
     Form.status := status account;
     Form.bio := bio account;
     Form.category := category account;
     Form.realName := default (Form.realName initialFormState) (realName account);
     Form.email := default (Form.email initialFormState) (email account);
     Form.password := default (Form.password initialFormState) (password account);
     Form.twoFactorSecret :=
       default (Form.twoFactorSecret initialFormState) (twoFactorSecret account);
     Form.phone := default (Form.phone initialFormState) (phone account);
     Form.website := default (Form.website initialFormState) (website account);
     Form.country := default (Form.country initialFormState) (country account);
     Form.tags := default (Form.tags initialFormState) (tags account);
     Form.accountManager :=
       default (Form.accountManager initialFormState) (accountManager account);
     Form.targetAudience :=
       default (Form.targetAudience initialFormState) (targetAudience account);
     Form.lastPostedDate :=
       default (Form.lastPostedDate initialFormState) (lastPostedDate account);
     Form.creationDate :=
       default (Form.creationDate initialFormState) (creationDate account);
     Form.notes := default (Form.notes initialFormState) (notes account);
     Form.id := Some (id account);
     Form.lastActive := Some (lastActive account);
     Form.avatar := Some (avatar account);
     Form.isFavorite := isFavorite account;
     Form.isArchived := isArchived account;
     Form.history := history account |}.

(** [account.tags?.join(', ') || ''] *)
Definition tagsInputOf (account : UserAccount) : string :=
  match tags account with
  | Some ts => if truthy_string (join ", " ts) then join ", " ts else ""
  | None => ""
  end.

Definition openEditModal (account : UserAccount) (st : TableState)
  : TableState :=
  setModal true mode_edit (isSubmitting st) (spreadAccount account)
           (tagsInputOf account) st.

(** ** Submitting the entry form *)

(** [tagsInput.split(',').map(t => t.trim()).filter(Boolean)] *)
Definition parseTags (input : string) : list string :=
  List.filter truthy_string (map trim (split "," input)).

(** [u.startsWith('@') ? u : `@${u}`] *)
Definition normalizeUsername (u : string) : string :=
  if startsWith u "@" then u else "@" ++ u.

Definition avatarUrl (u : string) : string :=
  "https://ui-avatars.com/api/?name=" ++ replace "@" "" u
  ++ "&background=random&color=fff".

(** [{ ...formState, username, tags, avatar, history }]: the four named
    properties replace those of the spread. *)
Definition spreadForm (fs : Form.FormState) (u : string) (ts : list string)
    (av : option string) (h : option (list ActivityLog)) : Form.FormState :=
  {| Form.username := u;
     Form.platform := Form.platform fs;
     Form.followers := Form.followers fs;
     Form.engagementRate := Form.engagementRate fs;
     Form.status := Form.status fs;
     Form.bio := Form.bio fs;
     Form.category := Form.category fs;
     Form.realName := Form.realName fs;
     Form.email := Form.email fs;
     Form.password := Form.password fs;
     Form.twoFactorSecret := Form.twoFactorSecret fs;
     Form.phone := Form.phone fs;
     Form.website := Form.website fs;
     Form.country := Form.country fs;
     Form.tags := ts;
     Form.accountManager := Form.accountManager fs;
     Form.targetAudience := Form.targetAudience fs;
     Form.lastPostedDate := Form.lastPostedDate fs;
     Form.creationDate := Form.creationDate fs;
     Form.notes := Form.notes fs;
     Form.id := Form.id fs;
     Form.lastActive := Form.lastActive fs;
     Form.avatar := av;
     Form.isFavorite := Form.isFavorite fs;
     Form.isArchived := Form.isArchived fs;
     Form.history := h |}.

(** [data.find(d => d.id === id)], where [id] may be [undefined]. *)
Definition findById (target : option string) (data : list UserAccount)
  : option UserAccount :=
  match target with
  | Some i => find (fun d => String.eqb (id d) i) data
  | None => None
  end.

(** [currentAccount?.history || []] *)
Definition historyOf (currentAccount : option UserAccount)
  : list ActivityLog :=
  match currentAccount with
  | Some account => default [] (history account)
  | None => []
  end.

(** The call [handleSubmit] makes on the props of the component; [now] is
    [new Date().toISOString()]. *)
Definition submitIntent (now : string) (data : list UserAccount)
    (st : TableState) : Intent :=
  let fs := formState st in
  let ts := parseTags (tagsInput st) in
  let u := normalizeUsername (Form.username fs) in
  match modalMode st with
  | mode_add =>
      onAddAccount
        (spreadForm fs u ts (Some (avatarUrl u))
           (Some [ {| date := now; action := "Account Created";
                      details := Some "Initial entry" |} ]))
  | mode_edit =>
      let target := Form.id fs in
      let currentAccount := findById target data in
      let historyEntry :=
        {| date := now; action := "Profile Updated"; details := None |} in
      onUpdateAccount target
        (spreadForm fs u ts (Form.avatar fs)
           (Some (historyOf currentAccount ++ [historyEntry])))
  end.

(** [handleSubmit]: the call made, and the state once the promise of the
    call has settled; the modal closes only if the promise was fulfilled. *)
Definition handleSubmit (now : string) (promiseFulfilled : bool)
    (data : list UserAccount) (st : TableState) : Intent * TableState :=
  (submitIntent now data st,
   setModal (if promiseFulfilled then false else isModalOpen st)
            (modalMode st) false (formState st) (tagsInput st) st).

(** The constraints the inputs of [entryForm] declare.  The browser checks
    them when the form is submitted and fires the [submit] event, hence
    [handleSubmit], only if all of them hold. *)
Definition is_integer (q : Q) : bool := Qeq_bool (inject_Z (Qfloor q)) q.

(** [<input type="text" required value={formState.username}>] *)
Definition username_input_ok (fs : Form.FormState) : bool :=
  truthy_string (Form.username fs).

(** [<input type="number" required min="0" value={formState.followers}>],
    whose step is the default 1. *)
Definition followers_input_ok (fs : Form.FormState) : bool :=
  Qle_bool 0 (Form.followers fs) && is_integer (Form.followers fs).

(** [<input type="number" required min="0" max="100" step="0.1"
    value={formState.engagementRate}>] *)
Definition engagementRate_input_ok (fs : Form.FormState) : bool :=
  Qle_bool 0 (Form.engagementRate fs)
  && Qle_bool (Form.engagementRate fs) 100
  && is_integer (Form.engagementRate fs * 10).

(** [<input type="email" value={formState.email}>], not required. *)
Definition email_input_ok (fs : Form.FormState) : bool :=
  negb (truthy_string (Form.email fs)) || email_input_valid (Form.email fs).

Definition entryForm_checkValidity (fs : Form.FormState) : bool :=
  username_input_ok fs && followers_input_ok fs
  && engagementRate_input_ok fs && email_input_ok fs.

(** A press of the submit button of the modal: [None] when the browser
    blocks the submission, in which case no handler runs. *)
Definition submitEntryForm (now : string) (promiseFulfilled : bool)
    (data : list UserAccount) (st : TableState)
  : option Intent * TableState :=
  if entryForm_checkValidity (formState st)
  then (Some (handleSubmit now promiseFulfilled data st).1,
        (handleSubmit now promiseFulfilled data st).2)
  else (None, st).

(** ** Deleting, bulk actions and export *)

(** [confirmed] is the answer of [window.confirm]. *)
Definition handleDelete (confirmed : bool) (target : string)
  : option Intent :=
  if confirmed then Some (onDeleteAccount target) else None.

Definition isDelete (a : BulkAction) : bool :=
  match a with
  | delete => true
  | _ => false
  end.

(** [handleBulk]: the selection is cleared after the call; [confirmed] is
    the answer of [window.confirm], asked only for a deletion. *)
Definition handleBulk (confirmed : bool) (a : BulkAction) (st : TableState)
  : option Intent * TableState :=
  if (size (selectedIds st) =? 0)%nat then (None, st)
  else if isDelete a && negb confirmed then (None, st)
  else (Some (onBulkAction (elements (selectedIds st)) a),
        setSelectedIds ∅ st).

Definition exportSource (data : list UserAccount) (st : TableState)
  : list UserAccount :=
  if (0 <? size (selectedIds st))%nat
  then List.filter (fun d => bool_decide (id d ∈ selectedIds st)) data
  else filteredData data st.

Definition csvHeaders : list string :=
  ["ID"; "Username"; "Platform"; "Followers"; "Manager"; "Status"; "Email"].

(** One line of the export; [join] prints [undefined] as the empty string. *)
Definition csvRow (u : UserAccount) : string :=
  join "," [ id u; username u; Platform_name (platform u);
             NumberToString (followers u); default "" (accountManager u);
             Status_name (status u); default "" (email u) ].

Definition csvLines (data : list UserAccount) (st : TableState)
  : list string :=
  join "," csvHeaders :: map csvRow (exportSource data st).

Definition newline : string := String (ascii_of_nat 10) EmptyString.

(** The text [handleExport] offers for download. *)
Definition handleExport (data : list UserAccount) (st : TableState)
  : string :=
  join newline (csvLines data st).

(** ** The application shell: the store round trips

    The "accounts" collection of the document store is a list of accounts,
    one per document, in the order [getDocs] yields them.  A round trip over
    the network either succeeds or fails; which one is an input of the
    handler. *)

Record AppState : Type := {
  db : bool;
  isAuthenticated : bool;
  data : list UserAccount;
  isLoadingData : bool
}.

Definition setData (v : list UserAccount) (loading : bool) (app : AppState)
  : AppState :=
  {| db := db app; isAuthenticated := isAuthenticated app;
     data := v; isLoadingData := loading |}.

(** [{ isArchived }] merged into a document. *)
Definition withIsArchived (v : bool) (a : UserAccount) : UserAccount :=
  {| id := id a; username := username a; platform := platform a;
     followers := followers a; engagementRate := engagementRate a;
     status := status a; lastActive := lastActive a; bio := bio a;
     category := category a; avatar := avatar a; realName := realName a;
     email := email a; password := password a;
     twoFactorSecret := twoFactorSecret a; phone := phone a;
     website := website a; country := country a; tags := tags a;
     isFavorite := isFavorite a; isArchived := Some v;
     accountManager := accountManager a;
     targetAudience := targetAudience a;
     lastPostedDate := lastPostedDate a; creationDate := creationDate a;
     notes := notes a; history := history a |}.

(** The writes of a batch. *)
Inductive BatchOp : Type :=
  | batch_delete (target : string)
  | batch_update (target : string) (isArchivedValue : bool).

Definition hasDoc (store : list UserAccount) (target : string) : bool :=
  existsb (fun d => String.eqb (id d) target) store.

(** An update needs its document to exist; a delete does not. *)
Definition opPermitted (store : list UserAccount) (op : BatchOp) : bool :=
  match op with
  | batch_delete _ => true
  | batch_update target _ => hasDoc store target
  end.

Definition applyOp (store : list UserAccount) (op : BatchOp)
  : list UserAccount :=
  match op with
  | batch_delete target =>
      List.filter (fun d => negb (String.eqb (id d) target)) store
  | batch_update target v =>
      map (fun d => if String.eqb (id d) target then withIsArchived v d else d)
          store
  end.

(** [batch.commit()]: all the writes or none; [None] when it throws. *)
Definition batch_commit (networkOk : bool) (ops : list BatchOp)
    (store : list UserAccount) : option (list UserAccount) :=
  if networkOk && forallb (opPermitted store) ops
  then Some (foldl applyOp store ops)
  else None.

(** [fetchAccounts]: a failure of [getDocs] is logged and leaves [data]. *)
Definition fetchAccounts (networkOk : bool) (store : list UserAccount)
    (app : AppState) : AppState :=
  if negb (db app) || negb (isAuthenticated app) then app
  else if networkOk then setData store false app
  else setData (data app) false app.

Definition batchOf (ids : list string) (a : BulkAction) : list BatchOp :=
  match a with
  | delete => map batch_delete ids
  | archive => map (fun i => batch_update i true) ids
  | restore => map (fun i => batch_update i false) ids
  end.

(** [handleBulkAction]: the store and the shell after the call, and whether
    the failure alert was shown.  The promise is fulfilled in every case. *)
Definition handleBulkAction (commitOk fetchOk : bool) (ids : list string)
    (a : BulkAction) (store : list UserAccount) (app : AppState)
  : list UserAccount * AppState * bool :=
  if negb (db app) then (store, app, false)
  else match batch_commit commitOk (batchOf ids a) store with
       | Some store' => (store', fetchAccounts fetchOk store' app, false)
       | None => (store, app, true)
       end.

(** The bulk bar of the table wired to the shell: [handleBulk] calls
    [onBulkAction], which is [handleBulkAction], and clears the selection
    when the call returns. *)
Definition bulkRoundTrip (confirmed commitOk fetchOk : bool) (a : BulkAction)
    (store : list UserAccount) (app : AppState) (st : TableState)
  : list UserAccount * AppState * TableState :=
  match handleBulk confirmed a st with
  | (Some (onBulkAction ids a'), st') =>
      let '(store', app', _) :=
        handleBulkAction commitOk fetchOk ids a' store app in
      (store', app', st')
  | (_, st') => (store, app, st')
  end.

(** ** The AI service ([src/services/geminiService.ts])

    Each function takes the way the promise of [generateContent] settled.
    A result of [None] is the JavaScript [null]. *)

(** [analyzeAccount]: a rejected call and a [JSON.parse] that throws both
    reach the [catch] block.  The parsed value is handed back as it is: the
    cast to [AIAnalysisResult] checks nothing. *)
Definition analyzeAccount
    (outcome : Settled (Gemini.GenerateContentResponse GroundingChunk))
  : option JsonValue :=
  match outcome with
  | Rejected => None
  | Fulfilled response =>
      match Gemini.text response with
      | Some s =>
          if truthy_string s
          then match JSON_parse s with
               | Some v => Some v
               | None => None
               end
          else None
      | None => None
      end
  end.

(** [response.candidates?.[0]?.groundingMetadata?.groundingChunks || []] *)
Definition groundingSources
    (response : Gemini.GenerateContentResponse GroundingChunk)
  : list GroundingChunk :=
  match Gemini.candidates response with
  | Some (c :: _) =>
      match Gemini.groundingMetadata c with
      | Some m => default [] (Gemini.groundingChunks m)
      | None => []
      end
  | _ => []
  end.

(** [response.text || "No trend data available."] *)
Definition trendText
    (response : Gemini.GenerateContentResponse GroundingChunk) : string :=
  match Gemini.text response with
  | Some s => if truthy_string s then s else "No trend data available."
  | None => "No trend data available."
  end.

Definition getPlatformTrends
    (outcome : Settled (Gemini.GenerateContentResponse GroundingChunk))
  : option (PlatformTrends GroundingChunk) :=
  match outcome with
  | Rejected =>
      Some {| text := "Failed to fetch live trends."; sources := [] |}
  | Fulfilled response =>
      Some {| text := trendText response;
              sources := groundingSources response |}
  end.

(** ** Deleting one record *)

(** [deleteDoc]: deleting a document that does not exist succeeds. *)
Definition deleteDoc (networkOk : bool) (target : string)
    (store : list UserAccount) : option (list UserAccount) :=
  if networkOk
  then Some (List.filter (fun d => negb (String.eqb (id d) target)) store)
  else None.

(** [handleDeleteAccount]: the store and the shell after the call, and
    whether the failure alert was shown. *)
Definition handleDeleteAccount (deleteOk fetchOk : bool) (target : string)
    (store : list UserAccount) (app : AppState)
  : list UserAccount * AppState * bool :=
  if negb (db app) then (store, app, false)
  else match deleteDoc deleteOk target store with
       | Some store' => (store', fetchAccounts fetchOk store' app, false)
       | None => (store, app, true)
       end.

(** The delete button of a row wired to the shell. *)
Definition deleteRoundTrip (confirmed deleteOk fetchOk : bool)
    (target : string) (store : list UserAccount) (app : AppState)
  : list UserAccount * AppState * bool :=
  match handleDelete confirmed target with
  | Some (onDeleteAccount t) =>
      handleDeleteAccount deleteOk fetchOk t store app
  | _ => (store, app, false)
  end.

(** The same click with the table beside the shell: [handleDelete] sets no
    state cell of the table, the selection included, so the table after the
    click is the table before it. *)
Definition deleteRoundTripOnTable (confirmed deleteOk fetchOk : bool)
    (target : string) (store : list UserAccount) (app : AppState)
    (st : TableState)
  : list UserAccount * AppState * TableState :=
  let '(store', app', _) :=
    deleteRoundTrip confirmed deleteOk fetchOk target store app in
  (store', app', st).

(** ** The audit of the detail panel *)

(** The row button that opens the panel on a record. *)
Definition openDetails (user : UserAccount)
    (ps : PanelState JsonValue GroundingChunk)
  : PanelState JsonValue GroundingChunk :=
  {| selectedAccount := Some user; isAnalyzing := isAnalyzing ps;
     analysis := None; platformTrends := None |}.

(** Whether the render of the panel completes in a state: the analysis
    block and the source links are the two places that read a value the
    component has not made itself. *)
Definition panelRenders (ps : PanelState JsonValue GroundingChunk) : bool :=
  match analysis ps with
  | Some result => rendersAsAnalysis result
  | None => true
  end
  && match platformTrends ps with
     | Some trends => forallb rendersAsSource (sources trends)
     | None => true
     end.

(** [runAudit]: the panel once both calls have settled, the second being
    made after the first has; nothing else is taken to write the panel
    meanwhile.  The component is rendered again after [setAnalysis] and
    after the last two writes; a render that throws unmounts the table,
    there being no error boundary, and the writes that follow are lost:
    the result is then [None]. *)
Definition runAudit
    (analysisOutcome trendsOutcome
       : Settled (Gemini.GenerateContentResponse GroundingChunk))
    (ps : PanelState JsonValue GroundingChunk)
  : option (PanelState JsonValue GroundingChunk) :=
  match selectedAccount ps with
  | None => Some ps
  | Some _ =>
      let analysing :=
        {| selectedAccount := selectedAccount ps; isAnalyzing := true;
           analysis := analyzeAccount analysisOutcome;
           platformTrends := platformTrends ps |} in
      if panelRenders analysing then
        let done :=
          {| selectedAccount := selectedAccount ps; isAnalyzing := false;
             analysis := analyzeAccount analysisOutcome;
             platformTrends := getPlatformTrends trendsOutcome |} in
        if panelRenders done then Some done else None
      else None
  end.

(** ** What the shell renders *)

Definition isSettings (v : AppView) : bool :=
  match v with
  | SETTINGS => true
  | _ => false
  end.

Definition renderContent (currentView : AppView) (app : AppState) : Content :=
  if isLoadingData app && (length (data app) =? 0)%nat then LoadingDatabase
  else if negb (isLoadingData app) && (length (data app) =? 0)%nat
          && negb (isSettings currentView)
  then match currentView with
       | ACCOUNTS => AccountTableOf (data app)
       | _ => DatabaseEmpty
       end
  else match currentView with
       | DASHBOARD =>
           DashboardOf
             (List.filter (fun acc => negb (truthy_flag (isArchived acc)))
                (data app))
       | ACCOUNTS => AccountTableOf (data app)
       | SETTINGS =>
           SettingsOf (length (data app))
             (length (List.filter (fun a => truthy_flag (isArchived a))
                        (data app)))
       end.

(** ** The dashboard *)

(** The sign of a number a comparator returns, which is all [sort] reads. *)
Definition numberSign (q : number) : Z := Z.sgn (Qnum q).

(** The rows of the "Top Performers" table:
    [data.slice(0, 5).sort((a, b) => b.engagementRate - a.engagementRate)]. *)
Definition topPerformers (records : list UserAccount) : list UserAccount :=
  Array_sort
    (fun a b => numberSign (engagementRate b - engagementRate a)%Q)
    (slice 0 5 records).

(** [engagementTrendData] *)
Definition engagementTrendData (records : list UserAccount)
  : list Dashboard.TrendPoint :=
  imap
    (fun i u =>
       {| Dashboard.name :=
            "Day " ++ NumberToString (inject_Z (Z.of_nat i + 1));
          Dashboard.engagement := engagementRate u;
          Dashboard.followers := (followers u / 10000)%Q |})
    (Array_sort
       (fun a b => numberSign (engagementRate a - engagementRate b)%Q)
       (slice 0 20 records)).

(** [counts[k] = (counts[k] || 0) + 1] on an object whose keys are kept in
    the order of their first insertion. *)
Fixpoint bump (k : string) (counts : list (string * nat))
  : list (string * nat) :=
  match counts with
  | [] => [(k, 1%nat)]
  | (k', n) :: rest =>
      if String.eqb k k' then (k', S n) :: rest else (k', n) :: bump k rest
  end.

(** [platformData]: a pair is an object [{ name, value }]. *)
Definition platformData (records : list UserAccount) : list (string * nat) :=
  foldl (fun counts d => bump (Platform_name (platform d)) counts) [] records.

(** ** Relations used to state the properties *)

(** [a] stands somewhere before [b] in [xs]. *)
Definition before {A : Type} (a b : A) (xs : list A) : Prop :=
  exists l1 l2 l3, xs = l1 ++ a :: l2 ++ b :: l3.

(** The properties of a submitted object that [handleSubmit] takes from the
    form unchanged in edit mode: all but [username], [tags] and [history]. *)
Definition keepsFormFields (p fs : Form.FormState) : Prop :=
  Form.platform p = Form.platform fs
  /\ Form.followers p = Form.followers fs
  /\ Form.engagementRate p = Form.engagementRate fs
  /\ Form.status p = Form.status fs
  /\ Form.bio p = Form.bio fs
  /\ Form.category p = Form.category fs
  /\ Form.realName p = Form.realName fs
  /\ Form.email p = Form.email fs
  /\ Form.password p = Form.password fs
  /\ Form.twoFactorSecret p = Form.twoFactorSecret fs
  /\ Form.phone p = Form.phone fs
  /\ Form.website p = Form.website fs
  /\ Form.country p = Form.country fs
  /\ Form.accountManager p = Form.accountManager fs
  /\ Form.targetAudience p = Form.targetAudience fs
  /\ Form.lastPostedDate p = Form.lastPostedDate fs
  /\ Form.creationDate p = Form.creationDate fs
  /\ Form.notes p = Form.notes fs
  /\ Form.id p = Form.id fs
  /\ Form.lastActive p = Form.lastActive fs
  /\ Form.avatar p = Form.avatar fs
  /\ Form.isFavorite p = Form.isFavorite fs
  /\ Form.isArchived p = Form.isArchived fs.

(** The object an intent carries to the store, if it carries one. *)
Definition payload (i : Intent) : option Form.FormState :=
  match i with
  | onAddAccount account => Some account
  | onUpdateAccount _ updates => Some updates
  | _ => None
  end.

(** [p] has every property of the account [a] other than [username],
    [tags] and [history]; an optional string that [a] lacks is the empty
    string of the blank form. *)
Definition carriesAccount (p : Form.FormState) (a : UserAccount) : Prop :=
  Form.platform p = platform a
  /\ Form.followers p = followers a
  /\ Form.engagementRate p = engagementRate a
  /\ Form.status p = status a
  /\ Form.bio p = bio a
  /\ Form.category p = category a
  /\ Form.realName p = default "" (realName a)
  /\ Form.email p = default "" (email a)
  /\ Form.password p = default "" (password a)
  /\ Form.twoFactorSecret p = default "" (twoFactorSecret a)
  /\ Form.phone p = default "" (phone a)
  /\ Form.website p = default "" (website a)
  /\ Form.country p = default "" (country a)
  /\ Form.accountManager p = default "" (accountManager a)
  /\ Form.targetAudience p = default "" (targetAudience a)
  /\ Form.lastPostedDate p = default "" (lastPostedDate a)
  /\ Form.creationDate p = default "" (creationDate a)
  /\ Form.notes p = default "" (notes a)
  /\ Form.id p = Some (id a)
  /\ Form.lastActive p = Some (lastActive a)
  /\ Form.avatar p = Some (avatar a)
  /\ Form.isFavorite p = isFavorite a
  /\ Form.isArchived p = isArchived a.

(** The value the comparator reads from a record. *)
Definition sortValue (cfg : SortConfig) (a : UserAccount) : JsVal :=
  default (JsStr "") (prop (key cfg) a).

(** [a] may stand before [b] under [cfg]: the comparator does not order
    [b] strictly before [a]. *)
Definition inOrder (cfg : SortConfig) (a b : UserAccount) : Prop :=
  match direction cfg with
  | asc => js_lt (sortValue cfg b) (sortValue cfg a) = false
  | desc => js_lt (sortValue cfg a) (sortValue cfg b) = false
  end.

(** What is left of [s] behind the white space at its head, if it has
    one there. *)
Definition stripSpace (s : string) : option string :=
  match s with
  | EmptyString => None
  | String c s1 =>
      if is_space c then Some s1
      else match s1 with
           | EmptyString => None
           | String d s2 =>
               if is_space2 c d then Some s2
               else match s2 with
                    | EmptyString => None
                    | String e s3 => if is_space3 c d e then Some s3 else None
                    end
           end
  end.

(** A text of ASCII characters only. *)
Fixpoint isAscii (s : string) : bool :=
  match s with
  | EmptyString => true
  | String c s' => (nat_of_ascii c <? 128)%nat && isAscii s'
  end.

(** [c] occurs in [s]. *)
Fixpoint hasChar (c : ascii) (s : string) : bool :=
  match s with
  | EmptyString => false
  | String d s' => Ascii.eqb d c || hasChar c s'
  end.

(** A tag as the form writes it: not empty, trimmed, without a comma. *)
Definition cleanTag (t : string) : Prop :=
  t <> "" /\ trim t = t /\ hasChar "," t = false.

(** The cells [csvRow] joins. *)
Definition csvCells (u : UserAccount) : list string :=
  [ id u; username u; Platform_name (platform u);
    NumberToString (followers u); default "" (accountManager u);
    Status_name (status u); default "" (email u) ].

(** The text of an export of [source]: the header line and then, for each
    record, a line break and the cells of the record with commas between
    them. *)
Definition exportTextOf (source : list UserAccount) : string :=
  "ID,Username,Platform,Followers,Manager,Status,Email"
  +:+ foldr (fun u rest => newline +:+ join "," (csvCells u) +:+ rest)
        "" source.

(** The value a bulk action writes to [isArchived]. *)
Definition flagOf (a : BulkAction) : bool :=
  match a with
  | archive => true
  | _ => false
  end.

(** The count an object of counts holds for a key, 0 when it has none. *)
Fixpoint lookupCount (k : string) (counts : list (string * nat)) : nat :=
  match counts with
  | [] => 0%nat
  | (k', n) :: rest => if String.eqb k k' then n else lookupCount k rest
  end.

(** The number of records on a platform. *)
Definition countOn (p : string) (records : list UserAccount) : nat :=
  length (List.filter (fun d => String.eqb (Platform_name (platform d)) p)
            records).

(** ** Sample records and a sample host *)

Definition sampleAccount (i u : string) (rate : number)
    (archived : option bool) (log : option (list ActivityLog))
  : UserAccount :=
  {| id := i; username := u; platform := Twitter; followers := 1200%Q;
     engagementRate := rate; status := Active; lastActive := "";
     bio := ""; category := ""; avatar := ""; realName := None;
     email := None; password := None; twoFactorSecret := None;
     phone := None; website := None; country := None; tags := None;
     isFavorite := None; isArchived := archived; accountManager := None;
     targetAudience := None; lastPostedDate := None; creationDate := None;
     notes := None; history := log |}.

Definition ann : UserAccount := sampleAccount "a1" "@ann" (5 # 1) None None.
Definition bob : UserAccount :=
  sampleAccount "b2" "@bob" (4999 # 1000) None None.
Definition cyd : UserAccount :=
  sampleAccount "c3" "@cyd" (5 # 1) (Some true)
    (Some [ {| date := "2024-01-01T00:00:00.000Z";
               action := "Account Created";
               details := Some "Initial entry" |} ]).

Definition sampleData : list UserAccount := [ann; bob; cyd].

Definition eve : UserAccount := sampleAccount "e5" "@eve" (10 # 2) None None.
Definition dan : UserAccount := sampleAccount "d4" "dan" (150 # 1) None None.

(** The table with [ann] alone selected. *)
Definition partlySelected : TableState :=
  setSelectedIds {["a1"]} initialTableState.

(** The table sorted by engagement rate, ascending. *)
Definition sortedByRate : TableState :=
  setSortConfig (Some {| key := by_engagementRate; direction := asc |})
    initialTableState.

(** [cyd] selected in the archived view, and the view switched back. *)
Definition archivedSelected : TableState :=
  setViewMode view_active
    (setSelectedIds {["c3"]} (setViewMode view_archived initialTableState)).

Definition sampleApp : AppState :=
  {| db := true; isAuthenticated := true; data := sampleData;
     isLoadingData := false |}.

(** [fay] is [ann] with a manager and two tags. *)
Definition fay : UserAccount :=
  {| id := "f6"; username := "@fay"; platform := Instagram;
     followers := 800%Q; engagementRate := (7 # 2); status := Suspended;
     lastActive := ""; bio := ""; category := ""; avatar := "";
     realName := Some "Fay Wong"; email := Some "fay@example.org";
     password := None; twoFactorSecret := None; phone := None;
     website := None; country := None; tags := Some ["vip"; "growth"];
     isFavorite := Some true; isArchived := None;
     accountManager := Some "Hal"; targetAudience := None;
     lastPostedDate := None; creationDate := None; notes := None;
     history := None |}.

(** The table sorted by account manager, ascending. *)
Definition sortedByManager : TableState :=
  setSortConfig (Some {| key := by_accountManager; direction := asc |})
    initialTableState.

(** [gus] has a log of one entry and two tags. *)
Definition gus : UserAccount :=
  {| id := "g7"; username := "@gus"; platform := LinkedIn;
     followers := 310%Q; engagementRate := (12 # 5); status := Verified;
     lastActive := "2024-05-30"; bio := "B2B"; category := "Tech";
     avatar := "https://example.org/gus.png";
     realName := Some "Gus Lind"; email := None;
     password := None; twoFactorSecret := None; phone := None;
     website := None; country := Some "Japan";
     tags := Some ["vip"; "growth"];
     isFavorite := None; isArchived := None;
     accountManager := None; targetAudience := None;
     lastPostedDate := None; creationDate := None; notes := None;
     history :=
       Some [ {| date := "2024-01-01T00:00:00.000Z";
                 action := "Account Created";
                 details := Some "Initial entry" |} ] |}.

(** The no-break space, U+00A0. *)
Definition noBreakSpace : string :=
  String (ascii_of_nat 194) (String (ascii_of_nat 160) EmptyString).

(** A response without text that carries two grounding chunks. *)
Definition textlessResponse : Gemini.GenerateContentResponse unit :=
  {| Gemini.text := None;
     Gemini.candidates :=
       Some [ {| Gemini.groundingMetadata :=
                   Some {| Gemini.groundingChunks := Some [tt; tt] |} |} ] |}.

(** An analysis as the service is asked to give it. *)
Definition sampleReport : JsonValue :=
  JsonObject
    [ ("sentiment", JsonString "Positive");
      ("strengths", JsonArray [JsonString "Posts every day"]);
      ("weaknesses", JsonArray []);
      ("growthStrategy", JsonString "Answer the comments.") ].

(** A panel on [ann] that shows an earlier analysis. *)
Definition samplePanel : PanelState JsonValue unit :=
  {| selectedAccount := Some ann; isAnalyzing := false;
     analysis := Some sampleReport; platformTrends := None |}.

(** [ann] and [bob] selected. *)
Definition bothSelected : TableState :=
  setSelectedIds {["a1"; "b2"]} initialTableState.


(** A host whose numeric strings are all [NaN], which prints the integer
    part of a number, accepts every e-mail value and parses only ["{}"],
    the empty object. *)
Definition hostStringToNumber (s : string) : option number := None.
Definition hostNumberToString (q : number) : string :=
  NilZero.string_of_int (Z.to_int (Qfloor q)).
Definition hostEmailValid (s : string) : bool := true.
Definition hostJsonParse (s : string) : option JsonValue :=
  if String.eqb s "{}" then Some (JsonObject []) else None.
(** The chunks of this host are objects, which the panel can render. *)
Definition hostRendersAsSource (chunk : unit) : bool := true.

(** * Properties *)

(** ** Arrays: [sort] permutes, is stable and sorts *)

Lemma sort_insert_Permutation {A : Type} (cmp : A -> A -> Z) (x : A)
    (xs : list A) :
  Permutation (sort_insert cmp x xs) (x :: xs).
Proof.
  induction xs as [|y rest IH]; simpl; [reflexivity|].
  destruct (0 <? cmp x y)%Z; [|reflexivity].
  rewrite IH. apply perm_swap.
Qed.

Lemma Array_sort_Permutation {A : Type} (cmp : A -> A -> Z) (xs : list A) :
  Permutation (Array_sort cmp xs) xs.
Proof.
  induction xs as [|x rest IH]; simpl; [reflexivity|].
  rewrite sort_insert_Permutation. now constructor.
Qed.

Lemma elem_of_Array_sort {A : Type} (cmp : A -> A -> Z) (xs : list A) (x : A) :
  x ∈ Array_sort cmp xs <-> x ∈ xs.
Proof. now rewrite (Array_sort_Permutation cmp xs). Qed.

(** Elements that the comparator never orders one after the other keep
    their relative order. *)
Lemma sort_insert_filter {A : Type} (cmp : A -> A -> Z) (same : A -> bool) :
  (forall x y, same x = true -> same y = true -> (0 <? cmp x y)%Z = false) ->
  forall x xs,
    List.filter same (sort_insert cmp x xs) = List.filter same (x :: xs).
Proof.
  intros Hsame x xs. induction xs as [|y rest IH]; [reflexivity|].
  simpl. destruct (0 <? cmp x y)%Z eqn:Hxy; [|reflexivity].
  simpl. rewrite IH. simpl.
  destruct (same x) eqn:Hx, (same y) eqn:Hy; try reflexivity.
  rewrite (Hsame x y Hx Hy) in Hxy. discriminate.
Qed.

Lemma Array_sort_filter {A : Type} (cmp : A -> A -> Z) (same : A -> bool) :
  (forall x y, same x = true -> same y = true -> (0 <? cmp x y)%Z = false) ->
  forall xs, List.filter same (Array_sort cmp xs) = List.filter same xs.
Proof.
  intros Hsame xs. induction xs as [|x rest IH]; [reflexivity|].
  simpl. rewrite (sort_insert_filter cmp same Hsame). simpl.
  now rewrite IH.
Qed.

Lemma sort_insert_StronglySorted {A : Type} (cmp : A -> A -> Z)
    (R : A -> A -> Prop) :
  (forall x y z, R x y -> R y z -> R x z) ->
  (forall x y, (0 <? cmp x y)%Z = true -> R y x) ->
  (forall x y, (0 <? cmp x y)%Z = false -> R x y) ->
  forall x xs, StronglySorted R xs -> StronglySorted R (sort_insert cmp x xs).
Proof.
  intros Htrans Hgt Hle x xs Hs.
  induction Hs as [|y rest Hrest IH Hall]; simpl.
  - repeat constructor.
  - destruct (0 <? cmp x y)%Z eqn:Hxy.
    + constructor; [exact IH|].
      rewrite (sort_insert_Permutation cmp x rest).
      constructor; [now apply Hgt | exact Hall].
    + constructor; [now constructor|].
      constructor; [now apply Hle|].
      eapply Forall_impl; [exact Hall|].
      intros z Hz. eapply Htrans; [apply Hle, Hxy | exact Hz].
Qed.

Lemma Array_sort_StronglySorted {A : Type} (cmp : A -> A -> Z)
    (R : A -> A -> Prop) :
  (forall x y z, R x y -> R y z -> R x z) ->
  (forall x y, (0 <? cmp x y)%Z = true -> R y x) ->
  (forall x y, (0 <? cmp x y)%Z = false -> R x y) ->
  forall xs, StronglySorted R (Array_sort cmp xs).
Proof.
  intros Htrans Hgt Hle xs. induction xs as [|x rest IH]; simpl.
  - constructor.
  - now apply sort_insert_StronglySorted.
Qed.

(** In a sorted list, an element that may not follow another one stands
    before it. *)
Lemma StronglySorted_before {A : Type} (R : A -> A -> Prop) (a b : A)
    (xs : list A) :
  (forall x, R x x) ->
  StronglySorted R xs -> ~ R b a -> a ∈ xs -> b ∈ xs -> before a b xs.
Proof.
  intros Hrefl Hs Hba.
  induction Hs as [|x rest Hrest IH Hall]; intros Ha Hb.
  - inversion Ha.
  - rewrite Forall_forall in Hall.
    apply elem_of_cons in Hb as [Hb|Hb].
    + exfalso. apply Hba. subst b.
      apply elem_of_cons in Ha as [Ha|Ha]; [subst a; apply Hrefl|].
      now apply Hall.
    + apply elem_of_cons in Ha as [Ha|Ha].
      * subst a. apply list_elem_of_split in Hb as (l2 & l3 & ->).
        now exists [], l2, l3.
      * destruct (IH Ha Hb) as (l1 & l2 & l3 & ->).
        now exists (x :: l1), l2, l3.
Qed.

(** ** The derived view *)

Lemma elem_of_filter_bool {A : Type} (f : A -> bool) (xs : list A) (x : A) :
  x ∈ List.filter f xs <-> x ∈ xs /\ f x = true.
Proof. rewrite !list_elem_of_In. apply filter_In. Qed.

Lemma filter_partition_Permutation {A : Type} (f : A -> bool) (xs : list A) :
  Permutation (List.filter f xs ++ List.filter (fun x => negb (f x)) xs) xs.
Proof.
  induction xs as [|x rest IH]; simpl; [reflexivity|].
  destruct (f x); simpl.
  - now constructor.
  - rewrite <- Permutation_middle. now constructor.
Qed.

(** The view reads neither the selection nor the modal. *)
Lemma filteredData_setSelectedIds data v st :
  filteredData data (setSelectedIds v st) = filteredData data st.
Proof. reflexivity. Qed.

Lemma paginatedData_setSelectedIds data v st :
  paginatedData data (setSelectedIds v st) = paginatedData data st.
Proof. reflexivity. Qed.

(** Whatever the search, the favourites filter and the sort, the view holds
    only records of the collection that are on the side of the view mode. *)
Lemma elem_of_filteredData data st x :
  x ∈ filteredData data st ->
  x ∈ data /\ inViewMode (viewMode st) x = true.
Proof.
  unfold filteredData. intros Hx.
  assert (Hin : x ∈
    (if showFavoritesOnly st
     then List.filter (fun item => truthy_flag (isFavorite item))
            (if truthy_string (searchTerm st)
             then List.filter (matchesSearch (toLowerCase (searchTerm st)))
                    (List.filter (inViewMode (viewMode st)) data)
             else List.filter (inViewMode (viewMode st)) data)
     else (if truthy_string (searchTerm st)
           then List.filter (matchesSearch (toLowerCase (searchTerm st)))
                  (List.filter (inViewMode (viewMode st)) data)
           else List.filter (inViewMode (viewMode st)) data))).
  { destruct (sortConfig st); [now apply elem_of_Array_sort in Hx | exact Hx]. }
  clear Hx.
  destruct (showFavoritesOnly st);
    [apply elem_of_filter_bool in Hin as [Hin _]|];
    (destruct (truthy_string (searchTerm st));
     [apply elem_of_filter_bool in Hin as [Hin _]|]);
    now apply elem_of_filter_bool in Hin.
Qed.

(** With no search and no favourites filter the view is the whole side. *)
Lemma elem_of_filteredData_plain data st x :
  searchTerm st = "" -> showFavoritesOnly st = false ->
  (x ∈ filteredData data st <->
   x ∈ data /\ inViewMode (viewMode st) x = true).
Proof.
  intros Hs Hf. unfold filteredData. rewrite Hs, Hf. simpl.
  destruct (sortConfig st); [rewrite elem_of_Array_sort|];
    apply elem_of_filter_bool.
Qed.

(** ** Pagination *)

Lemma Qceiling_tenth (n : Z) :
  Qceiling (inject_Z n / inject_Z ITEMS_PER_PAGE) = (- ((- n) / 10))%Z.
Proof.
  unfold Qceiling, ITEMS_PER_PAGE. f_equal.
  rewrite Zdiv_Qdiv. apply Qfloor_comp.
  rewrite inject_Z_opp. unfold Qdiv. ring.
Qed.

(** C3 (as amended): [totalPages] is the ceiling of a tenth of the length
    of the view, that is the least number of pages of ten that hold the
    view, and it is 0 for an empty view; the page count that is displayed
    and that bounds the next-page button, [totalPages || 1], is the larger
    of it and 1: never below 1, equal to 1 for an empty view and equal to
    the ceiling for every other view. *)
Theorem totalPages_ceiling_and_display data st :
  let n := Z.of_nat (length (filteredData data st)) in
  (n <= 10 * totalPages data st /\ 10 * (totalPages data st - 1) < n)%Z
  /\ totalPagesOr1 data st = Z.max 1 (totalPages data st)
  /\ (1 <= totalPagesOr1 data st)%Z
  /\ (filteredData data st = [] ->
      totalPages data st = 0%Z /\ totalPagesOr1 data st = 1%Z)
  /\ (filteredData data st <> [] ->
      (1 <= totalPages data st)%Z
      /\ totalPagesOr1 data st = totalPages data st).
Proof.
  intros n. unfold totalPagesOr1, totalPages. fold n.
  rewrite Qceiling_tenth.
  assert (Hn : (0 <= n)%Z) by (unfold n; lia).
  assert (Hnil : filteredData data st = [] <-> n = 0%Z).
  { unfold n. destruct (filteredData data st); simpl; split;
      intros H; try reflexivity; try discriminate; lia. }
  pose proof (Z.div_mod (- n) 10 ltac:(lia)) as Hdm.
  pose proof (Z.mod_pos_bound (- n) 10 ltac:(lia)) as Hmod.
  set (t := (- ((- n) / 10))%Z) in *.
  assert (Ht : (n <= 10 * t /\ 10 * (t - 1) < n)%Z) by (unfold t; lia).
  split; [exact Ht|].
  destruct (Z.eqb_spec t 0) as [H0|H0].
  - split; [lia|]. split; [lia|]. split; [intros _; lia|].
    intros Hne. exfalso. apply Hne, Hnil. lia.
  - split; [lia|]. split; [lia|]. split; [|intros _; lia].
    intros He. apply Hnil in He. lia.
Qed.

(** ** The two view modes *)

(** C4: with no search, no favourites filter and no sort, the active view
    and the archived view of a collection partition it: no record is in
    both, every record is in one of them, neither holds a record from
    elsewhere, and their sizes add up to that of the collection. *)
Theorem view_modes_partition data st :
  searchTerm st = "" -> showFavoritesOnly st = false -> sortConfig st = None ->
  let activeView := filteredData data (setViewMode view_active st) in
  let archivedView := filteredData data (setViewMode view_archived st) in
  (forall x, x ∈ activeView -> x ∉ archivedView)
  /\ (forall x, x ∈ data -> x ∈ activeView \/ x ∈ archivedView)
  /\ (forall x, x ∈ activeView \/ x ∈ archivedView -> x ∈ data)
  /\ (length activeView + length archivedView = length data)%nat
  /\ Permutation (activeView ++ archivedView) data.
Proof.
  intros Hs Hf Ho activeView archivedView.
  assert (Ha : activeView
               = List.filter (fun x => negb (truthy_flag (isArchived x))) data).
  { unfold activeView, filteredData. simpl. now rewrite Hs, Hf, Ho. }
  assert (Hb : archivedView
               = List.filter (fun x => truthy_flag (isArchived x)) data).
  { unfold archivedView, filteredData. simpl. now rewrite Hs, Hf, Ho. }
  rewrite Ha, Hb. clear Ha Hb activeView archivedView.
  repeat split.
  - intros x Hx Hy.
    apply elem_of_filter_bool in Hx as [_ Hx].
    apply elem_of_filter_bool in Hy as [_ Hy].
    rewrite Hy in Hx. discriminate.
  - intros x Hx. rewrite !elem_of_filter_bool.
    destruct (truthy_flag (isArchived x)); simpl; auto.
  - intros x [Hx|Hx]; now apply elem_of_filter_bool in Hx.
  - rewrite Nat.add_comm. apply filter_length.
  - rewrite Permutation_app_comm. apply filter_partition_Permutation.
Qed.

(** ** Selection *)

Lemma size_zero_empty (X : gset string) : size X = 0%nat -> X = ∅.
Proof. intros H. now apply leibniz_equiv, size_empty_iff. Qed.

Lemma selection_not_empty (X : gset string) :
  X <> ∅ -> (size X =? 0)%nat = false /\ (0 <? size X)%nat = true.
Proof.
  intros HX. assert (size X <> 0%nat) by (intros H; now apply HX, size_zero_empty).
  split; [apply Nat.eqb_neq | apply Nat.ltb_lt]; lia.
Qed.

(** C1 (as amended): when the ids on the page are distinct, toggling
    select-all twice on an unchanged page gives back the selection set
    exactly when that set was empty or was the set of the ids on the page. *)
Theorem toggleSelectAll_twice data st :
  NoDup (map id (paginatedData data st)) ->
  (selectedIds (toggleSelectAll data (toggleSelectAll data st))
   = selectedIds st
   <-> selectedIds st = ∅
       \/ selectedIds st = list_to_set (map id (paginatedData data st))).
Proof.
  intros Hnd.
  assert (Hsize : size (list_to_set (map id (paginatedData data st))
                        : gset string)
                  = length (paginatedData data st)).
  { rewrite size_list_to_set by exact Hnd. apply length_map. }
  pose proof (size_zero_empty (selectedIds st)) as Hzero.
  unfold toggleSelectAll at 2.
  destruct (Nat.eqb_spec (size (selectedIds st))
              (length (paginatedData data st))) as [He|Hne].
  - unfold toggleSelectAll. rewrite paginatedData_setSelectedIds.
    cbn [selectedIds setSelectedIds]. rewrite size_empty.
    destruct (Nat.eqb_spec 0 (length (paginatedData data st))) as [Hl|Hl];
      cbn [selectedIds setSelectedIds].
    + rewrite <- Hl in He. rewrite (Hzero He). tauto.
    + split; [intros <-; now right|].
      intros [H|H]; [|now rewrite H].
      exfalso. apply Hl. rewrite <- He, H. now rewrite size_empty.
  - unfold toggleSelectAll. rewrite paginatedData_setSelectedIds.
    cbn [selectedIds setSelectedIds]. rewrite Hsize, Nat.eqb_refl.
    cbn [selectedIds setSelectedIds].
    split; [intros <-; now left|].
    intros [H|H]; [now rewrite H|].
    exfalso. apply Hne. now rewrite H.
Qed.

(** ** The entry form *)

Lemma truthy_string_false s : truthy_string s = false <-> s = "".
Proof. destruct s; simpl; split; intros H; congruence. Qed.

Lemma followers_input_ok_integer fs :
  followers_input_ok fs = true ->
  exists n : Z, (0 <= n)%Z /\ (Form.followers fs == inject_Z n)%Q.
Proof.
  unfold followers_input_ok, is_integer.
  intros H. apply andb_true_iff in H as [Hle Hint].
  apply Qle_bool_iff in Hle. apply Qeq_bool_iff in Hint.
  exists (Qfloor (Form.followers fs)). split.
  - change 0%Z with (Qfloor (inject_Z 0)). rewrite Qfloor_Z.
    rewrite <- (Qfloor_Z 0). now apply Qfloor_resp_le.
  - now symmetry.
Qed.

Lemma engagementRate_input_ok_range fs :
  engagementRate_input_ok fs = true ->
  (0 <= Form.engagementRate fs /\ Form.engagementRate fs <= 100)%Q.
Proof.
  unfold engagementRate_input_ok. intros H.
  apply andb_true_iff in H as [H _].
  apply andb_true_iff in H as [Hlo Hhi].
  now rewrite <- !Qle_bool_iff.
Qed.

(** C2: a submission of the entry form, in add or in edit mode, whose
    username is empty, whose follower count is not a non-negative integer
    or whose engagement rate is outside [0, 100] is blocked: [handleSubmit]
    does not run, so nothing is asked of the store and no state changes. *)
Theorem invalid_entry_is_blocked now promiseFulfilled data st :
  Form.username (formState st) = ""
  \/ ~ (exists n : Z,
          (0 <= n)%Z /\ (Form.followers (formState st) == inject_Z n)%Q)
  \/ ~ (0 <= Form.engagementRate (formState st)
        /\ Form.engagementRate (formState st) <= 100)%Q ->
  submitEntryForm now promiseFulfilled data st = (None, st).
Proof.
  intros Hbad. unfold submitEntryForm.
  destruct (entryForm_checkValidity (formState st)) eqn:Hv; [|reflexivity].
  exfalso. unfold entryForm_checkValidity in Hv.
  apply andb_true_iff in Hv as [Hv _].
  apply andb_true_iff in Hv as [Hv Hrate].
  apply andb_true_iff in Hv as [Huser Hfol].
  destruct Hbad as [Hu|[Hf|Hr]].
  - unfold username_input_ok in Huser. rewrite Hu in Huser. discriminate.
  - apply Hf. now apply followers_input_ok_integer.
  - apply Hr. now apply engagementRate_input_ok_range.
Qed.

(** A form that satisfies its constraints does reach [handleSubmit]. *)
Lemma valid_entry_is_submitted now promiseFulfilled data st :
  entryForm_checkValidity (formState st) = true ->
  submitEntryForm now promiseFulfilled data st
  = (Some (submitIntent now data st),
     (handleSubmit now promiseFulfilled data st).2).
Proof. intros Hv. unfold submitEntryForm. now rewrite Hv. Qed.

Lemma spreadForm_keepsFormFields fs u ts h :
  keepsFormFields (spreadForm fs u ts (Form.avatar fs) h) fs.
Proof. unfold keepsFormFields. simpl. repeat split. Qed.

Lemma spreadAccount_carriesAccount account u ts h :
  carriesAccount
    (spreadForm (spreadAccount account) u ts
       (Form.avatar (spreadAccount account)) h)
    account.
Proof. unfold carriesAccount. simpl. repeat split. Qed.

(** ** The tags input: cutting, trimming, and the way back *)

Lemma append_cons (d : ascii) (x y : string) :
  String d x +:+ y = String d (x +:+ y).
Proof. reflexivity. Qed.

Lemma trimStart_unfold s :
  trimStart s
  = match stripSpace s with
    | Some r => trimStart r
    | None => s
    end.
Proof.
  destruct s as [|c [|d [|e s3]]]; unfold stripSpace;
    cbn [trimStart]; try reflexivity.
  - now destruct (is_space c).
  - destruct (is_space c); [reflexivity|]. now destruct (is_space2 c d).
  - destruct (is_space c); [reflexivity|].
    destruct (is_space2 c d); [reflexivity|]. now destruct (is_space3 c d e).
Qed.

Lemma stripSpace_split s r :
  stripSpace s = Some r ->
  exists w, s = w +:+ r /\ (String.length r < String.length s)%nat.
Proof.
  destruct s as [|c [|d [|e s3]]]; unfold stripSpace; try discriminate.
  - destruct (is_space c); [|discriminate]. intros [= <-].
    exists (String c ""). split; [reflexivity | cbn; lia].
  - destruct (is_space c).
    + intros [= <-]. exists (String c ""). split; [reflexivity | cbn; lia].
    + destruct (is_space2 c d); [|discriminate]. intros [= <-].
      exists (String c (String d "")). split; [reflexivity | cbn; lia].
  - destruct (is_space c).
    + intros [= <-]. exists (String c ""). split; [reflexivity | cbn; lia].
    + destruct (is_space2 c d).
      * intros [= <-]. exists (String c (String d "")).
        split; [reflexivity | cbn; lia].
      * destruct (is_space3 c d e); [|discriminate]. intros [= <-].
        exists (String c (String d (String e ""))).
        split; [reflexivity | cbn; lia].
Qed.

Lemma stripSpace_append s r x :
  stripSpace s = Some r -> stripSpace (s +:+ x) = Some (r +:+ x).
Proof.
  destruct s as [|c [|d [|e s3]]]; unfold stripSpace; try discriminate;
    rewrite ?append_cons.
  - destruct (is_space c); [|discriminate]. now intros [= <-].
  - destruct (is_space c); [now intros [= <-]|].
    destruct (is_space2 c d); [|discriminate]. now intros [= <-].
  - destruct (is_space c); [now intros [= <-]|].
    destruct (is_space2 c d); [now intros [= <-]|].
    destruct (is_space3 c d e); [|discriminate]. now intros [= <-].
Qed.

(** Induction on a text along the steps of [trimStart]. *)
Lemma stripSpace_ind (P : string -> Prop) :
  (forall s, stripSpace s = None -> P s) ->
  (forall s r, stripSpace s = Some r -> P r -> P s) ->
  forall s, P s.
Proof.
  intros Hnone Hsome s.
  remember (String.length s) as n eqn:Hn. revert s Hn.
  induction n as [n IH] using lt_wf_ind. intros s ->.
  destruct (stripSpace s) as [r|] eqn:Hs; [|now apply Hnone].
  apply (Hsome s r Hs).
  destruct (stripSpace_split s r Hs) as (_ & _ & Hlt).
  exact (IH _ Hlt r eq_refl).
Qed.

Lemma stripSpace_trimStart s : stripSpace (trimStart s) = None.
Proof.
  induction s as [s Hs|s r Hs IH] using stripSpace_ind;
    rewrite trimStart_unfold, Hs; [exact Hs | exact IH].
Qed.

Lemma trimStart_fixed s : stripSpace s = None -> trimStart s = s.
Proof. intros H. now rewrite trimStart_unfold, H. Qed.

(** White space at the head of a text goes with what [trimStart] strips
    of the text behind it. *)
Lemma trimStart_append_white a b :
  trimStart a = "" -> trimStart (a +:+ b) = trimStart b.
Proof.
  induction a as [a Ha|a r Ha IH] using stripSpace_ind.
  - rewrite (trimStart_fixed a Ha). now intros ->.
  - rewrite trimStart_unfold, Ha. intros Hr.
    rewrite trimStart_unfold, (stripSpace_append a r b Ha). now apply IH.
Qed.

(** [trimEnd] cuts a text in two: what it returns, and white space. *)
Lemma trimEnd_split s :
  exists r, s = trimEnd s +:+ r /\ trimStart r = "".
Proof.
  induction s as [|c s (r & Hr & Hwhite)]; [now exists ""|].
  cbn [trimEnd]. destruct (truthy_string (trimStart (String c s))) eqn:Ht.
  - exists r. split; [|exact Hwhite]. rewrite append_cons. now f_equal.
  - exists (String c s). split; [reflexivity|].
    now destruct (trimStart (String c s)).
Qed.

Lemma trimEnd_idem s : trimEnd (trimEnd s) = trimEnd s.
Proof.
  induction s as [|c s IH]; [reflexivity|].
  cbn [trimEnd]. destruct (truthy_string (trimStart (String c s))) eqn:Ht;
    [|reflexivity].
  cbn [trimEnd]. rewrite IH.
  destruct (truthy_string (trimStart (String c (trimEnd s)))) eqn:Hcut;
    [reflexivity|].
  destruct (trimEnd_split s) as (r & Hr & Hwhite).
  assert (Hall : trimStart (String c (trimEnd s) +:+ r) = "").
  { rewrite trimStart_append_white; [exact Hwhite|].
    now destruct (trimStart (String c (trimEnd s))). }
  rewrite append_cons, <- Hr in Hall. rewrite Hall in Ht. discriminate.
Qed.

Lemma trimStart_trimEnd s :
  stripSpace s = None -> trimStart (trimEnd s) = trimEnd s.
Proof.
  intros Hs. apply trimStart_fixed.
  destruct (stripSpace (trimEnd s)) as [r|] eqn:Hcut; [|reflexivity].
  destruct (trimEnd_split s) as (x & Hx & _).
  apply (stripSpace_append _ _ x) in Hcut. rewrite <- Hx in Hcut. congruence.
Qed.

Lemma trim_idem s : trim (trim s) = trim s.
Proof.
  unfold trim.
  rewrite (trimStart_trimEnd _ (stripSpace_trimStart s)).
  apply trimEnd_idem.
Qed.

Lemma hasChar_append c a b :
  hasChar c (a +:+ b) = hasChar c a || hasChar c b.
Proof.
  induction a as [|d a IH]; [reflexivity|].
  rewrite append_cons. cbn [hasChar]. now rewrite IH, orb_assoc.
Qed.

Lemma hasChar_trimStart c s :
  hasChar c s = false -> hasChar c (trimStart s) = false.
Proof.
  induction s as [s Hs|s r Hs IH] using stripSpace_ind; intros H.
  - now rewrite (trimStart_fixed s Hs).
  - rewrite trimStart_unfold, Hs. apply IH.
    destruct (stripSpace_split s r Hs) as (w & -> & _).
    rewrite hasChar_append in H. now apply orb_false_iff in H as [_ H].
Qed.

Lemma hasChar_trimEnd c s :
  hasChar c s = false -> hasChar c (trimEnd s) = false.
Proof.
  induction s as [|d s IH]; [reflexivity|].
  cbn [trimEnd hasChar]. intros H. apply orb_false_iff in H as [Hd Hs].
  destruct (truthy_string (trimStart (String d s))); [|reflexivity].
  cbn [hasChar]. now rewrite Hd, (IH Hs).
Qed.

Lemma split_pieces c s x : x ∈ split c s -> hasChar c x = false.
Proof.
  revert x. induction s as [|d s IH]; intros x; cbn [split].
  - intros Hx. apply list_elem_of_singleton in Hx. now subst x.
  - destruct (Ascii.eqb d c) eqn:Hd.
    + intros Hx. apply elem_of_cons in Hx as [->|Hx]; [reflexivity|].
      now apply IH.
    + destruct (split c s) as [|h t] eqn:Hs.
      * intros Hx. apply list_elem_of_singleton in Hx. subst x.
        cbn [hasChar]. now rewrite Hd.
      * intros Hx. apply elem_of_cons in Hx as [->|Hx].
        -- cbn [hasChar]. rewrite Hd. apply IH. now left.
        -- apply IH. now right.
Qed.

Lemma split_clean c x : hasChar c x = false -> split c x = [x].
Proof.
  induction x as [|d x IH]; [reflexivity|].
  cbn [hasChar split]. intros H. apply orb_false_iff in H as [Hd Hx].
  now rewrite Hd, (IH Hx).
Qed.

Lemma split_app_sep c x y :
  hasChar c x = false -> split c (x +:+ String c y) = x :: split c y.
Proof.
  induction x as [|d x IH].
  - intros _. change ("" +:+ String c y) with (String c y).
    cbn [split]. now rewrite Ascii.eqb_refl.
  - cbn [hasChar]. intros H. apply orb_false_iff in H as [Hd Hx].
    rewrite append_cons. cbn [split]. now rewrite Hd, (IH Hx).
Qed.

Lemma split_join_tags t rest :
  Forall (fun x => hasChar "," x = false) (t :: rest) ->
  split "," (join ", " (t :: rest)) = t :: map (String " ") rest.
Proof.
  revert t. induction rest as [|u rest IH]; intros t Hall.
  - apply Forall_cons in Hall as [Ht _]. now apply split_clean.
  - apply Forall_cons in Hall as [Ht Hrest].
    change (join ", " (t :: u :: rest))
      with (t +:+ String "," (String " " (join ", " (u :: rest)))).
    rewrite (split_app_sep _ _ _ Ht).
    cbn [split]. change (Ascii.eqb " " ",") with false. cbn iota.
    now rewrite (IH u Hrest).
Qed.

Lemma parseTags_join ts :
  Forall cleanTag ts -> parseTags (join ", " ts) = ts.
Proof.
  intros Hall. destruct ts as [|t rest]; [reflexivity|].
  unfold parseTags. rewrite split_join_tags.
  - apply Forall_cons in Hall as [(Hne & Htrim & _) Hrest].
    cbn [map List.filter]. rewrite Htrim.
    assert (Ht : truthy_string t = true) by now destruct t.
    rewrite Ht. f_equal.
    induction Hrest as [|u rest (Hu & Hutrim & _) Hrest IH]; [reflexivity|].
    cbn [map List.filter].
    change (trim (String " " u)) with (trim u). rewrite Hutrim.
    assert (Hut : truthy_string u = true) by now destruct u.
    rewrite Hut. now f_equal.
  - eapply Forall_impl; [exact Hall|]. now intros x (_ & _ & Hx).
Qed.

Lemma parseTags_tagsInputOf account :
  Forall cleanTag (default [] (tags account)) ->
  parseTags (tagsInputOf account) = default [] (tags account).
Proof.
  intros Hclean. unfold tagsInputOf.
  destruct (tags account) as [ts|]; [|reflexivity].
  cbn [default] in *.
  destruct (truthy_string (join ", " ts)) eqn:Hj.
  - now apply parseTags_join.
  - apply truthy_string_false in Hj.
    transitivity (parseTags (join ", " ts));
      [now rewrite Hj | now apply parseTags_join].
Qed.

(** C6: an edit submitted for a record of the collection hands the store
    the prior log of that record followed by one "Profile Updated" entry,
    and with it the properties of the form: the normalised username, the
    tags read from the tags input (cut at the commas, trimmed, the empty
    ones dropped) and every other property as the form holds it.  For a
    form opened on the record and left untouched these are the record's
    own: its username once normalised, its tags when they are tags as the
    form writes them, and every other property as it is. *)
Theorem edit_submission_appends_log now promiseFulfilled data st i account :
  modalMode st = mode_edit ->
  Form.id (formState st) = Some i ->
  find (fun d => String.eqb (id d) i) data = Some account ->
  exists updates,
    (handleSubmit now promiseFulfilled data st).1
    = onUpdateAccount (Some i) updates
    /\ Form.history updates
       = Some (default [] (history account)
               ++ [ {| date := now; action := "Profile Updated";
                       details := None |} ])
    /\ Form.username updates
       = normalizeUsername (Form.username (formState st))
    /\ Form.tags updates = parseTags (tagsInput st)
    /\ Form.tags updates
       = List.filter truthy_string (map trim (split "," (tagsInput st)))
    /\ keepsFormFields updates (formState st)
    /\ (formState st = spreadAccount account ->
        carriesAccount updates account)
    /\ (formState st = spreadAccount account ->
        Form.username updates = normalizeUsername (username account))
    /\ (tagsInput st = tagsInputOf account ->
        Forall cleanTag (default [] (tags account)) ->
        Form.tags updates = default [] (tags account)).
Proof.
  intros Hmode Hid Hfind.
  unfold handleSubmit, submitIntent. cbn [fst]. rewrite Hmode, Hid.
  cbn [findById]. rewrite Hfind. cbn [historyOf].
  eexists. split; [reflexivity|].
  split; [reflexivity|]. split; [reflexivity|]. split; [reflexivity|].
  split; [reflexivity|].
  split; [apply spreadForm_keepsFormFields|].
  split; [intros ->; apply spreadAccount_carriesAccount|].
  split; [now intros ->|].
  intros -> Hclean. cbn [Form.tags spreadForm].
  now apply parseTags_tagsInputOf.
Qed.

Lemma startsWith_at u :
  startsWith u "@" = true <-> exists rest, u = String "@" rest.
Proof.
  destruct u as [|c rest]; cbn [startsWith].
  - split; [discriminate|]. intros [r Hr]. discriminate.
  - destruct (Ascii.eqb_spec "@" c) as [<-|Hne].
    + split; [intros _; now exists rest | reflexivity].
    + split; [intros H; discriminate H|]. intros [r Hr]. congruence.
Qed.

(** C7: the username handed to the store is the username of the form when
    that starts with '@', and the username of the form with '@' put before
    it otherwise; so "alice" goes out as "@alice" and "@bob" as it is. *)
Theorem submitted_username_has_leading_at now promiseFulfilled data st :
  exists p,
    payload (handleSubmit now promiseFulfilled data st).1 = Some p
    /\ (forall rest, Form.username (formState st) = String "@" rest ->
        Form.username p = Form.username (formState st))
    /\ ((forall rest, Form.username (formState st) <> String "@" rest) ->
        Form.username p = String "@" (Form.username (formState st)))
    /\ (Form.username (formState st) = "alice" -> Form.username p = "@alice")
    /\ (Form.username (formState st) = "@bob" -> Form.username p = "@bob").
Proof.
  assert (Hp : exists p,
             payload (handleSubmit now promiseFulfilled data st).1 = Some p
             /\ Form.username p
                = normalizeUsername (Form.username (formState st))).
  { unfold handleSubmit, submitIntent. cbn [fst].
    destruct (modalMode st); eexists; split; reflexivity. }
  destruct Hp as (p & Hp & Hu). exists p. split; [exact Hp|].
  rewrite Hu. unfold normalizeUsername.
  split; [|split; [|split]].
  - intros rest Hrest.
    assert (H : startsWith (Form.username (formState st)) "@" = true)
      by (apply startsWith_at; eauto).
    now rewrite H.
  - intros Hno.
    destruct (startsWith (Form.username (formState st)) "@") eqn:H;
      [|reflexivity].
    apply startsWith_at in H as [rest Hrest]. now destruct (Hno rest).
  - now intros ->.
  - now intros ->.
Qed.

(** ** Bulk archive *)

(** What a batch of updates of [isArchived] leaves in the store. *)
Lemma foldl_applyOp_update v ids store :
  foldl applyOp store (map (fun i => batch_update i v) ids)
  = map (fun d => if existsb (String.eqb (id d)) ids
                  then withIsArchived v d else d) store.
Proof.
  revert store. induction ids as [|i rest IH]; intros store; simpl.
  - now rewrite map_id.
  - rewrite IH, map_map. apply map_ext. intros d.
    destruct (String.eqb (id d) i) eqn:Hi; simpl; [|reflexivity].
    now destruct (existsb (String.eqb (id d)) rest).
Qed.

Lemma forallb_opPermitted_update v ids store :
  forallb (opPermitted store) (map (fun i => batch_update i v) ids)
  = forallb (hasDoc store) ids.
Proof. induction ids as [|i rest IH]; simpl; [reflexivity | now rewrite IH]. Qed.

Lemma existsb_eqb_elements (X : gset string) (i : string) :
  existsb (String.eqb i) (elements X) = true <-> i ∈ X.
Proof.
  rewrite existsb_exists. split.
  - intros (j & Hj & Heq). apply String.eqb_eq in Heq as ->.
    now apply elem_of_elements, list_elem_of_In.
  - intros Hi. exists i. split; [|apply String.eqb_refl].
    now apply list_elem_of_In, elem_of_elements.
Qed.

(** A bulk archive whose round trips succeed: the store, the shell and the
    table afterwards. *)
Lemma bulkRoundTrip_archive confirmed store app st :
  selectedIds st <> ∅ ->
  db app = true -> isAuthenticated app = true ->
  (forall i, i ∈ selectedIds st -> hasDoc store i = true) ->
  let archived :=
    map (fun d => if existsb (String.eqb (id d)) (elements (selectedIds st))
                  then withIsArchived true d else d) store in
  bulkRoundTrip confirmed true true archive store app st
  = (archived, setData archived false app, setSelectedIds ∅ st).
Proof.
  intros Hne Hdb Hauth Hdocs archived.
  unfold bulkRoundTrip, handleBulk.
  rewrite (proj1 (selection_not_empty _ Hne)). cbn [isDelete andb].
  unfold handleBulkAction, batch_commit, batchOf. rewrite Hdb. cbn [negb andb].
  rewrite forallb_opPermitted_update.
  assert (Hall : forallb (hasDoc store) (elements (selectedIds st)) = true).
  { apply forallb_forall. intros i Hi. apply Hdocs.
    now apply elem_of_elements, list_elem_of_In. }
  rewrite Hall, foldl_applyOp_update. fold archived.
  unfold fetchAccounts. now rewrite Hdb, Hauth.
Qed.

(** C5: a bulk archive of a non-empty selection whose commit and refresh
    succeed leaves every targeted record of the refreshed collection with
    the archived flag set, in the archived view and out of the active view,
    and leaves the selection set empty; no record appears or disappears. *)
Theorem bulk_archive_then_refresh confirmed store app st :
  selectedIds st <> ∅ ->
  db app = true -> isAuthenticated app = true ->
  (forall i, i ∈ selectedIds st -> hasDoc store i = true) ->
  let after := bulkRoundTrip confirmed true true archive store app st in
  let store' := after.1.1 in
  let app' := after.1.2 in
  let st' := after.2 in
  selectedIds st' = ∅
  /\ data app' = store'
  /\ map id (data app') = map id store
  /\ (forall i, i ∈ selectedIds st -> exists d, d ∈ data app' /\ id d = i)
  /\ (forall d, d ∈ data app' -> id d ∈ selectedIds st ->
      isArchived d = Some true
      /\ (forall v, viewMode v = view_archived -> searchTerm v = "" ->
                    showFavoritesOnly v = false ->
                    d ∈ filteredData (data app') v)
      /\ (forall v, viewMode v = view_active ->
                    d ∉ filteredData (data app') v)).
Proof.
  intros Hne Hdb Hauth Hdocs after store' app' st'.
  unfold store', app', st', after.
  rewrite (bulkRoundTrip_archive confirmed store app st Hne Hdb Hauth Hdocs).
  cbn [fst snd data setData selectedIds setSelectedIds].
  set (f := fun d => if existsb (String.eqb (id d)) (elements (selectedIds st))
                     then withIsArchived true d else d).
  assert (Hid : forall d, id (f d) = id d).
  { intros d. unfold f. now destruct (existsb _ _). }
  assert (Harch : forall d, d ∈ map f store -> id d ∈ selectedIds st ->
                            isArchived d = Some true).
  { intros d Hd Hsel. apply list_elem_of_In, in_map_iff in Hd as (d0 & <- & _).
    rewrite Hid in Hsel. apply existsb_eqb_elements in Hsel.
    unfold f. now rewrite Hsel. }
  split; [reflexivity|]. split; [reflexivity|].
  split; [rewrite map_map; now apply map_ext|].
  split.
  - intros i Hi. specialize (Hdocs i Hi). unfold hasDoc in Hdocs.
    apply existsb_exists in Hdocs as (d & Hd & Heq).
    apply String.eqb_eq in Heq. exists (f d). split.
    + apply list_elem_of_In, in_map_iff. now exists d.
    + now rewrite Hid.
  - intros d Hd Hsel. pose proof (Harch d Hd Hsel) as Ha.
    split; [exact Ha|]. split.
    + intros v Hv Hs Hf. apply elem_of_filteredData_plain; [exact Hs|exact Hf|].
      split; [exact Hd|]. rewrite Hv. unfold inViewMode. now rewrite Ha.
    + intros v Hv Hin. apply elem_of_filteredData in Hin as [_ Hin].
      rewrite Hv in Hin. unfold inViewMode in Hin. rewrite Ha in Hin.
      discriminate.
Qed.

(** Whatever becomes of the round trips, an archive or a restore asked on a
    non-empty selection leaves the selection empty. *)
Lemma bulk_clears_selection commitOk fetchOk a store app st :
  selectedIds st <> ∅ -> isDelete a = false ->
  selectedIds (bulkRoundTrip false commitOk fetchOk a store app st).2 = ∅.
Proof.
  intros Hne Ha. unfold bulkRoundTrip, handleBulk.
  rewrite (proj1 (selection_not_empty _ Hne)), Ha. cbn [andb].
  now destruct (handleBulkAction _ _ _ _ _ _) as [[? ?] ?].
Qed.

(** ** The AI service *)

(** C8: [analyzeAccount] returns null when the call is rejected, when the
    response has no text or an empty one, and when the text is not JSON; a
    text that parses is handed back whatever it holds.
    [getPlatformTrends] returns null on no outcome.  A rejected call gives
    the text "Failed to fetch live trends." with no source.  A response
    without text gives another text, "No trend data available.", and with
    it the grounding chunks of the first candidate of the response: the
    list is empty only when the response carries no chunk. *)
Theorem ai_failure_shapes :
  analyzeAccount Rejected = None
  /\ (forall r, Gemini.text r = None \/ Gemini.text r = Some "" ->
                analyzeAccount (Fulfilled r) = None)
  /\ (forall r s, Gemini.text r = Some s -> JSON_parse s = None ->
                  analyzeAccount (Fulfilled r) = None)
  /\ (forall r s v, Gemini.text r = Some s -> s <> "" ->
                    JSON_parse s = Some v ->
                    analyzeAccount (Fulfilled r) = Some v)
  /\ (forall outcome, getPlatformTrends outcome <> None)
  /\ getPlatformTrends Rejected
     = Some {| text := "Failed to fetch live trends."; sources := [] |}
  /\ (forall r, Gemini.text r = None \/ Gemini.text r = Some "" ->
                getPlatformTrends (Fulfilled r)
                = Some {| text := "No trend data available.";
                          sources := groundingSources r |})
  /\ (forall r, Gemini.candidates r = None \/ Gemini.candidates r = Some [] ->
                groundingSources r = [])
  /\ (forall r c rest,
        Gemini.candidates r = Some (c :: rest) ->
        groundingSources r
        = match Gemini.groundingMetadata c with
          | Some m => default [] (Gemini.groundingChunks m)
          | None => []
          end)
  /\ (forall r c rest m chunks,
        Gemini.text r = None \/ Gemini.text r = Some "" ->
        Gemini.candidates r = Some (c :: rest) ->
        Gemini.groundingMetadata c = Some m ->
        Gemini.groundingChunks m = Some chunks ->
        getPlatformTrends (Fulfilled r)
        = Some {| text := "No trend data available."; sources := chunks |}).
Proof.
  assert (Hempty : forall r,
             Gemini.text r = None \/ Gemini.text r = Some "" ->
             getPlatformTrends (Fulfilled r)
             = Some {| text := "No trend data available.";
                       sources := groundingSources r |}).
  { intros r [H|H]; unfold getPlatformTrends, trendText; now rewrite H. }
  split; [reflexivity|].
  split. { intros r [H|H]; unfold analyzeAccount; now rewrite H. }
  split. { intros r s Ht Hp. unfold analyzeAccount. rewrite Ht, Hp.
           now destruct (truthy_string s). }
  split. { intros r s v Ht Hs Hp. unfold analyzeAccount. rewrite Ht, Hp.
           destruct s; [congruence | reflexivity]. }
  split. { intros [r|]; discriminate. }
  split; [reflexivity|].
  split; [exact Hempty|].
  split. { intros r [H|H]; unfold groundingSources; now rewrite H. }
  split. { intros r c rest H. unfold groundingSources. now rewrite H. }
  intros r c rest m chunks Ht Hc Hm Hk. rewrite (Hempty r Ht).
  unfold groundingSources. now rewrite Hc, Hm, Hk.
Qed.

(** ** Sorting by engagement rate *)

Lemma Qlt_bool_iff p q : Qlt_bool p q = true <-> (p < q)%Q.
Proof.
  unfold Qlt_bool. rewrite negb_true_iff. split.
  - intros H. apply Qnot_le_lt. intros Hle.
    apply Qle_bool_iff in Hle. congruence.
  - intros H. destruct (Qle_bool q p) eqn:Hle; [|reflexivity].
    apply Qle_bool_iff in Hle. now apply Qlt_not_le in H.
Qed.

Lemma Qlt_bool_false_iff p q : Qlt_bool p q = false <-> (q <= p)%Q.
Proof.
  unfold Qlt_bool. rewrite negb_false_iff. apply Qle_bool_iff.
Qed.

(** Ascending by engagement rate, the comparator is positive exactly when
    its second argument has the strictly smaller rate. *)
Lemma compareFn_engagementRate_asc a b :
  (0 <? compareFn {| key := by_engagementRate; direction := asc |} a b)%Z
  = Qlt_bool (engagementRate b) (engagementRate a).
Proof.
  unfold compareFn, js_lt. cbn -[Qlt_bool].
  destruct (Qlt_bool (engagementRate a) (engagementRate b)) eqn:Hab.
  - apply Qlt_bool_iff in Hab. symmetry. apply Qlt_bool_false_iff.
    now apply Qlt_le_weak.
  - now destruct (Qlt_bool (engagementRate b) (engagementRate a)).
Qed.

(** C9: in a view sorted by engagement rate ascending, a record with the
    smaller rate stands before one with the larger rate, so one at 4.999
    stands before one at 5.0; the records of equal rate stand in the order
    they have without the sort; and a record that lacks the sort property
    compares as one whose property is the empty string. *)
Theorem sort_by_engagement_ascending data st :
  sortConfig st = Some {| key := by_engagementRate; direction := asc |} ->
  (forall a b, a ∈ filteredData data st -> b ∈ filteredData data st ->
     (engagementRate a < engagementRate b)%Q ->
     before a b (filteredData data st))
  /\ (forall a b, a ∈ filteredData data st -> b ∈ filteredData data st ->
       (engagementRate a == 4999 # 1000)%Q -> (engagementRate b == 5)%Q ->
       before a b (filteredData data st))
  /\ (forall r,
       List.filter (fun x => Qeq_bool (engagementRate x) r)
         (filteredData data st)
       = List.filter (fun x => Qeq_bool (engagementRate x) r)
           (filteredData data (setSortConfig None st)))
  /\ (forall cfg a a' b,
       prop (key cfg) a = None -> prop (key cfg) a' = Some (JsStr "") ->
       compareFn cfg a b = compareFn cfg a' b
       /\ compareFn cfg b a = compareFn cfg b a').
Proof.
  intros Hsort.
  set (cfg0 := {| key := by_engagementRate; direction := asc |}) in *.
  assert (Hview : filteredData data st
                  = Array_sort (compareFn cfg0)
                      (filteredData data (setSortConfig None st))).
  { unfold filteredData. rewrite Hsort. reflexivity. }
  set (R := fun x y : UserAccount => (engagementRate x <= engagementRate y)%Q).
  assert (Hsorted : StronglySorted R (filteredData data st)).
  { rewrite Hview. apply Array_sort_StronglySorted.
    - intros x y z Hxy Hyz. unfold R in *. eapply Qle_trans; eauto.
    - intros x y H. unfold cfg0 in H.
      rewrite compareFn_engagementRate_asc in H.
      apply Qlt_bool_iff in H. now apply Qlt_le_weak.
    - intros x y H. unfold cfg0 in H.
      rewrite compareFn_engagementRate_asc in H.
      now apply Qlt_bool_false_iff in H. }
  assert (Hbefore : forall a b,
             a ∈ filteredData data st -> b ∈ filteredData data st ->
             (engagementRate a < engagementRate b)%Q ->
             before a b (filteredData data st)).
  { intros a b Ha Hb Hlt.
    apply (StronglySorted_before R a b); try assumption.
    - intros x. apply Qle_refl.
    - unfold R. now apply Qlt_not_le. }
  split; [exact Hbefore|]. split; [|split].
  - intros a b Ha Hb Hra Hrb. apply Hbefore; try assumption.
    rewrite Hra, Hrb. reflexivity.
  - intros r. rewrite Hview. apply Array_sort_filter.
    intros x y Hx Hy. unfold cfg0. rewrite compareFn_engagementRate_asc.
    apply Qlt_bool_false_iff.
    apply Qeq_bool_iff in Hx. apply Qeq_bool_iff in Hy.
    rewrite Hx, Hy. apply Qle_refl.
  - intros cfg a a' b Ha Ha'. unfold compareFn. now rewrite Ha, Ha'.
Qed.

(** ** Export *)

Lemma append_nil_right (s : string) : s +:+ "" = s.
Proof.
  induction s as [|c s IH]; [reflexivity|]. rewrite append_cons. now f_equal.
Qed.

Lemma startsWith_append p r : startsWith (p +:+ r) p = true.
Proof.
  induction p as [|c p IH]; [reflexivity|].
  rewrite append_cons. cbn [startsWith]. now rewrite Ascii.eqb_refl.
Qed.

Lemma includes_append_left a s p :
  includes s p = true -> includes (a +:+ s) p = true.
Proof.
  intros H. induction a as [|c a IH]; [exact H|].
  rewrite append_cons. cbn [includes]. rewrite IH. apply orb_true_r.
Qed.

Lemma includes_prefix p r : includes (p +:+ r) p = true.
Proof.
  destruct (p +:+ r) eqn:E; cbn [includes]; rewrite <- E;
    now rewrite startsWith_append.
Qed.

(** [join] written out: the first element, then each further element
    behind a separator. *)
Lemma join_cons_foldr sep x xs :
  join sep (x :: xs)
  = x +:+ foldr (fun y rest => sep +:+ y +:+ rest) "" xs.
Proof.
  revert x. induction xs as [|y xs IH]; intros x.
  - cbn [join foldr]. now rewrite append_nil_right.
  - change (join sep (x :: y :: xs)) with (x +:+ sep +:+ join sep (y :: xs)).
    now rewrite IH.
Qed.

Lemma handleExport_text data st :
  handleExport data st = exportTextOf (exportSource data st).
Proof.
  unfold handleExport, csvLines, exportTextOf. rewrite join_cons_foldr.
  f_equal. induction (exportSource data st) as [|u rest IH]; [reflexivity|].
  cbn [map foldr]. now rewrite IH.
Qed.

Lemma exportTextOf_includes source d :
  d ∈ source -> includes (exportTextOf source) (join "," (csvCells d)) = true.
Proof.
  intros Hd. unfold exportTextOf. apply includes_append_left.
  induction source as [|u rest IH]; [now apply elem_of_nil in Hd|].
  cbn [foldr]. apply includes_append_left.
  apply elem_of_cons in Hd as [->|Hd].
  - apply includes_prefix.
  - apply includes_append_left. now apply IH.
Qed.

(** C10: with a non-empty selection, the export takes from the whole
    collection the records whose id is selected, whatever the view shows:
    the text offered for download is the header line followed by the lines
    of those records, so that every selected record of the collection has
    its line in it, and it is the same text under every view mode and
    every search term, neither of which touches the selection. *)
Theorem export_draws_selected_from_collection data st :
  selectedIds st <> ∅ ->
  exportSource data st
  = List.filter (fun d => bool_decide (id d ∈ selectedIds st)) data
  /\ handleExport data st
     = join newline
         (join "," csvHeaders
          :: map (fun d => join "," (csvCells d))
               (List.filter (fun d => bool_decide (id d ∈ selectedIds st))
                  data))
  /\ (forall d, d ∈ data -> id d ∈ selectedIds st ->
      d ∈ exportSource data st
      /\ csvRow d ∈ csvLines data st
      /\ join "," (csvCells d)
         ∈ map (fun d => join "," (csvCells d))
             (List.filter (fun d => bool_decide (id d ∈ selectedIds st))
                data)
      /\ includes (handleExport data st) (join "," (csvCells d)) = true)
  /\ (forall d, d ∈ exportSource data st ->
      d ∈ data /\ id d ∈ selectedIds st)
  /\ (forall mode term,
        handleExport data (setSearchTerm term (setViewMode mode st))
        = handleExport data st)
  /\ (forall mode, selectedIds (setViewMode mode st) = selectedIds st)
  /\ (forall term, selectedIds (setSearchTerm term st) = selectedIds st).
Proof.
  intros Hne.
  assert (Hsrc : forall st', selectedIds st' = selectedIds st ->
             exportSource data st'
             = List.filter (fun d => bool_decide (id d ∈ selectedIds st))
                 data).
  { intros st' Hsel. unfold exportSource. rewrite Hsel.
    now rewrite (proj2 (selection_not_empty _ Hne)). }
  split; [exact (Hsrc st eq_refl)|].
  split; [unfold handleExport, csvLines; now rewrite (Hsrc st eq_refl)|].
  split; [|split; [|split; [|split; reflexivity]]].
  - intros d Hd Hsel.
    assert (Hin : d ∈ exportSource data st).
    { rewrite (Hsrc st eq_refl). apply elem_of_filter_bool.
      split; [exact Hd|]. now apply bool_decide_eq_true. }
    split; [exact Hin|]. split; [|split].
    + unfold csvLines. apply elem_of_cons. right.
      apply list_elem_of_In, in_map, list_elem_of_In, Hin.
    + rewrite <- (Hsrc st eq_refl).
      apply list_elem_of_In.
      apply (in_map (fun d => join "," (csvCells d))).
      apply list_elem_of_In, Hin.
    + rewrite handleExport_text. now apply exportTextOf_includes.
  - intros d Hd. rewrite (Hsrc st eq_refl) in Hd.
    apply elem_of_filter_bool in Hd as [Hd Hsel].
    split; [exact Hd|]. now apply bool_decide_eq_true in Hsel.
  - intros mode term. unfold handleExport, csvLines.
    now rewrite (Hsrc (setSearchTerm term (setViewMode mode st)) eq_refl),
      (Hsrc st eq_refl).
Qed.

(** * Further properties of the console *)

(** ** Selecting one row, and the column headers *)

(** X1: the checkbox of a row flips the membership of its id in the
    selection and of no other id; ticking it twice gives back the
    selection, whatever it was. *)
Theorem toggleSelectOne_flips_one i st :
  (i ∈ selectedIds (toggleSelectOne i st) <-> i ∉ selectedIds st)
  /\ (forall j, j <> i ->
        (j ∈ selectedIds (toggleSelectOne i st) <-> j ∈ selectedIds st))
  /\ selectedIds (toggleSelectOne i (toggleSelectOne i st)) = selectedIds st.
Proof.
  clear StringToNumber NumberToString email_input_valid JSON_parse.
  clear rendersAsSource. clear GroundingChunk.
  assert (Hstep : forall X : gset string,
             selectedIds (toggleSelectOne i (setSelectedIds X st))
             = if bool_decide (i ∈ X) then X ∖ {[i]} else X ∪ {[i]}).
  { intros X. unfold toggleSelectOne. cbn [selectedIds setSelectedIds].
    now destruct (bool_decide (i ∈ X)). }
  assert (Hfirst : selectedIds (toggleSelectOne i st)
                   = if bool_decide (i ∈ selectedIds st)
                     then selectedIds st ∖ {[i]} else selectedIds st ∪ {[i]}).
  { unfold toggleSelectOne. now destruct (bool_decide (i ∈ selectedIds st)). }
  assert (Hshape : toggleSelectOne i st
                   = setSelectedIds (selectedIds (toggleSelectOne i st)) st).
  { unfold toggleSelectOne. now destruct (bool_decide (i ∈ selectedIds st)). }
  rewrite Hshape, Hstep. cbn [selectedIds setSelectedIds]. rewrite !Hfirst.
  destruct (bool_decide_reflect (i ∈ selectedIds st)) as [Hin|Hout].
  - split; [|split].
    + rewrite elem_of_difference, elem_of_singleton. tauto.
    + intros j Hj. rewrite elem_of_difference, elem_of_singleton. tauto.
    + rewrite bool_decide_eq_false_2
        by (rewrite elem_of_difference, elem_of_singleton; tauto).
      apply leibniz_equiv. intros j.
      rewrite elem_of_union, elem_of_difference, elem_of_singleton.
      destruct (decide (j = i)) as [->|Hne]; tauto.
  - split; [|split].
    + rewrite elem_of_union, elem_of_singleton. tauto.
    + intros j Hj. rewrite elem_of_union, elem_of_singleton. tauto.
    + rewrite bool_decide_eq_true_2
        by (rewrite elem_of_union, elem_of_singleton; tauto).
      apply leibniz_equiv. intros j.
      rewrite elem_of_difference, elem_of_union, elem_of_singleton.
      destruct (decide (j = i)) as [->|Hne]; tauto.
Qed.

Lemma SortKey_eqb_eq j k : SortKey_eqb j k = true <-> j = k.
Proof. destruct j, k; simpl; split; intros H; congruence. Qed.

(** X2: a click on a column header always leaves the table sorted by that
    column: descending when it was sorted by it ascending, ascending in
    every other case; so the clicks on one header alternate between the two
    directions and no click brings back the unsorted view. *)
Theorem handleSort_alternates k st :
  (sortConfig st = Some {| key := k; direction := asc |} ->
   sortConfig (handleSort k st) = Some {| key := k; direction := desc |})
  /\ (sortConfig st <> Some {| key := k; direction := asc |} ->
      sortConfig (handleSort k st) = Some {| key := k; direction := asc |})
  /\ sortConfig (handleSort k (handleSort k (handleSort k st)))
     = sortConfig (handleSort k st)
  /\ sortConfig (handleSort k (handleSort k st))
     <> sortConfig (handleSort k st).
Proof.
  assert (Hkk : SortKey_eqb k k = true) by now apply SortKey_eqb_eq.
  assert (Hasc : sortConfig st = Some {| key := k; direction := asc |} ->
                 sortConfig (handleSort k st)
                 = Some {| key := k; direction := desc |}).
  { intros H. unfold handleSort. rewrite H. cbn. now rewrite Hkk. }
  assert (Hother : sortConfig st <> Some {| key := k; direction := asc |} ->
                   sortConfig (handleSort k st)
                   = Some {| key := k; direction := asc |}).
  { intros H. unfold handleSort.
    destruct (sortConfig st) as [[k0 d0]|]; cbn; [|reflexivity].
    destruct (SortKey_eqb k0 k) eqn:Hk; [|reflexivity].
    apply SortKey_eqb_eq in Hk as ->. destruct d0; [|reflexivity].
    now destruct H. }
  assert (Hstep : forall d,
             sortConfig (handleSort k
                           (setSortConfig (Some {| key := k; direction := d |})
                              st))
             = Some {| key := k;
                       direction := match d with asc => desc | desc => asc end |}).
  { intros d. unfold handleSort. cbn. now rewrite Hkk. }
  split; [exact Hasc|]. split; [exact Hother|].
  assert (Hone : exists d, handleSort k st
                           = setSortConfig (Some {| key := k; direction := d |})
                               st).
  { unfold handleSort. eexists. reflexivity. }
  destruct Hone as (d & Hone). rewrite Hone.
  assert (Htwo : handleSort k
                   (setSortConfig (Some {| key := k; direction := d |}) st)
                 = setSortConfig
                     (Some {| key := k;
                              direction :=
                                match d with asc => desc | desc => asc end |})
                     st).
  { unfold handleSort. cbn. now rewrite Hkk. }
  rewrite Htwo. split.
  - unfold handleSort. cbn. rewrite Hkk. now destruct d.
  - cbn. destruct d; discriminate.
Qed.

(** ** The view as a list *)

(** X3: sorting only reorders the view: sorted or not, it holds the same
    records the same number of times, so the number of entries and the
    number of pages do not depend on the sort. *)
Theorem sort_only_reorders data st :
  Permutation (filteredData data st)
    (filteredData data (setSortConfig None st))
  /\ length (filteredData data st)
     = length (filteredData data (setSortConfig None st))
  /\ totalPages data st = totalPages data (setSortConfig None st).
Proof.
  assert (Hperm : Permutation (filteredData data st)
                    (filteredData data (setSortConfig None st))).
  { unfold filteredData. cbn [sortConfig setSortConfig viewMode searchTerm
                               showFavoritesOnly].
    destruct (sortConfig st); [apply Array_sort_Permutation | reflexivity]. }
  split; [exact Hperm|].
  assert (Hlen := Permutation_length Hperm).
  split; [exact Hlen|]. unfold totalPages. now rewrite Hlen.
Qed.

Lemma sublist_filter_bool {A : Type} (f : A -> bool) (xs : list A) :
  sublist (List.filter f xs) xs.
Proof.
  induction xs as [|x rest IH]; simpl; [constructor|].
  destruct (f x); now constructor.
Qed.

(** X4: without a sort the view lists its records in the order of the
    collection, skipping some; the search and the favourites filter only
    take rows away from the view that has neither. *)
Theorem unsorted_view_is_sublist data st :
  sublist (filteredData data (setSortConfig None st)) data
  /\ sublist (filteredData data (setSortConfig None st))
       (filteredData data
          (setSortConfig None
             (setShowFavoritesOnly false (setSearchTerm "" st)))).
Proof.
  unfold filteredData.
  cbn [sortConfig setSortConfig viewMode searchTerm showFavoritesOnly
       setShowFavoritesOnly setSearchTerm truthy_string].
  set (side := List.filter (inViewMode (viewMode st)) data).
  assert (Hnarrow :
    sublist
      (if showFavoritesOnly st
       then List.filter (fun item => truthy_flag (isFavorite item))
              (if truthy_string (searchTerm st)
               then List.filter (matchesSearch (toLowerCase (searchTerm st)))
                      side
               else side)
       else if truthy_string (searchTerm st)
            then List.filter (matchesSearch (toLowerCase (searchTerm st)))
                   side
            else side)
      side).
  { clearbody side.
    destruct (showFavoritesOnly st), (truthy_string (searchTerm st)).
    - etransitivity; apply sublist_filter_bool.
    - apply sublist_filter_bool.
    - apply sublist_filter_bool.
    - reflexivity. }
  split; [|exact Hnarrow].
  etransitivity; [exact Hnarrow|]. apply sublist_filter_bool.
Qed.

(** ** The order of the sorted view, for every key and direction *)

Lemma Ascii_compare_N (c d : ascii) :
  Ascii.compare c d = N.compare (N_of_ascii c) (N_of_ascii d).
Proof. reflexivity. Qed.

Lemma String_compare_refl (s : string) : String.compare s s = Eq.
Proof.
  induction s as [|c s IH]; [reflexivity|].
  cbn [String.compare]. rewrite Ascii_compare_N, N.compare_refl. exact IH.
Qed.

(** [<=] on strings, read as "not greater", is transitive. *)
Lemma String_compare_not_Gt_trans (x y z : string) :
  String.compare x y <> Gt -> String.compare y z <> Gt ->
  String.compare x z <> Gt.
Proof.
  revert y z. induction x as [|a x IH]; intros [|b y] [|c z];
    cbn [String.compare]; try congruence.
  rewrite !Ascii_compare_N.
  destruct (N.compare_spec (N_of_ascii a) (N_of_ascii b)) as [Hab|Hab|Hab];
    destruct (N.compare_spec (N_of_ascii b) (N_of_ascii c)) as [Hbc|Hbc|Hbc];
    destruct (N.compare_spec (N_of_ascii a) (N_of_ascii c)) as [Hac|Hac|Hac];
    try congruence; try lia.
  apply IH.
Qed.

Lemma String_ltb_false_iff (s t : string) :
  String.ltb s t = false <-> String.compare t s <> Gt.
Proof.
  unfold String.ltb. rewrite (String.compare_antisym t s).
  destruct (String.compare s t); simpl; split; intros H; congruence.
Qed.

Lemma String_ltb_irrefl (s : string) : String.ltb s s = false.
Proof. unfold String.ltb. now rewrite String_compare_refl. Qed.

Lemma String_ltb_asym (s t : string) :
  String.ltb s t = true -> String.ltb t s = false.
Proof.
  unfold String.ltb. rewrite (String.compare_antisym s t).
  now destruct (String.compare t s).
Qed.

Lemma String_ltb_negtrans (x y z : string) :
  String.ltb y x = false -> String.ltb z y = false -> String.ltb z x = false.
Proof.
  rewrite !String_ltb_false_iff. apply String_compare_not_Gt_trans.
Qed.

(** Two values have the same type. *)
Lemma sortValue_kind cfg :
  (forall a, exists s, sortValue cfg a = JsStr s)
  \/ (forall a, exists q, sortValue cfg a = JsNum q).
Proof.
  unfold sortValue. destruct cfg as [k d]. cbn [key].
  destruct k; cbn [prop];
    try (left; intros a; eexists; reflexivity);
    try (right; intros a; eexists; reflexivity);
    left; intros a;
    match goal with |- context [JsStr <$> ?o] => destruct o end;
    eexists; reflexivity.
Qed.

Lemma js_lt_sortValue_irrefl cfg a :
  js_lt (sortValue cfg a) (sortValue cfg a) = false.
Proof.
  destruct (sortValue cfg a) as [s|q]; cbn.
  - apply String_ltb_irrefl.
  - apply Qlt_bool_false_iff, Qle_refl.
Qed.

Lemma js_lt_sortValue_asym cfg a b :
  js_lt (sortValue cfg a) (sortValue cfg b) = true ->
  js_lt (sortValue cfg b) (sortValue cfg a) = false.
Proof.
  destruct (sortValue_kind cfg) as [Hk|Hk];
    destruct (Hk a) as (x & ->); destruct (Hk b) as (y & ->); cbn.
  - apply String_ltb_asym.
  - intros H. apply Qlt_bool_iff in H. apply Qlt_bool_false_iff.
    now apply Qlt_le_weak.
Qed.

Lemma js_lt_sortValue_negtrans cfg a b c :
  js_lt (sortValue cfg b) (sortValue cfg a) = false ->
  js_lt (sortValue cfg c) (sortValue cfg b) = false ->
  js_lt (sortValue cfg c) (sortValue cfg a) = false.
Proof.
  destruct (sortValue_kind cfg) as [Hk|Hk];
    destruct (Hk a) as (x & ->); destruct (Hk b) as (y & ->);
    destruct (Hk c) as (z & ->); cbn.
  - apply String_ltb_negtrans.
  - rewrite !Qlt_bool_false_iff. intros H1 H2. eapply Qle_trans; eauto.
Qed.

Lemma compareFn_sortValue cfg a b :
  compareFn cfg a b
  = if js_lt (sortValue cfg a) (sortValue cfg b)
    then match direction cfg with asc => (-1)%Z | desc => 1%Z end
    else if js_lt (sortValue cfg b) (sortValue cfg a)
         then match direction cfg with asc => 1%Z | desc => (-1)%Z end
         else 0%Z.
Proof. reflexivity. Qed.

Lemma inOrder_refl cfg a : inOrder cfg a a.
Proof. unfold inOrder. destruct (direction cfg); apply js_lt_sortValue_irrefl. Qed.

Lemma inOrder_trans cfg a b c :
  inOrder cfg a b -> inOrder cfg b c -> inOrder cfg a c.
Proof.
  unfold inOrder. destruct (direction cfg); intros H1 H2.
  - exact (js_lt_sortValue_negtrans cfg a b c H1 H2).
  - exact (js_lt_sortValue_negtrans cfg c b a H2 H1).
Qed.

Lemma compareFn_positive cfg a b :
  (0 <? compareFn cfg a b)%Z = true -> inOrder cfg b a.
Proof.
  rewrite compareFn_sortValue. unfold inOrder.
  destruct (js_lt (sortValue cfg a) (sortValue cfg b)) eqn:Hab;
    destruct (js_lt (sortValue cfg b) (sortValue cfg a)) eqn:Hba;
    destruct (direction cfg); cbn; try congruence.
  all: intros _; rewrite (js_lt_sortValue_asym cfg a b Hab) in Hba;
    discriminate.
Qed.

Lemma compareFn_not_positive cfg a b :
  (0 <? compareFn cfg a b)%Z = false -> inOrder cfg a b.
Proof.
  rewrite compareFn_sortValue. unfold inOrder.
  destruct (js_lt (sortValue cfg a) (sortValue cfg b)) eqn:Hab;
    destruct (js_lt (sortValue cfg b) (sortValue cfg a)) eqn:Hba;
    destruct (direction cfg); cbn; try congruence.
  all: intros _; rewrite (js_lt_sortValue_asym cfg a b Hab) in Hba;
    discriminate.
Qed.

Lemma sorted_view_StronglySorted data st cfg :
  sortConfig st = Some cfg ->
  StronglySorted (inOrder cfg) (filteredData data st).
Proof.
  intros Hsort. unfold filteredData. rewrite Hsort.
  apply Array_sort_StronglySorted.
  - intros x y z. apply inOrder_trans.
  - intros x y. apply compareFn_positive.
  - intros x y. apply compareFn_not_positive.
Qed.

Lemma StronglySorted_split {A : Type} (R : A -> A -> Prop) (a b : A)
    (l1 l2 l3 : list A) :
  StronglySorted R (l1 ++ a :: l2 ++ b :: l3) -> R a b.
Proof.
  induction l1 as [|x l1 IH]; simpl; intros Hs.
  - apply StronglySorted_inv in Hs as [_ Hall].
    rewrite Forall_forall in Hall. apply Hall.
    apply elem_of_app. right. now left.
  - apply StronglySorted_inv in Hs as [Hs _]. now apply IH.
Qed.

(** X5: the sorted view is in the order of its sort, whatever the key and
    the direction: when [a] stands before [b], the value of [b] is not
    below that of [a] in an ascending view, and not above it in a
    descending one.  A missing value counts as the empty string. *)
Theorem sorted_view_in_order data st cfg a b :
  sortConfig st = Some cfg ->
  before a b (filteredData data st) ->
  inOrder cfg a b.
Proof.
  intros Hsort (l1 & l2 & l3 & Hsplit).
  pose proof (sorted_view_StronglySorted data st cfg Hsort) as Hs.
  rewrite Hsplit in Hs. exact (StronglySorted_split _ a b l1 l2 l3 Hs).
Qed.

(** X6: in a view sorted by account manager, ascending, the records
    without a manager (none, or the empty string) stand before every record
    that has one. *)
Theorem unmanaged_records_first data st a b m :
  sortConfig st = Some {| key := by_accountManager; direction := asc |} ->
  a ∈ filteredData data st -> b ∈ filteredData data st ->
  accountManager a = None \/ accountManager a = Some "" ->
  accountManager b = Some m -> m <> "" ->
  before a b (filteredData data st).
Proof.
  intros Hsort Ha Hb Hnone Hm Hne.
  apply (StronglySorted_before
           (inOrder {| key := by_accountManager; direction := asc |}));
    try assumption.
  - apply inOrder_refl.
  - now apply sorted_view_StronglySorted.
  - unfold inOrder, sortValue. cbn [direction key prop]. rewrite Hm.
    assert (Hlt : String.ltb "" m = true) by (destruct m; [congruence|reflexivity]).
    destruct Hnone as [-> | ->]; cbn; rewrite Hlt; discriminate.
Qed.

(** ** The search *)

Lemma truthy_string_toLowerCase s :
  truthy_string (toLowerCase s) = truthy_string s.
Proof. now destruct s. Qed.

Lemma startsWith_toLowerCase s p :
  startsWith s p = true ->
  startsWith (toLowerCase s) (toLowerCase p) = true.
Proof.
  revert s. induction p as [|c p IH]; intros s; [reflexivity|].
  destruct s as [|d s]; cbn [startsWith toLowerCase]; [discriminate|].
  destruct (Ascii.eqb_spec c d) as [->|Hne]; [|discriminate].
  rewrite Ascii.eqb_refl. apply IH.
Qed.

Lemma includes_toLowerCase s p :
  includes s p = true -> includes (toLowerCase s) (toLowerCase p) = true.
Proof.
  induction s as [|d s IH]; cbn [includes toLowerCase]; intros H.
  - apply orb_true_iff in H as [H|H]; [|discriminate].
    apply startsWith_toLowerCase in H. cbn [toLowerCase] in H.
    now rewrite H.
  - apply orb_true_iff in H as [H|H].
    + apply startsWith_toLowerCase in H. cbn [toLowerCase] in H.
      now rewrite H.
    + rewrite (IH H). apply orb_true_r.
Qed.

Lemma includes_nonempty s p : p <> "" -> includes s p = true -> s <> "".
Proof.
  intros Hp H ->. destruct p as [|c p]; [congruence|]. discriminate.
Qed.

(** X7: the search does not read the case of the term: two terms that are
    equal up to case give the same view. *)
Theorem search_ignores_case_of_term data st s s' :
  toLowerCase s = toLowerCase s' ->
  filteredData data (setSearchTerm s st)
  = filteredData data (setSearchTerm s' st).
Proof.
  intros Heq. unfold filteredData.
  cbn [searchTerm setSearchTerm viewMode showFavoritesOnly sortConfig].
  rewrite <- (truthy_string_toLowerCase s), <- (truthy_string_toLowerCase s').
  now rewrite Heq.
Qed.

Lemma includes_opt_found o r term lower :
  o = Some r -> term <> "" -> includes r term = true ->
  lower = toLowerCase term ->
  includes_opt o lower = true.
Proof.
  intros -> Hterm Hin ->. unfold includes_opt.
  rewrite (includes_toLowerCase r term Hin), andb_true_r.
  pose proof (includes_nonempty r term Hterm Hin) as Hr.
  now destruct r.
Qed.

(** X8: for ASCII text, with the favourites filter off, a record on the
    side of the view mode whose username, platform, real name, e-mail or
    account manager contains a non-empty term is in the view of every
    typing of that term that differs from it by case only. *)
Theorem search_finds_any_field data st x term typed :
  showFavoritesOnly st = false ->
  isAscii term = true -> isAscii typed = true ->
  term <> "" -> toLowerCase typed = toLowerCase term ->
  x ∈ data -> inViewMode (viewMode st) x = true ->
  (isAscii (username x) = true /\ includes (username x) term = true)
  \/ includes (Platform_name (platform x)) term = true
  \/ (exists r, realName x = Some r
                /\ isAscii r = true /\ includes r term = true)
  \/ (exists r, email x = Some r
                /\ isAscii r = true /\ includes r term = true)
  \/ (exists r, accountManager x = Some r
                /\ isAscii r = true /\ includes r term = true) ->
  x ∈ filteredData data (setSearchTerm typed st).
Proof.
  intros Hfav _ _ Hterm Hcase Hx Hside Hfield.
  assert (Htyped : truthy_string typed = true).
  { rewrite <- truthy_string_toLowerCase, Hcase, truthy_string_toLowerCase.
    now destruct term. }
  assert (Hmatch : matchesSearch (toLowerCase typed) x = true).
  { rewrite Hcase. unfold matchesSearch.
    destruct Hfield
      as [[_ H]|[H|[(r & Hr & _ & H)|[(r & Hr & _ & H)|(r & Hr & _ & H)]]]].
    - now rewrite (includes_toLowerCase _ _ H).
    - rewrite (includes_toLowerCase _ _ H). now rewrite orb_true_r.
    - rewrite (includes_opt_found _ r term _ Hr Hterm H eq_refl).
      now rewrite !orb_true_r.
    - rewrite (includes_opt_found _ r term _ Hr Hterm H eq_refl).
      now rewrite !orb_true_r.
    - rewrite (includes_opt_found _ r term _ Hr Hterm H eq_refl).
      now rewrite !orb_true_r. }
  unfold filteredData.
  cbn [searchTerm setSearchTerm viewMode showFavoritesOnly sortConfig].
  rewrite Htyped, Hfav.
  assert (Hin : x ∈ List.filter (matchesSearch (toLowerCase typed))
                      (List.filter (inViewMode (viewMode st)) data)).
  { apply elem_of_filter_bool. split; [|exact Hmatch].
    apply elem_of_filter_bool. now split. }
  destruct (sortConfig st); [now apply elem_of_Array_sort | exact Hin].
Qed.

(** ** The pages *)

Lemma slice_nonneg {A : Type} (start stop : Z) (xs : list A) :
  (0 <= start <= stop)%Z ->
  slice start stop xs
  = take (Z.to_nat stop - Z.to_nat start) (drop (Z.to_nat start) xs).
Proof.
  intros Hrange. unfold slice.
  destruct (Z.ltb_spec start 0) as [?|_]; [lia|].
  destruct (Z.ltb_spec stop 0) as [?|_]; [lia|].
  destruct (Nat.le_gt_cases (length xs) (Z.to_nat start)) as [Hout|Hin].
  - rewrite (drop_ge xs (Z.to_nat start)) by exact Hout.
    rewrite (drop_ge xs (Z.to_nat (Z.min start (Z.of_nat (length xs)))))
      by lia.
    now rewrite !take_nil.
  - replace (Z.to_nat (Z.min start (Z.of_nat (length xs))))
      with (Z.to_nat start) by lia.
    destruct (Nat.le_gt_cases (Z.to_nat stop) (length xs)) as [Hfit|Hcut].
    + f_equal. lia.
    + rewrite !take_ge; [reflexivity| |]; rewrite length_drop; lia.
Qed.

Lemma length_slice_le {A : Type} (start stop : Z) (xs : list A) :
  (stop = start + 10)%Z -> (length (slice start stop xs) <= 10)%nat.
Proof.
  intros Hspan. unfold slice. rewrite length_take, length_drop.
  destruct (Z.ltb_spec start 0), (Z.ltb_spec stop 0); lia.
Qed.

(** The number of pages holds the view, and no smaller number does. *)
Lemma totalPages_bounds data st :
  (Z.of_nat (length (filteredData data st)) <= 10 * totalPages data st
   < Z.of_nat (length (filteredData data st)) + 10)%Z.
Proof.
  unfold totalPages. rewrite Qceiling_tenth.
  pose proof (Z.div_mod (- Z.of_nat (length (filteredData data st))) 10
                ltac:(lia)).
  pose proof (Z.mod_pos_bound (- Z.of_nat (length (filteredData data st))) 10
                ltac:(lia)).
  lia.
Qed.

Lemma paginatedData_take_drop data st :
  (1 <= currentPage st)%Z ->
  paginatedData data st
  = take 10 (drop (10 * Z.to_nat (currentPage st - 1))
               (filteredData data st)).
Proof.
  intros Hp. unfold paginatedData, ITEMS_PER_PAGE.
  rewrite slice_nonneg by lia. f_equal; [lia|]. f_equal. lia.
Qed.

(** X9: a page never holds more than ten rows, whatever the page number;
    for a page number from 1 on it is the ten rows, or fewer at the end,
    that follow the rows of the pages before it. *)
Theorem page_is_a_window_of_ten data st :
  (length (paginatedData data st) <= 10)%nat
  /\ ((1 <= currentPage st)%Z ->
      paginatedData data st
      = take 10 (drop (10 * Z.to_nat (currentPage st - 1))
                   (filteredData data st))).
Proof.
  split; [|apply paginatedData_take_drop].
  unfold paginatedData, ITEMS_PER_PAGE. apply length_slice_le. lia.
Qed.

Lemma concat_windows {A : Type} (xs : list A) (k : nat) :
  concat (map (fun p => take 10 (drop (10 * (p - 1)) xs)) (seq 1 k))
  = take (10 * k) xs.
Proof.
  induction k as [|k IH]; [reflexivity|].
  rewrite seq_S, map_app, concat_app, IH. cbn [map concat].
  rewrite app_nil_r.
  replace (10 * (1 + k - 1))%nat with (10 * k)%nat by lia.
  rewrite take_take_drop. f_equal. lia.
Qed.

(** X10: the pages 1 to [totalPages], one after the other, are the view:
    every row is on exactly one page and the order is kept; a page after
    the last one is empty. *)
Theorem pages_tile_the_view data st :
  concat (map (fun p => paginatedData data (setCurrentPage (Z.of_nat p) st))
            (seq 1 (Z.to_nat (totalPages data st))))
  = filteredData data st
  /\ ((totalPages data st < currentPage st)%Z -> paginatedData data st = []).
Proof.
  pose proof (totalPages_bounds data st) as Hb.
  split.
  - rewrite (map_ext_in _
               (fun p => take 10 (drop (10 * (p - 1)) (filteredData data st)))).
    + rewrite concat_windows. apply take_ge. lia.
    + intros p Hp. apply in_seq in Hp.
      rewrite paginatedData_take_drop by (cbn [currentPage setCurrentPage]; lia).
      cbn [currentPage setCurrentPage].
      change (filteredData data (setCurrentPage (Z.of_nat p) st))
        with (filteredData data st).
      do 2 f_equal. lia.
  - intros Hlast. rewrite paginatedData_take_drop by lia.
    rewrite drop_ge by lia. apply take_nil.
Qed.

(** X11: the page buttons keep the page number in range: the previous-page
    button never goes below 1, the next-page button never goes beyond the
    displayed page count, and from a page in range both lead to a page in
    range, staying put at either end. *)
Theorem page_buttons_stay_in_range data st :
  (1 <= currentPage (previousPage st))%Z
  /\ (currentPage (nextPage data st) <= totalPagesOr1 data st)%Z
  /\ ((1 <= currentPage st <= totalPagesOr1 data st)%Z ->
      (1 <= currentPage (previousPage st) <= totalPagesOr1 data st)%Z
      /\ (1 <= currentPage (nextPage data st) <= totalPagesOr1 data st)%Z)
  /\ (currentPage st = 1%Z -> currentPage (previousPage st) = 1%Z)
  /\ (currentPage st = totalPagesOr1 data st ->
      currentPage (nextPage data st) = totalPagesOr1 data st).
Proof.
  unfold previousPage, nextPage. cbn [currentPage setCurrentPage].
  assert (Hpos : (1 <= totalPagesOr1 data st)%Z).
  { unfold totalPagesOr1. pose proof (totalPages_bounds data st).
    destruct (Z.eqb_spec (totalPages data st) 0); lia. }
  split; [lia|]. split; [lia|]. split; [lia|]. split; lia.
Qed.

(** ** Tags and usernames of the entry form *)

(** X12: every tag the form submits is clean: not empty, without white
    space at either end and without a comma, whatever was typed. *)
Theorem parseTags_gives_clean_tags input t :
  t ∈ parseTags input -> cleanTag t.
Proof.
  unfold parseTags. intros Ht.
  apply elem_of_filter_bool in Ht as [Ht Hne].
  apply list_elem_of_In, in_map_iff in Ht as (x & <- & Hx).
  apply list_elem_of_In in Hx.
  split; [|split].
  - intros H. rewrite H in Hne. discriminate.
  - apply trim_idem.
  - unfold trim. apply hasChar_trimEnd, hasChar_trimStart.
    exact (split_pieces _ _ _ Hx).
Qed.

(** X13: an edit form opened on a record whose tags are tags as the form
    writes them (not empty, trimmed, without a comma), and submitted
    without a change, hands the store the tags of the record, in their
    order: joining them for the tags input and reading the input back is
    a round trip. *)
Theorem clean_tags_survive_edit now data st account :
  Forall cleanTag (default [] (tags account)) ->
  parseTags (tagsInputOf account) = default [] (tags account)
  /\ exists updates,
       payload (submitIntent now data (openEditModal account st))
       = Some updates
       /\ Form.tags updates = default [] (tags account).
Proof.
  intros Hclean.
  pose proof (parseTags_tagsInputOf account Hclean) as Hparse.
  split; [exact Hparse|].
  eexists. split; [reflexivity|]. exact Hparse.
Qed.

(** X14: the username the form hands over always starts with '@', and a
    username that already went through the form is left as it is, so an
    edit submitted without a change hands back the username of a record
    that starts with '@'. *)
Theorem normalizeUsername_is_stable u :
  startsWith (normalizeUsername u) "@" = true
  /\ normalizeUsername (normalizeUsername u) = normalizeUsername u
  /\ (forall now data st account,
        startsWith (username account) "@" = true ->
        exists updates,
          payload (submitIntent now data (openEditModal account st))
          = Some updates
          /\ Form.username updates = username account).
Proof.
  assert (Hat : startsWith (normalizeUsername u) "@" = true).
  { unfold normalizeUsername. destruct (startsWith u "@") eqn:H; [exact H|].
    reflexivity. }
  split; [exact Hat|]. split.
  - unfold normalizeUsername at 1. now rewrite Hat.
  - intros now data st account Hacc. eexists. split; [reflexivity|].
    cbn. unfold normalizeUsername. now rewrite Hacc.
Qed.

(** X15: an edit submitted for a record that is no longer in the
    collection still asks for the update, under the id the form holds, and
    its log is the new entry alone: nothing of an earlier log goes with
    it. *)
Theorem edit_of_missing_record now data st :
  modalMode st = mode_edit ->
  findById (Form.id (formState st)) data = None ->
  exists updates,
    submitIntent now data st = onUpdateAccount (Form.id (formState st)) updates
    /\ Form.history updates
       = Some [ {| date := now; action := "Profile Updated";
                   details := None |} ].
Proof.
  intros Hmode Hfind. unfold submitIntent. rewrite Hmode, Hfind.
  eexists. split; reflexivity.
Qed.

(** ** Bulk actions and deletions *)

(** X16: the bulk bar does nothing on an empty selection, and a bulk
    deletion that is not confirmed does nothing either: the store, the
    collection and the selection stay as they are. *)
Theorem bulk_needs_selection_and_consent
    confirmed commitOk fetchOk a store app st :
  (selectedIds st = ∅ ->
   bulkRoundTrip confirmed commitOk fetchOk a store app st = (store, app, st))
  /\ bulkRoundTrip false commitOk fetchOk delete store app st
     = (store, app, st).
Proof.
  unfold bulkRoundTrip, handleBulk. split.
  - intros ->. now rewrite size_empty.
  - now destruct (size (selectedIds st) =? 0)%nat.
Qed.

Lemma filter_filter_bool {A : Type} (f g : A -> bool) (xs : list A) :
  List.filter g (List.filter f xs) = List.filter (fun x => f x && g x) xs.
Proof.
  induction xs as [|x rest IH]; [reflexivity|].
  cbn [List.filter]. destruct (f x); cbn [List.filter andb];
    [destruct (g x)|]; now rewrite IH.
Qed.

Lemma foldl_applyOp_delete ids store :
  foldl applyOp store (map batch_delete ids)
  = List.filter (fun d => negb (existsb (String.eqb (id d)) ids)) store.
Proof.
  revert store. induction ids as [|i rest IH]; intros store.
  - cbn. induction store as [|d store IHs]; [reflexivity|].
    cbn [List.filter]. now rewrite <- IHs.
  - cbn [map foldl applyOp]. rewrite IH, filter_filter_bool.
    apply filter_ext. intros d. cbn [existsb]. now rewrite negb_orb.
Qed.

Lemma forallb_opPermitted_delete ids store :
  forallb (opPermitted store) (map batch_delete ids) = true.
Proof. induction ids as [|i rest IH]; [reflexivity | exact IH]. Qed.

Lemma bulkRoundTrip_delete store app st :
  selectedIds st <> ∅ ->
  db app = true -> isAuthenticated app = true ->
  let kept :=
    List.filter
      (fun d => negb (existsb (String.eqb (id d)) (elements (selectedIds st))))
      store in
  bulkRoundTrip true true true delete store app st
  = (kept, setData kept false app, setSelectedIds ∅ st).
Proof.
  intros Hne Hdb Hauth kept. unfold bulkRoundTrip, handleBulk.
  rewrite (proj1 (selection_not_empty _ Hne)). cbn [isDelete andb negb].
  unfold handleBulkAction, batch_commit, batchOf. rewrite Hdb. cbn [negb andb].
  rewrite forallb_opPermitted_delete, foldl_applyOp_delete. fold kept.
  unfold fetchAccounts. now rewrite Hdb, Hauth.
Qed.

(** X17: a confirmed bulk deletion whose round trips succeed leaves in the
    refreshed collection exactly the records whose id was not selected, in
    their order, so no view shows a deleted record; the selection is
    cleared.  A selected id without a document does not stop it. *)
Theorem bulk_delete_then_refresh store app st :
  selectedIds st <> ∅ ->
  db app = true -> isAuthenticated app = true ->
  let after := bulkRoundTrip true true true delete store app st in
  selectedIds after.2 = ∅
  /\ data after.1.2 = after.1.1
  /\ (forall d, d ∈ data after.1.2 <-> d ∈ store /\ id d ∉ selectedIds st)
  /\ sublist (data after.1.2) store
  /\ (forall v d, d ∈ filteredData (data after.1.2) v ->
                  id d ∉ selectedIds st).
Proof.
  intros Hne Hdb Hauth after. unfold after.
  rewrite (bulkRoundTrip_delete store app st Hne Hdb Hauth).
  cbn [fst snd data setData selectedIds setSelectedIds].
  assert (Hmem : forall d,
             d ∈ List.filter
                   (fun d => negb (existsb (String.eqb (id d))
                                     (elements (selectedIds st)))) store
             <-> d ∈ store /\ id d ∉ selectedIds st).
  { intros d. rewrite elem_of_filter_bool, negb_true_iff.
    rewrite <- existsb_eqb_elements.
    destruct (existsb (String.eqb (id d)) (elements (selectedIds st)));
      split; intros [H1 H2]; split; congruence. }
  split; [reflexivity|]. split; [reflexivity|]. split; [exact Hmem|].
  split; [apply sublist_filter_bool|].
  intros v d Hd. apply elem_of_filteredData in Hd as [Hd _].
  now apply Hmem in Hd.
Qed.

(** A bulk archive or restore whose round trips succeed: the store, the
    shell and the table afterwards. *)
Lemma bulkRoundTrip_flag confirmed a store app st :
  isDelete a = false ->
  selectedIds st <> ∅ ->
  db app = true -> isAuthenticated app = true ->
  (forall i, i ∈ selectedIds st -> hasDoc store i = true) ->
  let flagged :=
    map (fun d => if existsb (String.eqb (id d)) (elements (selectedIds st))
                  then withIsArchived (flagOf a) d else d) store in
  bulkRoundTrip confirmed true true a store app st
  = (flagged, setData flagged false app, setSelectedIds ∅ st).
Proof.
  intros Ha Hne Hdb Hauth Hdocs flagged.
  unfold bulkRoundTrip, handleBulk.
  rewrite (proj1 (selection_not_empty _ Hne)), Ha. cbn [andb].
  assert (Hall : forallb (hasDoc store) (elements (selectedIds st)) = true).
  { apply forallb_forall. intros i Hi. apply Hdocs.
    now apply elem_of_elements, list_elem_of_In. }
  assert (Hops : batchOf (elements (selectedIds st)) a
                 = map (fun i => batch_update i (flagOf a))
                     (elements (selectedIds st))).
  { destruct a; [reflexivity | reflexivity | discriminate Ha]. }
  unfold handleBulkAction, batch_commit. rewrite Hdb, Hops. cbn [negb andb].
  rewrite forallb_opPermitted_update, Hall, foldl_applyOp_update.
  fold flagged. unfold fetchAccounts. now rewrite Hdb, Hauth.
Qed.

(** X18: a bulk restore of a non-empty selection whose round trips succeed
    leaves every targeted record of the refreshed collection with the flag
    set to false, in the active view and out of the archived view, and
    leaves the selection set empty. *)
Theorem bulk_restore_then_refresh confirmed store app st :
  selectedIds st <> ∅ ->
  db app = true -> isAuthenticated app = true ->
  (forall i, i ∈ selectedIds st -> hasDoc store i = true) ->
  let after := bulkRoundTrip confirmed true true restore store app st in
  selectedIds after.2 = ∅
  /\ (forall d, d ∈ data after.1.2 -> id d ∈ selectedIds st ->
      isArchived d = Some false
      /\ (forall v, viewMode v = view_active -> searchTerm v = "" ->
                    showFavoritesOnly v = false ->
                    d ∈ filteredData (data after.1.2) v)
      /\ (forall v, viewMode v = view_archived ->
                    d ∉ filteredData (data after.1.2) v)).
Proof.
  intros Hne Hdb Hauth Hdocs after. unfold after.
  rewrite (bulkRoundTrip_flag confirmed restore store app st eq_refl
             Hne Hdb Hauth Hdocs).
  cbn [fst snd data setData selectedIds setSelectedIds flagOf].
  split; [reflexivity|]. intros d Hd Hsel.
  assert (Ha : isArchived d = Some false).
  { apply list_elem_of_In, in_map_iff in Hd as (d0 & <- & _).
    assert (Hid : id (if existsb (String.eqb (id d0))
                           (elements (selectedIds st))
                      then withIsArchived false d0 else d0) = id d0)
      by now destruct (existsb _ _).
    rewrite Hid in Hsel. apply existsb_eqb_elements in Hsel.
    now rewrite Hsel. }
  split; [exact Ha|]. split.
  - intros v Hv Hs Hf. apply elem_of_filteredData_plain; [exact Hs|exact Hf|].
    split; [exact Hd|]. rewrite Hv. unfold inViewMode. now rewrite Ha.
  - intros v Hv Hin. apply elem_of_filteredData in Hin as [_ Hin].
    rewrite Hv in Hin. unfold inViewMode in Hin. rewrite Ha in Hin.
    discriminate.
Qed.

(** X19: a bulk archive or restore writes the flag and nothing else: after
    a successful round trip the refreshed collection has, at every
    position, the record the store had there, equal to it up to
    [isArchived], and identical to it when its id was not selected. *)
Theorem bulk_flag_touches_only_the_flag confirmed a store app st :
  isDelete a = false ->
  selectedIds st <> ∅ ->
  db app = true -> isAuthenticated app = true ->
  (forall i, i ∈ selectedIds st -> hasDoc store i = true) ->
  let after := bulkRoundTrip confirmed true true a store app st in
  length (data after.1.2) = length store
  /\ (forall n d, store !! n = Some d ->
      exists d', data after.1.2 !! n = Some d'
        /\ withIsArchived true d' = withIsArchived true d
        /\ (id d ∈ selectedIds st -> isArchived d' = Some (flagOf a))
        /\ (id d ∉ selectedIds st -> d' = d)).
Proof.
  intros Ha Hne Hdb Hauth Hdocs after. unfold after.
  rewrite (bulkRoundTrip_flag confirmed a store app st Ha Hne Hdb Hauth Hdocs).
  cbn [fst snd data setData].
  split; [apply length_map|].
  intros n d Hn. eexists. split.
  - rewrite list_lookup_fmap, Hn. reflexivity.
  - destruct (existsb (String.eqb (id d)) (elements (selectedIds st)))
      eqn:Hsel.
    + split; [reflexivity|]. split; [reflexivity|].
      intros Hout. apply existsb_eqb_elements in Hsel. now destruct Hout.
    + split; [reflexivity|]. split; [|reflexivity].
      intros Hin. apply existsb_eqb_elements in Hin. congruence.
Qed.

Lemma handleBulkAction_missing_doc commitOk fetchOk ids a store app i :
  db app = true -> isDelete a = false ->
  i ∈ ids -> hasDoc store i = false ->
  handleBulkAction commitOk fetchOk ids a store app = (store, app, true).
Proof.
  intros Hdb Ha Hi Hdoc. unfold handleBulkAction, batch_commit.
  rewrite Hdb. cbn [negb].
  assert (Hops : batchOf ids a = map (fun i => batch_update i (flagOf a)) ids).
  { destruct a; [reflexivity | reflexivity | discriminate Ha]. }
  rewrite Hops, forallb_opPermitted_update.
  assert (Hall : forallb (hasDoc store) ids = false).
  { destruct (forallb (hasDoc store) ids) eqn:Hf; [|reflexivity].
    rewrite forallb_forall in Hf.
    rewrite (Hf i) in Hdoc by now apply list_elem_of_In. discriminate. }
  rewrite Hall, andb_false_r. reflexivity.
Qed.

(** X20: an archive or restore batch is all or nothing: when the commit
    fails, or when one of its ids has no document, no record is written,
    the collection is not refreshed and the failure alert is shown;
    without a store handle the call returns at once, without an alert. *)
Theorem bulk_flag_failure_changes_nothing commitOk fetchOk ids a store app :
  (db app = false ->
   handleBulkAction commitOk fetchOk ids a store app = (store, app, false))
  /\ (db app = true -> isDelete a = false ->
      commitOk = false \/ (exists i, i ∈ ids /\ hasDoc store i = false) ->
      handleBulkAction commitOk fetchOk ids a store app = (store, app, true)).
Proof.
  split.
  - intros Hdb. unfold handleBulkAction. now rewrite Hdb.
  - intros Hdb Ha [->|(i & Hi & Hdoc)].
    + unfold handleBulkAction, batch_commit. now rewrite Hdb.
    + now apply (handleBulkAction_missing_doc _ _ _ _ _ _ i).
Qed.

Lemma deleteRoundTrip_success target store app :
  db app = true -> isAuthenticated app = true ->
  let kept :=
    List.filter (fun d => negb (String.eqb (id d) target)) store in
  deleteRoundTrip true true true target store app
  = (kept, setData kept false app, false).
Proof.
  intros Hdb Hauth kept.
  unfold deleteRoundTrip, handleDelete, handleDeleteAccount, deleteDoc.
  rewrite Hdb. cbn [negb]. fold kept. unfold fetchAccounts.
  now rewrite Hdb, Hauth.
Qed.

(** X21: a confirmed deletion of one record whose round trips succeed
    leaves in the refreshed collection exactly the records with another
    id, in their order, so that no view, active or archived, shows the
    record any more; a deletion that is not confirmed asks nothing of the
    store. *)
Theorem delete_then_refresh target store app :
  db app = true -> isAuthenticated app = true ->
  let after := deleteRoundTrip true true true target store app in
  after.2 = false
  /\ data after.1.2 = after.1.1
  /\ (forall d, d ∈ data after.1.2 <-> d ∈ store /\ id d <> target)
  /\ sublist (data after.1.2) store
  /\ (forall v d, d ∈ filteredData (data after.1.2) v -> id d <> target)
  /\ (forall deleteOk fetchOk,
        deleteRoundTrip false deleteOk fetchOk target store app
        = (store, app, false)).
Proof.
  intros Hdb Hauth after. unfold after.
  rewrite (deleteRoundTrip_success target store app Hdb Hauth).
  cbn [fst snd data setData].
  assert (Hmem : forall d,
             d ∈ List.filter (fun d => negb (String.eqb (id d) target)) store
             <-> d ∈ store /\ id d <> target).
  { intros d. rewrite elem_of_filter_bool, negb_true_iff.
    now rewrite String.eqb_neq. }
  split; [reflexivity|]. split; [reflexivity|]. split; [exact Hmem|].
  split; [apply sublist_filter_bool|]. split; [|reflexivity].
  intros v d Hd. apply elem_of_filteredData in Hd as [Hd _].
  now apply Hmem in Hd.
Qed.

Lemma hasDoc_after_delete target store :
  hasDoc (List.filter (fun d => negb (String.eqb (id d) target)) store) target
  = false.
Proof.
  unfold hasDoc. induction store as [|d store IH]; [reflexivity|].
  cbn [List.filter]. destruct (String.eqb (id d) target) eqn:Hd;
    cbn [negb existsb]; [exact IH|]. now rewrite Hd.
Qed.

(** X22: deleting a selected record does not take its id out of the
    selection, so that the bulk bar still names it; an archive or restore
    asked for next passes the stale id to the store with the others and
    fails as a whole: the alert is shown, no record is written, the
    collection is not refreshed, and the selection is cleared all the
    same. *)
Theorem deleted_id_fails_the_batch confirmed fetchOk a target store app st :
  db app = true -> isAuthenticated app = true ->
  isDelete a = false -> target ∈ selectedIds st ->
  let afterDelete :=
    deleteRoundTripOnTable true true true target store app st in
  let afterBulk :=
    bulkRoundTrip confirmed true fetchOk a
      afterDelete.1.1 afterDelete.1.2 afterDelete.2 in
  selectedIds afterDelete.2 = selectedIds st
  /\ target ∈ selectedIds afterDelete.2
  /\ hasDoc afterDelete.1.1 target = false
  /\ handleBulk confirmed a afterDelete.2
     = (Some (onBulkAction (elements (selectedIds st)) a),
        setSelectedIds ∅ st)
  /\ target ∈ elements (selectedIds st)
  /\ handleBulkAction true fetchOk (elements (selectedIds st)) a
       afterDelete.1.1 afterDelete.1.2
     = (afterDelete.1.1, afterDelete.1.2, true)
  /\ afterBulk = (afterDelete.1.1, afterDelete.1.2, setSelectedIds ∅ st).
Proof.
  intros Hdb Hauth Ha Hin afterDelete afterBulk.
  unfold afterBulk, afterDelete, deleteRoundTripOnTable.
  rewrite (deleteRoundTrip_success target store app Hdb Hauth).
  cbn [fst snd].
  set (kept := List.filter (fun d => negb (String.eqb (id d) target)) store).
  assert (Hne : selectedIds st <> ∅) by (intros He; rewrite He in Hin;
                                         now apply not_elem_of_empty in Hin).
  assert (Hbar : handleBulk confirmed a st
                 = (Some (onBulkAction (elements (selectedIds st)) a),
                    setSelectedIds ∅ st)).
  { unfold handleBulk. rewrite (proj1 (selection_not_empty _ Hne)).
    now rewrite Ha. }
  assert (Hids : target ∈ elements (selectedIds st))
    by now apply elem_of_elements.
  assert (Hfail : handleBulkAction true fetchOk (elements (selectedIds st)) a
                    kept (setData kept false app)
                  = (kept, setData kept false app, true)).
  { apply (handleBulkAction_missing_doc _ _ _ _ _ _ target);
      [exact Hdb | exact Ha | exact Hids | apply hasDoc_after_delete]. }
  split; [reflexivity|]. split; [exact Hin|].
  split; [apply hasDoc_after_delete|]. split; [exact Hbar|].
  split; [exact Hids|]. split; [exact Hfail|].
  unfold bulkRoundTrip. rewrite Hbar, Hfail. reflexivity.
Qed.

(** ** The export *)

(** X23: the text offered for download is the header line and then, for
    each exported record, a line break and the seven cells of the record
    with commas between them, with no line break at the end.  Without a
    selection the records are those of the view, in the order of the view;
    with one they are the selected records of the collection in the order
    of the collection, whatever the sort of the view.  With nothing to
    export the text is the header line alone, and with one record it is
    the header line, a line break and the line of the record. *)
Theorem export_lines_and_order data st :
  (selectedIds st = ∅ ->
   handleExport data st = exportTextOf (filteredData data st))
  /\ (selectedIds st <> ∅ ->
      exists source,
        handleExport data st = exportTextOf source
        /\ sublist source data
        /\ (forall d, d ∈ source <-> d ∈ data /\ id d ∈ selectedIds st)
        /\ (forall cfg,
              handleExport data (setSortConfig cfg st)
              = exportTextOf source))
  /\ handleExport [] st
     = "ID,Username,Platform,Followers,Manager,Status,Email"
  /\ (forall d,
        truthy_flag (isArchived d) = false ->
        handleExport [d] initialTableState
        = "ID,Username,Platform,Followers,Manager,Status,Email"
          +:+ newline +:+ join "," (csvCells d)).
Proof.
  split; [|split; [|split]].
  - intros Hsel. rewrite handleExport_text. unfold exportSource.
    now rewrite Hsel, size_empty.
  - intros Hsel.
    assert (Hsrc : forall st', selectedIds st' = selectedIds st ->
               exportSource data st'
               = List.filter (fun d => bool_decide (id d ∈ selectedIds st))
                   data).
    { intros st' Hst'. unfold exportSource. rewrite Hst'.
      now rewrite (proj2 (selection_not_empty _ Hsel)). }
    exists (List.filter (fun d => bool_decide (id d ∈ selectedIds st)) data).
    split; [now rewrite handleExport_text, (Hsrc st eq_refl)|].
    split; [apply sublist_filter_bool|]. split.
    + intros d. rewrite elem_of_filter_bool.
      now rewrite bool_decide_eq_true.
    + intros cfg.
      now rewrite handleExport_text, (Hsrc (setSortConfig cfg st) eq_refl).
  - rewrite handleExport_text. unfold exportSource, filteredData.
    cbn [List.filter].
    destruct (0 <? size (selectedIds st))%nat.
    + reflexivity.
    + destruct (truthy_string (searchTerm st)), (showFavoritesOnly st),
        (sortConfig st); reflexivity.
  - intros d Harch.
    rewrite handleExport_text. unfold exportSource, filteredData.
    cbn [selectedIds initialTableState searchTerm showFavoritesOnly
         sortConfig viewMode truthy_string List.filter inViewMode].
    rewrite size_empty. cbn [Nat.ltb Nat.leb].
    unfold inViewMode. rewrite Harch. cbn [negb List.filter].
    unfold exportTextOf. cbn [foldr]. now rewrite append_nil_right.
Qed.

Lemma split_join_sep c xs :
  xs <> [] -> Forall (fun x => hasChar c x = false) xs ->
  split c (join (String c "") xs) = xs.
Proof.
  induction xs as [|x rest IH]; [congruence|]. intros _ Hall.
  apply Forall_cons in Hall as [Hx Hrest].
  destruct rest as [|y rest]; [now apply split_clean|].
  change (join (String c "") (x :: y :: rest))
    with (x +:+ String c (join (String c "") (y :: rest))).
  rewrite (split_app_sep _ _ _ Hx). f_equal. now apply IH.
Qed.

(** X24: a line of the export can be cut back at its commas into the seven
    cells of its record exactly when none of the cells contains a comma:
    nothing is escaped. *)
Theorem csvRow_splits_back u :
  split "," (csvRow u) = csvCells u
  <-> Forall (fun cell => hasChar "," cell = false) (csvCells u).
Proof.
  split.
  - intros Hsplit. rewrite <- Hsplit. apply Forall_forall.
    intros x Hx. exact (split_pieces _ _ _ Hx).
  - intros Hclean. change (csvRow u) with (join "," (csvCells u)).
    now apply split_join_sep.
Qed.

(** ** The audit of the detail panel *)

Lemma forallb_false {A : Type} (f : A -> bool) (xs : list A) :
  forallb f xs = false -> exists x, In x xs /\ f x = false.
Proof.
  induction xs as [|x xs IH]; [discriminate|].
  cbn [forallb]. intros H. apply andb_false_iff in H as [H|H].
  - exists x. split; [now left | exact H].
  - destruct (IH H) as (y & Hy & Hf). exists y. split; [now right | exact Hf].
Qed.

(** X25: an audit run on an inspected record, from a panel that was on
    screen, either unmounts the table or ends with the busy flag down.  It
    unmounts the table exactly when the analysis handed back by the first
    call, or a source of the trends handed back by the second, cannot be
    rendered.  Otherwise the panel shows the same record, the trends of
    the second call, which are never missing, and the analysis of the
    first call, so that a failed first call wipes the analysis the panel
    had.  When both calls are rejected the audit ends with no analysis and
    the text "Failed to fetch live trends.". *)
Theorem runAudit_settles_or_unmounts analysisOutcome trendsOutcome ps account :
  selectedAccount ps = Some account ->
  panelRenders ps = true ->
  (runAudit analysisOutcome trendsOutcome ps = None
   <-> (exists result,
          analyzeAccount analysisOutcome = Some result
          /\ rendersAsAnalysis result = false)
       \/ (exists trends chunk,
             getPlatformTrends trendsOutcome = Some trends
             /\ chunk ∈ sources trends
             /\ rendersAsSource chunk = false))
  /\ (forall ps', runAudit analysisOutcome trendsOutcome ps = Some ps' ->
        isAnalyzing ps' = false
        /\ selectedAccount ps' = Some account
        /\ platformTrends ps' = getPlatformTrends trendsOutcome
        /\ platformTrends ps' <> None
        /\ analysis ps' = analyzeAccount analysisOutcome
        /\ panelRenders ps' = true)
  /\ (forall result,
        analyzeAccount analysisOutcome = Some result ->
        truthy_json result = true ->
        member "strengths" result = None
        \/ member "weaknesses" result = None ->
        runAudit analysisOutcome trendsOutcome ps = None)
  /\ (analysisOutcome = Rejected -> trendsOutcome = Rejected ->
      runAudit analysisOutcome trendsOutcome ps
      = Some {| selectedAccount := Some account; isAnalyzing := false;
                analysis := None;
                platformTrends :=
                  Some {| text := "Failed to fetch live trends.";
                          sources := [] |} |}).
Proof.
  intros Hsel Hps.
  assert (Hold : match platformTrends ps with
                 | Some trends => forallb rendersAsSource (sources trends)
                 | None => true
                 end = true).
  { unfold panelRenders in Hps. now apply andb_true_iff in Hps as [_ H]. }
  assert (Hnew : exists trends,
             getPlatformTrends trendsOutcome = Some trends).
  { destruct trendsOutcome; eexists; reflexivity. }
  destruct Hnew as (trends & Htrends).
  unfold runAudit, panelRenders. rewrite Hsel.
  cbn [analysis platformTrends]. rewrite Hold, Htrends, andb_true_r.
  split; [|split; [|split]].
  - destruct (analyzeAccount analysisOutcome) as [result|] eqn:Hres.
    + destruct (rendersAsAnalysis result) eqn:Hr.
      * cbn [andb].
        destruct (forallb rendersAsSource (sources trends)) eqn:Hf.
        -- split; [discriminate|].
           intros [(r & Hr' & Hbad)|(t & c & Ht & Hc & Hbad)].
           ++ injection Hr' as <-. congruence.
           ++ injection Ht as <-. rewrite forallb_forall in Hf.
              rewrite (Hf c) in Hbad by now apply list_elem_of_In.
              discriminate.
        -- split; [intros _|reflexivity]. right.
           destruct (forallb_false rendersAsSource (sources trends) Hf)
             as (c & Hc & Hbad).
           exists trends, c. now rewrite list_elem_of_In.
      * split; [intros _|reflexivity]. left. now exists result.
    + cbn [andb].
      destruct (forallb rendersAsSource (sources trends)) eqn:Hf.
      * split; [discriminate|].
        intros [(r & Hr' & _)|(t & c & Ht & Hc & Hbad)]; [discriminate|].
        injection Ht as <-. rewrite forallb_forall in Hf.
        rewrite (Hf c) in Hbad by now apply list_elem_of_In.
        discriminate.
      * split; [intros _|reflexivity]. right.
        destruct (forallb_false rendersAsSource (sources trends) Hf)
          as (c & Hc & Hbad).
        exists trends, c. now rewrite list_elem_of_In.
  - intros ps' Hrun.
    destruct (match analyzeAccount analysisOutcome with
              | Some result => rendersAsAnalysis result
              | None => true
              end) eqn:Ha; [|discriminate Hrun].
    destruct (forallb rendersAsSource (sources trends)) eqn:Hf;
      cbn [andb] in Hrun; [|discriminate Hrun].
    injection Hrun as <-.
    cbn [isAnalyzing selectedAccount platformTrends analysis].
    rewrite Ha, Hf. repeat split; congruence.
  - intros result -> Htruthy Hmissing.
    assert (Hbad : rendersAsAnalysis result = false).
    { unfold rendersAsAnalysis. rewrite Htruthy.
      destruct Hmissing as [-> | ->]; cbn [mappedRenders];
        now rewrite ?andb_false_r. }
    now rewrite Hbad.
  - intros -> ->. cbn in Htrends. injection Htrends as <-.
    reflexivity.
Qed.

(** ** What the shell renders *)

Lemma default_view_is_active_filter records :
  filteredData records initialTableState
  = List.filter (fun acc => negb (truthy_flag (isArchived acc))) records.
Proof. reflexivity. Qed.

(** X26: the dashboard is never rendered for an empty collection, and it
    is handed exactly the records the table shows by default, none of
    them archived; the two counts of the settings page are the size of the
    collection and that size less the size of that list; with an empty
    collection that is not loading, the accounts view is the table, so
    that a first record can be added, and the dashboard view a notice. *)
Theorem renderContent_feeds_the_dashboard currentView app :
  (forall d, renderContent currentView app = DashboardOf d ->
     data app <> []
     /\ d = filteredData (data app) initialTableState
     /\ (forall x, x ∈ d -> truthy_flag (isArchived x) = false))
  /\ (forall total archived,
        renderContent currentView app = SettingsOf total archived ->
        total = length (data app)
        /\ (total
            = archived + length (filteredData (data app) initialTableState))%nat)
  /\ (forall d, renderContent currentView app = AccountTableOf d ->
        d = data app)
  /\ (data app = [] -> isLoadingData app = false ->
      renderContent ACCOUNTS app = AccountTableOf []
      /\ renderContent DASHBOARD app = DatabaseEmpty).
Proof.
  rewrite default_view_is_active_filter. unfold renderContent.
  split; [|split; [|split]].
  - intros d Hd.
    destruct (isLoadingData app), (length (data app) =? 0)%nat eqn:Hlen,
      currentView; cbn in Hd; try discriminate Hd.
    all: injection Hd as <-; (split; [|split; [reflexivity|]]).
    all: try (intros Hnil; rewrite Hnil in Hlen; discriminate Hlen).
    all: intros x Hx; apply elem_of_filter_bool in Hx as [_ Hx];
      now apply negb_true_iff in Hx.
  - intros total archived Hs.
    destruct (isLoadingData app), (length (data app) =? 0)%nat eqn:Hlen,
      currentView; cbn in Hs; try discriminate Hs.
    all: injection Hs as <- <-; (split; [reflexivity|]).
    all: symmetry; apply filter_length.
  - intros d Hd.
    destruct (isLoadingData app), (length (data app) =? 0)%nat eqn:Hlen,
      currentView; cbn in Hd; try discriminate Hd.
    all: now injection Hd as <-.
  - intros -> ->. split; reflexivity.
Qed.

(** ** The dashboard *)

Lemma numberSign_positive q : (0 <? numberSign q)%Z = true <-> (0 < q)%Q.
Proof.
  unfold numberSign, Qlt. cbn [Qnum Qden]. rewrite Z.ltb_lt.
  rewrite Z.mul_0_l, Z.mul_1_r.
  destruct (Z.sgn_spec (Qnum q)) as [[H ->]|[[H ->]|[H ->]]]; lia.
Qed.

Lemma rate_difference_positive a b :
  (0 <? numberSign (engagementRate b - engagementRate a)%Q)%Z = true
  <-> (engagementRate a < engagementRate b)%Q.
Proof. rewrite numberSign_positive. symmetry. apply Qlt_minus_iff. Qed.

(** X27: the "Top Performers" table ranks the first five records of the
    list it is given and no other: its rows are those five, or fewer, in
    the order of a non-increasing engagement rate, so a record from the
    sixth place on is never a top performer, whatever its rate. *)
Theorem topPerformers_ranks_the_first_five records :
  Permutation (topPerformers records) (take 5 records)
  /\ (length (topPerformers records) <= 5)%nat
  /\ StronglySorted
       (fun a b => (engagementRate b <= engagementRate a)%Q)
       (topPerformers records).
Proof.
  unfold topPerformers. rewrite slice_nonneg by lia.
  change (Z.to_nat 5 - Z.to_nat 0)%nat with 5%nat.
  change (drop (Z.to_nat 0) records) with records.
  split; [apply Array_sort_Permutation|]. split.
  - rewrite (Permutation_length (Array_sort_Permutation _ _)).
    rewrite length_take. lia.
  - apply Array_sort_StronglySorted.
    + intros x y z Hxy Hyz. eapply Qle_trans; eauto.
    + intros x y H. apply rate_difference_positive in H.
      now apply Qlt_le_weak.
    + intros x y H. apply Qnot_lt_le. intros Hlt.
      apply rate_difference_positive in Hlt. congruence.
Qed.

Lemma map_imap_const {A B C : Type} (f : nat -> A -> B) (g : B -> C)
    (h : A -> C) (xs : list A) :
  (forall i x, g (f i x) = h x) -> map g (imap f xs) = map h xs.
Proof.
  revert f. induction xs as [|x rest IH]; intros f Hf; [reflexivity|].
  cbn [imap map]. rewrite Hf. f_equal. apply IH. intros i y. apply Hf.
Qed.

(** X28: the engagement chart plots the first twenty records of its list
    and no other, one point each, in the order of a non-decreasing rate;
    the points are named "Day 1", "Day 2", ... in that order. *)
Theorem engagementTrendData_plots_the_first_twenty records :
  length (engagementTrendData records) = Nat.min 20 (length records)
  /\ Permutation (map Dashboard.engagement (engagementTrendData records))
       (map engagementRate (take 20 records))
  /\ StronglySorted Qle
       (map Dashboard.engagement (engagementTrendData records))
  /\ (forall i point, engagementTrendData records !! i = Some point ->
        Dashboard.name point
        = "Day " +:+ NumberToString (inject_Z (Z.of_nat i + 1))).
Proof.
  unfold engagementTrendData. rewrite slice_nonneg by lia.
  change (Z.to_nat 20 - Z.to_nat 0)%nat with 20%nat.
  change (drop (Z.to_nat 0) records) with records.
  set (cmp := fun a b : UserAccount =>
                numberSign (engagementRate a - engagementRate b)%Q).
  assert (Hcmp : forall a b, (0 <? cmp a b)%Z = true
                             <-> (engagementRate b < engagementRate a)%Q).
  { intros a b. apply rate_difference_positive. }
  assert (Hsorted : StronglySorted
                      (fun a b => (engagementRate a <= engagementRate b)%Q)
                      (Array_sort cmp (take 20 records))).
  { apply Array_sort_StronglySorted.
    - intros x y z Hxy Hyz. eapply Qle_trans; eauto.
    - intros x y H. apply Hcmp in H. now apply Qlt_le_weak.
    - intros x y H. apply Qnot_lt_le. intros Hlt. apply Hcmp in Hlt.
      congruence. }
  split; [|split; [|split]].
  - rewrite length_imap,
      (Permutation_length (Array_sort_Permutation _ _)), length_take.
    reflexivity.
  - rewrite (map_imap_const _ _ engagementRate) by reflexivity.
    apply Permutation_map, Array_sort_Permutation.
  - rewrite (map_imap_const _ _ engagementRate) by reflexivity.
    induction Hsorted as [|x rest Hrest IH Hall]; cbn [map]; constructor.
    + exact IH.
    + rewrite Forall_forall in Hall. apply Forall_forall. intros q Hq.
      apply list_elem_of_In, in_map_iff in Hq as (y & <- & Hy).
      apply Hall. now apply list_elem_of_In.
  - intros i point Hpoint. rewrite list_lookup_imap in Hpoint.
    destruct (Array_sort cmp (take 20 records) !! i) as [u|];
      [|discriminate Hpoint].
    cbn in Hpoint. now injection Hpoint as <-.
Qed.

Lemma lookupCount_bump p k counts :
  lookupCount p (bump k counts)
  = (lookupCount p counts + if String.eqb p k then 1 else 0)%nat.
Proof.
  induction counts as [|[k' n] rest IH]; cbn [bump lookupCount].
  - destruct (String.eqb p k); reflexivity.
  - destruct (String.eqb_spec k k') as [->|Hk]; cbn [lookupCount].
    + destruct (String.eqb p k'); lia.
    + destruct (String.eqb_spec p k') as [->|Hp].
      * apply String.eqb_neq in Hk. rewrite String.eqb_sym in Hk.
        rewrite Hk. lia.
      * apply IH.
Qed.

Lemma bump_keys k counts :
  map fst (bump k counts) = map fst counts
  \/ ((k ∉ map fst counts)
      /\ map fst (bump k counts) = map fst counts ++ [k]).
Proof.
  induction counts as [|[k' n] rest IH]; cbn [bump map fst].
  - right. split; [apply not_elem_of_nil | reflexivity].
  - destruct (String.eqb_spec k k') as [->|Hk]; cbn [map fst]; [now left|].
    destruct IH as [->|[Hout ->]]; [now left|]. right.
    split; [|reflexivity]. rewrite not_elem_of_cons. now split.
Qed.

Lemma bump_NoDup k counts :
  NoDup (map fst counts) -> NoDup (map fst (bump k counts)).
Proof.
  intros Hnd. destruct (bump_keys k counts) as [->|[Hout ->]]; [exact Hnd|].
  apply NoDup_app. split; [exact Hnd|]. split.
  - intros x Hx Hk. apply list_elem_of_singleton in Hk. now subst x.
  - apply NoDup_singleton.
Qed.

Lemma bump_sum k counts :
  sum_list (map snd (bump k counts)) = S (sum_list (map snd counts)).
Proof.
  induction counts as [|[k' n] rest IH]; [reflexivity|].
  cbn [bump]. destruct (String.eqb k k'); [reflexivity|].
  cbn [map snd sum_list_with]. rewrite IH. cbn. lia.
Qed.

Lemma lookupCount_elem p n counts :
  NoDup (map fst counts) -> (p, n) ∈ counts -> lookupCount p counts = n.
Proof.
  induction counts as [|[k m] rest IH]; intros Hnd Hin; [inversion Hin|].
  cbn [map fst] in Hnd. apply NoDup_cons in Hnd as [Hk Hnd].
  cbn [lookupCount]. apply elem_of_cons in Hin as [Heq|Hin].
  - injection Heq as -> ->. now rewrite String.eqb_refl.
  - destruct (String.eqb_spec p k) as [->|_]; [|now apply IH].
    exfalso. apply Hk. apply list_elem_of_In, in_map_iff.
    exists (k, n). split; [reflexivity | now apply list_elem_of_In].
Qed.

Lemma lookupCount_positive p counts :
  lookupCount p counts <> 0%nat -> (p, lookupCount p counts) ∈ counts.
Proof.
  induction counts as [|[k m] rest IH]; cbn [lookupCount]; [congruence|].
  destruct (String.eqb_spec p k) as [->|_]; intros H.
  - now left.
  - right. now apply IH.
Qed.

Lemma bump_positive k counts :
  Forall (fun kv => (1 <= snd kv)%nat) counts ->
  Forall (fun kv => (1 <= snd kv)%nat) (bump k counts).
Proof.
  induction counts as [|[k' n] rest IH]; cbn [bump]; intros Hall.
  - repeat constructor.
  - apply Forall_cons in Hall as [Hn Hrest].
    destruct (String.eqb k k'); constructor; cbn [snd] in *;
      try lia; auto.
Qed.

Lemma countOn_snoc p records d :
  countOn p (records ++ [d])
  = (countOn p records
     + if String.eqb p (Platform_name (platform d)) then 1 else 0)%nat.
Proof.
  unfold countOn. rewrite List.filter_app, length_app. cbn [List.filter].
  rewrite (String.eqb_sym p).
  now destruct (String.eqb (Platform_name (platform d)) p).
Qed.

Lemma platformData_invariant records :
  NoDup (map fst (platformData records))
  /\ Forall (fun kv => (1 <= snd kv)%nat) (platformData records)
  /\ sum_list (map snd (platformData records)) = length records
  /\ (forall p, lookupCount p (platformData records) = countOn p records).
Proof.
  unfold platformData.
  induction records as [|d records IH] using rev_ind.
  - cbn. split; [constructor|]. split; [constructor|]. now split.
  - rewrite foldl_snoc. destruct IH as (Hnd & Hpos & Hsum & Hcount).
    split; [now apply bump_NoDup|]. split; [now apply bump_positive|].
    split.
    + rewrite bump_sum, Hsum, length_app. cbn [length]. lia.
    + intros p. now rewrite lookupCount_bump, Hcount, countOn_snoc.
Qed.

(** X29: the platform chart has one slice per platform that has a record,
    and none for the others; the value of a slice is the number of records
    on its platform, so every value is at least 1 and the values add up to
    the number of records. *)
Theorem platformData_counts_every_record records :
  NoDup (map fst (platformData records))
  /\ (forall p n, (p, n) ∈ platformData records ->
        (1 <= n)%nat /\ n = countOn p records)
  /\ (forall d, d ∈ records ->
        (Platform_name (platform d),
         countOn (Platform_name (platform d)) records)
        ∈ platformData records)
  /\ sum_list (map snd (platformData records)) = length records.
Proof.
  destruct (platformData_invariant records) as (Hnd & Hpos & Hsum & Hcount).
  split; [exact Hnd|]. split; [|split; [|exact Hsum]].
  - intros p n Hin. split.
    + rewrite Forall_forall in Hpos. exact (Hpos (p, n) Hin).
    + rewrite <- Hcount. symmetry. now apply lookupCount_elem.
  - intros d Hd. rewrite <- Hcount. apply lookupCount_positive.
    rewrite Hcount. unfold countOn.
    assert (Hin : d ∈ List.filter
                    (fun d0 => String.eqb (Platform_name (platform d0))
                                 (Platform_name (platform d))) records).
    { apply elem_of_filter_bool. split; [exact Hd | apply String.eqb_refl]. }
    destruct (List.filter _ records); [inversion Hin | discriminate].
Qed.

(** ** The sign-in form *)

(** X30: whatever the identity provider answers, a submit of the sign-in
    form ends with the busy flag down and the typed fields kept; the
    success callback is called exactly when no error is shown; and an
    error shown is the configuration message or one of four fixed
    messages, the generic one for every code but three. *)
Theorem Login_submit_settles authConfigured signIn createUser updateProfile st :
  let after :=
    Login.handleSubmit authConfigured signIn createUser updateProfile st in
  Login.loading after.1 = false
  /\ (after.2 = true <-> Login.error after.1 = None)
  /\ Login.isLogin after.1 = Login.isLogin st
  /\ Login.email after.1 = Login.email st
  /\ Login.password after.1 = Login.password st
  /\ Login.name after.1 = Login.name st
  /\ (forall msg, Login.error after.1 = Some msg ->
        msg ∈ [ "Firebase is not configured. Please check services/firebase.ts";
                "Authentication failed."; "Invalid email or password.";
                "Email already in use.";
                "Password should be at least 6 characters." ])
  /\ (forall code, authConfigured = true ->
        Login.isLogin st = true -> signIn = Login.AuthError code ->
        Login.codeIs code "auth/invalid-credential" = false ->
        Login.codeIs code "auth/email-already-in-use" = false ->
        Login.codeIs code "auth/weak-password" = false ->
        Login.error after.1 = Some "Authentication failed.").
Proof.
  intros after. unfold after, Login.handleSubmit.
  assert (Hmsg : forall code,
             Login.errorMessage code
             ∈ [ "Firebase is not configured. Please check services/firebase.ts";
                 "Authentication failed."; "Invalid email or password.";
                 "Email already in use.";
                 "Password should be at least 6 characters." ]).
  { intros code. unfold Login.errorMessage.
    destruct (Login.codeIs code "auth/weak-password"),
      (Login.codeIs code "auth/email-already-in-use"),
      (Login.codeIs code "auth/invalid-credential");
      apply list_elem_of_In; simpl; auto 10. }
  destruct authConfigured; cbn [negb].
  - destruct (if Login.isLogin st then signIn
              else match createUser with
                   | Login.AuthOk =>
                       if truthy_string (Login.name st)
                       then updateProfile else Login.AuthOk
                   | Login.AuthError code => Login.AuthError code
                   end) as [|code] eqn:Hattempt;
      cbn [fst snd Login.settle Login.loading Login.error Login.isLogin
           Login.email Login.password Login.name].
    + repeat (split; [reflexivity|]). split; [now split|].
      repeat (split; [reflexivity|]). split; [discriminate|].
      intros code _ Hlogin Hsign. rewrite Hlogin, Hsign in Hattempt.
      discriminate.
    + split; [reflexivity|]. split; [split; discriminate|].
      repeat (split; [reflexivity|]). split.
      * intros msg Hm. injection Hm as <-. apply Hmsg.
      * intros code' _ Hlogin Hsign H1 H2 H3.
        rewrite Hlogin, Hsign in Hattempt. injection Hattempt as <-.
        unfold Login.errorMessage. now rewrite H1, H2, H3.
  - cbn [fst snd Login.settle Login.loading Login.error Login.isLogin
         Login.email Login.password Login.name].
    split; [reflexivity|]. split; [split; discriminate|].
    repeat (split; [reflexivity|]). split.
    + intros msg Hm. injection Hm as <-. apply list_elem_of_In. now left.
    + intros code Hc. discriminate Hc.
Qed.

End Console.

Arguments analyzeAccount JSON_parse {GroundingChunk} outcome.
Arguments getPlatformTrends {GroundingChunk} outcome.
Arguments groundingSources {GroundingChunk} response.
Arguments trendText {GroundingChunk} response.

(** * The properties on the sample records *)

(** Membership in a list that is written out. *)
Ltac list_member := apply list_elem_of_In; simpl; auto 10.

Lemma sample_page_ids_distinct :
  NoDup (map id (paginatedData hostStringToNumber sampleData
                   initialTableState)).
Proof. apply (bool_decide_unpack _). vm_compute. exact I. Defined.

Lemma singleton_not_empty (i : string) : ({[i]} : gset string) <> ∅.
Proof. set_solver. Defined.

(** With nothing selected, two toggles select the page and clear it again. *)
Lemma toggleSelectAll_twice_witness :
  selectedIds
    (toggleSelectAll hostStringToNumber sampleData
       (toggleSelectAll hostStringToNumber sampleData initialTableState))
  = selectedIds initialTableState
  <-> selectedIds initialTableState = ∅
      \/ selectedIds initialTableState
         = list_to_set (map id (paginatedData hostStringToNumber sampleData
                                  initialTableState)).
Proof.
  exact (toggleSelectAll_twice hostStringToNumber sampleData
           initialTableState sample_page_ids_distinct).
Defined.

(** C1 fails as stated: with [ann] selected on a page that shows [ann] and
    [bob], the first toggle selects both and the second clears the set. *)
Lemma toggleSelectAll_twice_counterexample :
  map id (paginatedData hostStringToNumber sampleData partlySelected)
  = ["a1"; "b2"]
  /\ selectedIds partlySelected = {["a1"]}
  /\ selectedIds
       (toggleSelectAll hostStringToNumber sampleData partlySelected)
     = {["a1"; "b2"]}
  /\ selectedIds
       (toggleSelectAll hostStringToNumber sampleData
          (toggleSelectAll hostStringToNumber sampleData partlySelected))
     = ∅
  /\ selectedIds
       (toggleSelectAll hostStringToNumber sampleData
          (toggleSelectAll hostStringToNumber sampleData partlySelected))
     <> selectedIds partlySelected.
Proof.
  split; [reflexivity|]. split; [reflexivity|].
  split; [now vm_compute|]. split; [now vm_compute|].
  replace (selectedIds
             (toggleSelectAll hostStringToNumber sampleData
                (toggleSelectAll hostStringToNumber sampleData
                   partlySelected)))
    with (∅ : gset string) by now vm_compute.
  intros H. symmetry in H. exact (singleton_not_empty "a1" H).
Qed.

(** The ids of the page have to be distinct: on a page that shows one id
    twice, the empty selection does not come back. *)
Example toggleSelectAll_twice_duplicate_ids :
  selectedIds
    (toggleSelectAll hostStringToNumber [ann; ann]
       (toggleSelectAll hostStringToNumber [ann; ann] initialTableState))
  = {["a1"]}.
Proof. now vm_compute. Qed.

(** A form opened on a record whose engagement rate is 150 cannot be
    submitted. *)
Lemma invalid_entry_is_blocked_witness :
  submitEntryForm hostEmailValid "2024-06-01T12:00:00.000Z" true sampleData
    (openEditModal dan initialTableState)
  = (None, openEditModal dan initialTableState).
Proof.
  apply (invalid_entry_is_blocked hostEmailValid).
  right. right. intros [_ H]. unfold Qle in H. simpl in H. lia.
Defined.

(** The check is the browser's alone: were [handleSubmit] run on that
    form, it would ask the store for the update. *)
Example handleSubmit_checks_nothing :
  entryForm_checkValidity hostEmailValid (spreadAccount dan) = false
  /\ exists updates,
       (handleSubmit "2024-06-01T12:00:00.000Z" true sampleData
          (openEditModal dan initialTableState)).1
       = onUpdateAccount (Some "d4") updates
       /\ Form.engagementRate updates = 150%Q.
Proof. split; [reflexivity|]. eexists. split; reflexivity. Qed.

(** C3 fails as stated: for an empty view the ceiling is 0, below 1, and
    the page count that is displayed is 1, which is not the ceiling. *)
Lemma totalPages_counterexample :
  filteredData hostStringToNumber [] initialTableState = []
  /\ totalPages hostStringToNumber [] initialTableState = 0%Z
  /\ ~ (1 <= totalPages hostStringToNumber [] initialTableState)%Z
  /\ totalPagesOr1 hostStringToNumber [] initialTableState = 1%Z
  /\ totalPagesOr1 hostStringToNumber [] initialTableState
     <> Qceiling (inject_Z (Z.of_nat (length (@nil UserAccount)))
                  / inject_Z ITEMS_PER_PAGE).
Proof.
  split; [reflexivity|]. split; [reflexivity|].
  split; [now vm_compute|]. split; [reflexivity|].
  now vm_compute.
Qed.

(** The sample collection, unfiltered and unsorted, splits into its active
    and its archived records. *)
Lemma view_modes_partition_witness :
  let activeView :=
    filteredData hostStringToNumber sampleData
      (setViewMode view_active initialTableState) in
  let archivedView :=
    filteredData hostStringToNumber sampleData
      (setViewMode view_archived initialTableState) in
  (forall x, x ∈ activeView -> x ∉ archivedView)
  /\ (forall x, x ∈ sampleData -> x ∈ activeView \/ x ∈ archivedView)
  /\ (forall x, x ∈ activeView \/ x ∈ archivedView -> x ∈ sampleData)
  /\ (length activeView + length archivedView = length sampleData)%nat
  /\ Permutation (activeView ++ archivedView) sampleData.
Proof.
  exact (view_modes_partition hostStringToNumber sampleData
           initialTableState eq_refl eq_refl eq_refl).
Defined.

(** The two views of the sample collection. *)
Example sample_views :
  filteredData hostStringToNumber sampleData
    (setViewMode view_active initialTableState) = [ann; bob]
  /\ filteredData hostStringToNumber sampleData
       (setViewMode view_archived initialTableState) = [cyd].
Proof. split; reflexivity. Qed.

Lemma sample_selection_in_store (i : string) :
  i ∈ selectedIds partlySelected -> hasDoc sampleData i = true.
Proof.
  intros Hi. change (i ∈ ({["a1"]} : gset string)) in Hi.
  apply elem_of_singleton in Hi. subst i. reflexivity.
Defined.

(** Archiving [ann]: the selection is cleared and, in the refreshed
    collection, [ann] carries the flag. *)
Lemma bulk_archive_then_refresh_witness :
  let after :=
    bulkRoundTrip false true true archive sampleData sampleApp
      partlySelected in
  selectedIds after.2 = ∅
  /\ data after.1.2 = after.1.1
  /\ map id (data after.1.2) = map id sampleData
  /\ (forall i, i ∈ selectedIds partlySelected ->
                exists d, d ∈ data after.1.2 /\ id d = i)
  /\ (forall d, d ∈ data after.1.2 -> id d ∈ selectedIds partlySelected ->
      isArchived d = Some true
      /\ (forall v, viewMode v = view_archived -> searchTerm v = "" ->
                    showFavoritesOnly v = false ->
                    d ∈ filteredData hostStringToNumber (data after.1.2) v)
      /\ (forall v, viewMode v = view_active ->
                    d ∉ filteredData hostStringToNumber (data after.1.2) v)).
Proof.
  exact (bulk_archive_then_refresh hostStringToNumber false sampleData
           sampleApp partlySelected (singleton_not_empty "a1")
           eq_refl eq_refl sample_selection_in_store).
Defined.

Example sample_bulk_archive :
  (bulkRoundTrip false true true archive sampleData sampleApp
     partlySelected).1.1
  = [withIsArchived true ann; bob; cyd].
Proof. now vm_compute. Qed.

(** A failed commit changes neither the store nor the collection, and the
    selection is cleared all the same. *)
Example sample_bulk_archive_failed :
  bulkRoundTrip false false true archive sampleData sampleApp partlySelected
  = (sampleData, sampleApp, setSelectedIds ∅ partlySelected).
Proof. now vm_compute. Qed.

Lemma sample_tags_clean : Forall cleanTag ["vip"; "growth"].
Proof. repeat constructor; discriminate. Defined.

(** Editing [gus] and submitting at once: the log gains one entry, and
    the username, the two tags and the other properties go back as they
    are. *)
Lemma edit_submission_appends_log_witness :
  exists updates,
    (handleSubmit "2024-06-01T12:00:00.000Z" true [ann; gus]
       (openEditModal gus initialTableState)).1
    = onUpdateAccount (Some "g7") updates
    /\ Form.history updates
       = Some [ {| date := "2024-01-01T00:00:00.000Z";
                   action := "Account Created";
                   details := Some "Initial entry" |};
                {| date := "2024-06-01T12:00:00.000Z";
                   action := "Profile Updated"; details := None |} ]
    /\ carriesAccount updates gus
    /\ Form.username updates = "@gus"
    /\ Form.tags updates = ["vip"; "growth"].
Proof.
  destruct (edit_submission_appends_log "2024-06-01T12:00:00.000Z" true
              [ann; gus] (openEditModal gus initialTableState) "g7" gus
              eq_refl eq_refl eq_refl)
    as (updates & Hcall & Hlog & _ & _ & _ & _ & Hsame & Hname & Htags).
  exists updates. split; [exact Hcall|]. split; [exact Hlog|].
  split; [exact (Hsame eq_refl)|]. split; [exact (Hname eq_refl)|].
  exact (Htags eq_refl sample_tags_clean).
Defined.

(** What the tags input gives when it is not the record's own tags joined:
    the tags of the submission are read from the text of the input. *)
Example edit_reads_tags_from_input :
  payload
    (handleSubmit "2024-06-01T12:00:00.000Z" true [ann; gus]
       (setModal true mode_edit false (spreadAccount gus)
          " vip, , growth ,,brand" initialTableState)).1
  = Some (spreadForm (spreadAccount gus) "@gus" ["vip"; "growth"; "brand"]
            (Some "https://example.org/gus.png")
            (Some [ {| date := "2024-01-01T00:00:00.000Z";
                       action := "Account Created";
                       details := Some "Initial entry" |};
                    {| date := "2024-06-01T12:00:00.000Z";
                       action := "Profile Updated"; details := None |} ])).
Proof. reflexivity. Qed.

(** The two usernames of the specification, through the add form. *)
Example alice_and_bob :
  payload (handleSubmit "2024-06-01T12:00:00.000Z" true []
             (setModal true mode_add false
                (spreadForm initialFormState "alice" [] None None) ""
                initialTableState)).1
  = Some (spreadForm initialFormState "@alice" []
            (Some "https://ui-avatars.com/api/?name=alice&background=random&color=fff")
            (Some [ {| date := "2024-06-01T12:00:00.000Z";
                       action := "Account Created";
                       details := Some "Initial entry" |} ]))
  /\ normalizeUsername "alice" = "@alice"
  /\ normalizeUsername "@bob" = "@bob".
Proof. repeat split. Qed.

Example sample_parseTags :
  parseTags " vip, , growth ,,brand" = ["vip"; "growth"; "brand"]
  /\ parseTags "" = [].
Proof. split; reflexivity. Qed.

(** The white space stripped is not that of ASCII alone. *)
Example sample_parseTags_no_break_space :
  parseTags (noBreakSpace +:+ "vip" +:+ noBreakSpace +:+ ", growth")
  = ["vip"; "growth"]
  /\ trim (noBreakSpace +:+ " a b " +:+ noBreakSpace) = "a b".
Proof. split; reflexivity. Qed.

(** A well-formed answer is handed back, and an answer with text keeps it. *)
Example sample_ai_success :
  analyzeAccount hostJsonParse
    (Fulfilled {| Gemini.text := Some "{}";
                  Gemini.candidates := @None (list (Gemini.Candidate unit)) |})
  = Some (JsonObject [])
  /\ getPlatformTrends
       (Fulfilled {| Gemini.text := Some "Short video is up.";
                     Gemini.candidates :=
                       Some [ {| Gemini.groundingMetadata :=
                                   Some {| Gemini.groundingChunks :=
                                             Some [tt; tt] |} |} ] |})
     = Some {| text := "Short video is up."; sources := [tt; tt] |}.
Proof. split; reflexivity. Qed.

(** C8 fails as stated: a response without text is a failure, and for it
    [analyzeAccount] returns null, yet [getPlatformTrends] hands back the
    two grounding chunks of the response, not an empty list, and a text
    that is not the text of a rejected call. *)
Lemma ai_failure_shapes_counterexample :
  Gemini.text textlessResponse = None
  /\ analyzeAccount hostJsonParse (Fulfilled textlessResponse) = None
  /\ getPlatformTrends (Fulfilled textlessResponse)
     = Some {| text := "No trend data available."; sources := [tt; tt] |}
  /\ (exists trends,
        getPlatformTrends (Fulfilled textlessResponse) = Some trends
        /\ sources trends <> []
        /\ length (sources trends) = 2%nat)
  /\ getPlatformTrends (@Rejected (Gemini.GenerateContentResponse unit))
     = Some {| text := "Failed to fetch live trends."; sources := [] |}
  /\ (exists failed empty,
        getPlatformTrends (@Rejected (Gemini.GenerateContentResponse unit))
        = Some failed
        /\ getPlatformTrends (Fulfilled textlessResponse) = Some empty
        /\ text failed <> text empty).
Proof.
  split; [reflexivity|]. split; [reflexivity|]. split; [reflexivity|].
  split.
  - eexists. split; [reflexivity|]. split; [discriminate | reflexivity].
  - split; [reflexivity|]. eexists _, _.
    split; [reflexivity|]. split; [reflexivity|]. discriminate.
Qed.

(** In the sample collection [bob], at 4.999, overtakes [ann], at 5.0. *)
Lemma sort_by_engagement_ascending_witness :
  before bob ann (filteredData hostStringToNumber sampleData sortedByRate).
Proof.
  destruct (sort_by_engagement_ascending hostStringToNumber sampleData
              sortedByRate eq_refl) as (_ & Hrates & _).
  apply (Hrates bob ann).
  - change (bob ∈ [bob; ann]). list_member.
  - change (ann ∈ [bob; ann]). list_member.
  - reflexivity.
  - reflexivity.
Defined.

(** [ann] and [eve] have the same rate and keep their order behind [bob]. *)
Example sample_sort_is_stable :
  filteredData hostStringToNumber [ann; bob; eve] sortedByRate
  = [bob; ann; eve]
  /\ filteredData hostStringToNumber [eve; bob; ann] sortedByRate
     = [bob; eve; ann].
Proof. split; reflexivity. Qed.

(** [cyd], archived, was selected before the view went back to the active
    records: the view does not show it and the export holds its line. *)
Lemma export_draws_selected_from_collection_witness :
  (cyd ∉ filteredData hostStringToNumber sampleData archivedSelected)
  /\ exportSource hostStringToNumber sampleData archivedSelected = [cyd]
  /\ cyd ∈ exportSource hostStringToNumber sampleData archivedSelected
  /\ csvRow hostNumberToString cyd
     ∈ csvLines hostStringToNumber hostNumberToString sampleData
         archivedSelected
  /\ handleExport hostStringToNumber hostNumberToString sampleData
       archivedSelected
     = "ID,Username,Platform,Followers,Manager,Status,Email" +:+ newline
       +:+ "c3,@cyd,Twitter,1200,,Active,"
  /\ includes
       (handleExport hostStringToNumber hostNumberToString sampleData
          archivedSelected)
       "c3,@cyd,Twitter,1200,,Active," = true.
Proof.
  destruct (export_draws_selected_from_collection hostStringToNumber
              hostNumberToString sampleData archivedSelected
              (singleton_not_empty "c3")) as (Hsrc & Htext & Hin & _).
  assert (Hcyd : cyd ∈ sampleData) by (unfold sampleData; list_member).
  assert (Hsel : id cyd ∈ selectedIds archivedSelected).
  { change ("c3" ∈ ({["c3"]} : gset string)).
    apply elem_of_singleton. reflexivity. }
  destruct (Hin cyd Hcyd Hsel) as (Hsource & Hline & _ & Hshown).
  split.
  - intros Hview. apply elem_of_filteredData in Hview as [_ Hview].
    discriminate Hview.
  - split; [rewrite Hsrc; now vm_compute|].
    split; [exact Hsource|]. split; [exact Hline|].
    split; [rewrite Htext; now vm_compute | exact Hshown].
Defined.

Example sample_export :
  handleExport hostStringToNumber hostNumberToString sampleData
    archivedSelected
  = "ID,Username,Platform,Followers,Manager,Status,Email" +:+ newline
    +:+ "c3,@cyd,Twitter,1200,,Active,".
Proof. now vm_compute. Qed.

(** * The further properties on the sample records *)

Arguments runAudit JSON_parse {GroundingChunk}
  rendersAsSource analysisOutcome trendsOutcome ps.
Arguments panelRenders {GroundingChunk} rendersAsSource ps.
Arguments openDetails {GroundingChunk} user ps.

(** [bob], at 4.999, before [ann], at 5.0. *)
Lemma sorted_view_in_order_witness :
  inOrder hostStringToNumber
    {| key := by_engagementRate; direction := asc |} bob ann.
Proof.
  apply (sorted_view_in_order hostStringToNumber sampleData sortedByRate
           {| key := by_engagementRate; direction := asc |} bob ann eq_refl).
  exists [], [], []. reflexivity.
Defined.

(** [bob], who has no manager, before [fay], whose manager is Hal. *)
Lemma unmanaged_records_first_witness :
  before bob fay (filteredData hostStringToNumber [fay; bob] sortedByManager).
Proof.
  apply (unmanaged_records_first hostStringToNumber [fay; bob]
           sortedByManager bob fay "Hal" eq_refl).
  - change (bob ∈ [bob; fay]). list_member.
  - change (fay ∈ [bob; fay]). list_member.
  - now left.
  - reflexivity.
  - discriminate.
Defined.

Lemma search_ignores_case_of_term_witness :
  filteredData hostStringToNumber sampleData
    (setSearchTerm "ANN" initialTableState)
  = filteredData hostStringToNumber sampleData
      (setSearchTerm "ann" initialTableState).
Proof.
  exact (search_ignores_case_of_term hostStringToNumber sampleData
           initialTableState "ANN" "ann" eq_refl).
Defined.

(** Typing "WONG" finds [fay] by her real name. *)
Lemma search_finds_any_field_witness :
  fay ∈ filteredData hostStringToNumber [ann; fay]
          (setSearchTerm "WONG" initialTableState).
Proof.
  apply (search_finds_any_field hostStringToNumber [ann; fay]
           initialTableState fay "Wong" "WONG" eq_refl eq_refl eq_refl).
  - discriminate.
  - reflexivity.
  - list_member.
  - reflexivity.
  - right. right. left. exists "Fay Wong". now repeat split.
Defined.

Example sample_search :
  filteredData hostStringToNumber [ann; fay]
    (setSearchTerm "WONG" initialTableState) = [fay]
  /\ filteredData hostStringToNumber [ann; fay]
       (setSearchTerm "insta" initialTableState) = [fay]
  /\ filteredData hostStringToNumber [ann; fay]
       (setSearchTerm "@" initialTableState) = [ann; fay].
Proof. repeat split. Qed.

Lemma parseTags_gives_clean_tags_witness : cleanTag "growth".
Proof.
  apply (parseTags_gives_clean_tags " vip, , growth ,,brand" "growth").
  change ("growth" ∈ ["vip"; "growth"; "brand"]). list_member.
Defined.

(** An edit of [fay] submitted as opened hands back her two tags. *)
Lemma clean_tags_survive_edit_witness :
  parseTags (tagsInputOf fay) = ["vip"; "growth"]
  /\ exists updates,
       payload (submitIntent "2024-06-01T12:00:00.000Z" [fay]
                  (openEditModal fay initialTableState))
       = Some updates
       /\ Form.tags updates = ["vip"; "growth"].
Proof.
  exact (clean_tags_survive_edit "2024-06-01T12:00:00.000Z" [fay]
           initialTableState fay sample_tags_clean).
Defined.

(** A tag that is not clean does not survive: one holding a comma comes
    back as two tags. *)
Example sample_tag_with_comma :
  parseTags (join ", " ["a,b"; " c "]) = ["a"; "b"; "c"].
Proof. reflexivity. Qed.

(** [cyd] edited while the collection no longer holds it. *)
Lemma edit_of_missing_record_witness :
  exists updates,
    submitIntent "2024-06-01T12:00:00.000Z" [ann; bob]
      (openEditModal cyd initialTableState)
    = onUpdateAccount (Some "c3") updates
    /\ Form.history updates
       = Some [ {| date := "2024-06-01T12:00:00.000Z";
                   action := "Profile Updated"; details := None |} ].
Proof.
  exact (edit_of_missing_record "2024-06-01T12:00:00.000Z" [ann; bob]
           (openEditModal cyd initialTableState) eq_refl eq_refl).
Defined.

(** Deleting the selection of [ann] leaves [bob] and [cyd]. *)
Lemma bulk_delete_then_refresh_witness :
  let after :=
    bulkRoundTrip true true true delete sampleData sampleApp partlySelected in
  selectedIds after.2 = ∅
  /\ data after.1.2 = after.1.1
  /\ (forall d, d ∈ data after.1.2
                <-> d ∈ sampleData /\ id d ∉ selectedIds partlySelected)
  /\ sublist (data after.1.2) sampleData
  /\ (forall v d, d ∈ filteredData hostStringToNumber (data after.1.2) v ->
                  id d ∉ selectedIds partlySelected).
Proof.
  exact (bulk_delete_then_refresh hostStringToNumber sampleData sampleApp
           partlySelected (singleton_not_empty "a1") eq_refl eq_refl).
Defined.

Example sample_bulk_delete :
  (bulkRoundTrip true true true delete sampleData sampleApp
     partlySelected).1.1 = [bob; cyd].
Proof. now vm_compute. Qed.

Lemma sample_archived_selection_in_store (i : string) :
  i ∈ selectedIds archivedSelected -> hasDoc sampleData i = true.
Proof.
  intros Hi. change (i ∈ ({["c3"]} : gset string)) in Hi.
  apply elem_of_singleton in Hi. subst i. reflexivity.
Defined.

(** Restoring [cyd]. *)
Lemma bulk_restore_then_refresh_witness :
  let after :=
    bulkRoundTrip false true true restore sampleData sampleApp
      archivedSelected in
  selectedIds after.2 = ∅
  /\ (forall d, d ∈ data after.1.2 -> id d ∈ selectedIds archivedSelected ->
      isArchived d = Some false
      /\ (forall v, viewMode v = view_active -> searchTerm v = "" ->
                    showFavoritesOnly v = false ->
                    d ∈ filteredData hostStringToNumber (data after.1.2) v)
      /\ (forall v, viewMode v = view_archived ->
                    d ∉ filteredData hostStringToNumber (data after.1.2) v)).
Proof.
  exact (bulk_restore_then_refresh hostStringToNumber false sampleData
           sampleApp archivedSelected (singleton_not_empty "c3")
           eq_refl eq_refl sample_archived_selection_in_store).
Defined.

Lemma bulk_flag_touches_only_the_flag_witness :
  let after :=
    bulkRoundTrip false true true archive sampleData sampleApp
      partlySelected in
  length (data after.1.2) = length sampleData
  /\ (forall n d, sampleData !! n = Some d ->
      exists d', data after.1.2 !! n = Some d'
        /\ withIsArchived true d' = withIsArchived true d
        /\ (id d ∈ selectedIds partlySelected ->
            isArchived d' = Some (flagOf archive))
        /\ (id d ∉ selectedIds partlySelected -> d' = d)).
Proof.
  exact (bulk_flag_touches_only_the_flag false archive sampleData sampleApp
           partlySelected eq_refl (singleton_not_empty "a1") eq_refl eq_refl
           sample_selection_in_store).
Defined.

(** Deleting [ann]. *)
Lemma delete_then_refresh_witness :
  let after := deleteRoundTrip true true true "a1" sampleData sampleApp in
  after.2 = false
  /\ data after.1.2 = after.1.1
  /\ (forall d, d ∈ data after.1.2 <-> d ∈ sampleData /\ id d <> "a1")
  /\ sublist (data after.1.2) sampleData
  /\ (forall v d, d ∈ filteredData hostStringToNumber (data after.1.2) v ->
                  id d <> "a1")
  /\ (forall deleteOk fetchOk,
        deleteRoundTrip false deleteOk fetchOk "a1" sampleData sampleApp
        = (sampleData, sampleApp, false)).
Proof.
  exact (delete_then_refresh hostStringToNumber "a1" sampleData sampleApp
           eq_refl eq_refl).
Defined.

Lemma sample_ann_selected : "a1" ∈ selectedIds bothSelected.
Proof.
  change ("a1" ∈ ({["a1"; "b2"]} : gset string)).
  apply elem_of_union_l, elem_of_singleton. reflexivity.
Defined.

(** [ann] and [bob] are selected, [ann] is deleted, and the archive of the
    selection fails: [bob] is not archived, the shell shows the alert and
    the selection is cleared. *)
Lemma deleted_id_fails_the_batch_witness :
  let afterDelete :=
    deleteRoundTripOnTable true true true "a1" sampleData sampleApp
      bothSelected in
  let afterBulk :=
    bulkRoundTrip false true true archive
      afterDelete.1.1 afterDelete.1.2 afterDelete.2 in
  selectedIds afterDelete.2 = selectedIds bothSelected
  /\ "a1" ∈ selectedIds afterDelete.2
  /\ hasDoc afterDelete.1.1 "a1" = false
  /\ handleBulk false archive afterDelete.2
     = (Some (onBulkAction (elements (selectedIds bothSelected)) archive),
        setSelectedIds ∅ bothSelected)
  /\ "a1" ∈ elements (selectedIds bothSelected)
  /\ handleBulkAction true true (elements (selectedIds bothSelected)) archive
       afterDelete.1.1 afterDelete.1.2
     = (afterDelete.1.1, afterDelete.1.2, true)
  /\ afterBulk
     = (afterDelete.1.1, afterDelete.1.2, setSelectedIds ∅ bothSelected).
Proof.
  exact (deleted_id_fails_the_batch false true archive "a1" sampleData
           sampleApp bothSelected eq_refl eq_refl eq_refl
           sample_ann_selected).
Defined.

Example sample_stale_selection :
  deleteRoundTripOnTable true true true "a1" sampleData sampleApp bothSelected
  = ([bob; cyd], setData [bob; cyd] false sampleApp, bothSelected)
  /\ (bulkRoundTrip false true true archive [bob; cyd]
        (setData [bob; cyd] false sampleApp) bothSelected).1
     = ([bob; cyd], setData [bob; cyd] false sampleApp)
  /\ bulkRoundTrip false true true archive [bob; cyd]
       (setData [bob; cyd] false sampleApp)
       (setSelectedIds {["b2"]} initialTableState)
     = ([withIsArchived true bob; cyd],
        setData [withIsArchived true bob; cyd] false sampleApp,
        setSelectedIds ∅ (setSelectedIds {["b2"]} initialTableState)).
Proof. repeat split; now vm_compute. Qed.

(** An audit whose two calls are rejected wipes the analysis the panel
    showed and shows the fallback trends. *)
Lemma runAudit_settles_or_unmounts_witness :
  runAudit hostJsonParse hostRendersAsSource Rejected Rejected samplePanel
  = Some {| selectedAccount := Some ann; isAnalyzing := false;
            analysis := None;
            platformTrends :=
              Some {| text := "Failed to fetch live trends.";
                      sources := [] |} |}.
Proof.
  destruct (runAudit_settles_or_unmounts hostJsonParse unit
              hostRendersAsSource Rejected Rejected samplePanel ann
              eq_refl eq_refl)
    as (_ & _ & _ & Hboth).
  exact (Hboth eq_refl eq_refl).
Defined.

(** An audit whose first call answers with the empty object, which is
    truthy and has no [strengths]: the panel cannot render it, and the
    table is gone. *)
Example sample_audit_unmounts :
  analyzeAccount hostJsonParse
    (Fulfilled {| Gemini.text := Some "{}";
                  Gemini.candidates :=
                    @None (list (Gemini.Candidate unit)) |})
  = Some (JsonObject [])
  /\ rendersAsAnalysis (JsonObject []) = false
  /\ rendersAsAnalysis sampleReport = true
  /\ runAudit hostJsonParse hostRendersAsSource
       (Fulfilled {| Gemini.text := Some "{}";
                     Gemini.candidates :=
                       @None (list (Gemini.Candidate unit)) |})
       (Fulfilled textlessResponse) samplePanel
     = None.
Proof. repeat split. Qed.

(** A row of the export whose username holds a comma does not split back
    into its cells. *)
Example sample_csv_comma :
  length (split "," (csvRow hostNumberToString
                       (sampleAccount "z9" "@a,b" (1 # 1) None None)))
  = 8%nat
  /\ split "," (csvRow hostNumberToString ann)
     = ["a1"; "@ann"; "Twitter"; "1200"; ""; "Active"; ""].
Proof. split; reflexivity. Qed.

(** The dashboard on the sample records. *)
Example sample_dashboard :
  platformData [ann; fay; bob] = [("Twitter", 2%nat); ("Instagram", 1%nat)]
  /\ topPerformers [bob; fay; ann; bob; bob; eve] = [ann; bob; bob; bob; fay]
  /\ map Dashboard.name (engagementTrendData hostNumberToString [ann; bob])
     = ["Day 1"; "Day 2"]
  /\ map Dashboard.engagement
       (engagementTrendData hostNumberToString [ann; bob])
     = [(4999 # 1000)%Q; (5 # 1)%Q].
Proof. repeat split. Qed.

Example sample_render :
  renderContent DASHBOARD sampleApp = DashboardOf [ann; bob]
  /\ renderContent SETTINGS sampleApp = SettingsOf 3 1
  /\ renderContent DASHBOARD (setData [cyd] false sampleApp) = DashboardOf []
  /\ renderContent SETTINGS (setData [] true sampleApp) = LoadingDatabase.
Proof. repeat split. Qed.

Example sample_login :
  Login.handleSubmit true (Login.AuthError (Some "auth/invalid-credential"))
    Login.AuthOk Login.AuthOk
    {| Login.isLogin := true; Login.email := "a@b.c";
       Login.password := "secret"; Login.name := ""; Login.loading := true;
       Login.error := None |}
  = ({| Login.isLogin := true; Login.email := "a@b.c";
        Login.password := "secret"; Login.name := ""; Login.loading := false;
        Login.error := Some "Invalid email or password." |}, false).
Proof. reflexivity. Qed.
